(** * kube-bind example backend: the authorization handshake

    A shallow embedding of the HTTP handlers of
    [contrib/example-backend] (authorize, callback, resources, bind), of
    the codecs they rely on (encoding/base64, encoding/json, unicode/utf8,
    strings) and of the provider-side [ensureResourcesExist] step of the
    service-export reconciler, together with the properties the
    specification states about them; then of the rest of the backend (its
    options, the constructor of the handler, the export endpoint) and of
    the rest of the reconciler, with further properties of the code.

    Go strings and byte slices are sequences of bytes: they are modelled
    as [string], whose characters ([ascii]) are exactly the 256 byte
    values.  Machine integers are modelled in [Z]. *)

From Stdlib Require Import ZArith Lia List Bool Ascii String DecimalString.
From Stdlib Require Import Permutation.
Import ListNotations.

Local Open Scope string_scope.
Local Open Scope Z_scope.

(** ** Bytes *)

(** [uint(b)]: the numeric value of a byte. *)
Definition byteZ (a : ascii) : Z := Z.of_N (N_of_ascii a).

(** [byte(x)]: conversion of an unsigned integer to a byte keeps the low
    eight bits. *)
Definition Zbyte (z : Z) : ascii := ascii_of_N (Z.to_N (z mod 256)).

(** ** Errors

    Go's [error] values.  The handlers only test them against [nil] and
    render them with [Error()]; the diagnostic detail that encoding/json
    attaches to its errors is not modelled. *)
Inductive error : Type :=
| CorruptInputError (offset : Z)        (* encoding/base64 *)
| SyntaxError                           (* encoding/json: invalid JSON *)
| UnmarshalTypeError (value : string)   (* encoding/json: wrong JSON type *)
| ErrNoCookie                           (* net/http: named cookie not present *)
| errorString (text : string).          (* errors of the collaborators *)

Inductive result (A : Type) : Type :=
| Ok (a : A)
| Err (e : error).
Arguments Ok {A} a.
Arguments Err {A} e.

Definition isOk {A} (r : result A) : bool :=
  match r with Ok _ => true | Err _ => false end.

(** ** encoding/base64 *)
Module base64.

Record Encoding : Type := {
  encode : string;             (* the 64-character alphabet *)
  padChar : option ascii       (* [None] is [NoPadding] *)
}.

Definition encodeStd : string :=
  "ABCDEFGHIJKLMNOPQRSTUVWXYZabcdefghijklmnopqrstuvwxyz0123456789+/".
Definition encodeURL : string :=
  "ABCDEFGHIJKLMNOPQRSTUVWXYZabcdefghijklmnopqrstuvwxyz0123456789-_".

Definition StdEncoding : Encoding :=
  {| encode := encodeStd; padChar := Some "="%char |}.
Definition RawURLEncoding : Encoding :=
  {| encode := encodeURL; padChar := None |}.

(** [enc.encode[v]] *)
Definition encodeAt (enc : Encoding) (v : Z) : ascii :=
  match String.get (Z.to_nat v) (encode enc) with
  | Some c => c
  | None => "000"%char
  end.

Fixpoint indexFrom (c : ascii) (s : string) (i : Z) : option Z :=
  match s with
  | EmptyString => None
  | String d s' => if Ascii.eqb c d then Some i else indexFrom c s' (i + 1)
  end.

(** [enc.decodeMap[c]]; [None] stands for the 0xff entries. *)
Definition decodeMap (enc : Encoding) (c : ascii) : option Z :=
  indexFrom c (encode enc) 0.

(** The 24-bit group of three source bytes. *)
Definition group3 (a b c : ascii) : Z :=
  Z.lor (Z.lor (Z.shiftl (byteZ a) 16) (Z.shiftl (byteZ b) 8)) (byteZ c).

Definition sextet (val k : Z) : Z := Z.land (Z.shiftr val k) 63.

Definition padding (enc : Encoding) (n : nat) : string :=
  match padChar enc with
  | Some p => string_of_list_ascii (repeat p n)
  | None => ""
  end.

(** [Encoding.EncodeToString] *)
Fixpoint EncodeToString (enc : Encoding) (src : string) : string :=
  match src with
  | String a (String b (String c rest)) =>
      let val := group3 a b c in
      String (encodeAt enc (sextet val 18))
     (String (encodeAt enc (sextet val 12))
     (String (encodeAt enc (sextet val 6))
     (String (encodeAt enc (sextet val 0))
             (EncodeToString enc rest))))
  | String a (String b EmptyString) =>
      let val := Z.lor (Z.shiftl (byteZ a) 16) (Z.shiftl (byteZ b) 8) in
      String (encodeAt enc (sextet val 18))
     (String (encodeAt enc (sextet val 12))
     (String (encodeAt enc (sextet val 6))
             (padding enc 1)))
  | String a EmptyString =>
      let val := Z.shiftl (byteZ a) 16 in
      String (encodeAt enc (sextet val 18))
     (String (encodeAt enc (sextet val 12))
             (padding enc 2))
  | EmptyString => ""
  end.

Definition isNewline (c : ascii) : bool :=
  Ascii.eqb c "010"%char || Ascii.eqb c "013"%char.

(** The loops [for si < len(src) && (src[si] == '\n' || src[si] == '\r')]. *)
Fixpoint skipNewlines (src : string) (si : Z) : string * Z :=
  match src with
  | String c rest => if isNewline c then skipNewlines rest (si + 1) else (src, si)
  | EmptyString => (src, si)
  end.

(** [val] of [decodeQuantum]: four 6-bit values packed into 24 bits. *)
Definition assemble (d0 d1 d2 d3 : Z) : Z :=
  Z.lor (Z.lor (Z.lor (Z.shiftl d0 18) (Z.shiftl d1 12)) (Z.shiftl d2 6)) d3.

(** The bytes a quantum of [dlen] collected characters yields
    ([dlen - 1] of them). *)
Definition flush (dbuf : list Z) : string :=
  match dbuf with
  | [d0; d1] =>
      let val := assemble d0 d1 0 0 in
      String (Zbyte (Z.shiftr val 16)) ""
  | [d0; d1; d2] =>
      let val := assemble d0 d1 d2 0 in
      String (Zbyte (Z.shiftr val 16)) (String (Zbyte (Z.shiftr val 8)) "")
  | [d0; d1; d2; d3] =>
      let val := assemble d0 d1 d2 d3 in
      String (Zbyte (Z.shiftr val 16))
     (String (Zbyte (Z.shiftr val 8))
     (String (Zbyte val) ""))
  | _ => ""
  end.

Definition isPad (enc : Encoding) (c : ascii) : bool :=
  match padChar enc with
  | Some p => Ascii.eqb c p
  | None => false
  end.

(** [Encoding.Decode], the loop over [decodeQuantum]: [src] is the
    input from index [si] on and [dbuf] holds the characters of the
    current quantum decoded so far ([j = length dbuf < 4]).  On an
    error Go also returns the bytes decoded so far; every caller here
    drops them. *)
Fixpoint decodeFrom (enc : Encoding) (src : string) (si : Z) (dbuf : list Z)
  : result string :=
  match src with
  | EmptyString =>
      match dbuf with
      | [] => Ok ""
      | [_] => Err (CorruptInputError (si - 1))
      | _ =>
          match padChar enc with
          | Some _ => Err (CorruptInputError (si - Z.of_nat (List.length dbuf)))
          | None => Ok (flush dbuf)
          end
      end
  | String c rest =>
      match decodeMap enc c with
      | Some out =>
          match dbuf with
          | [d0; d1; d2] =>
              match decodeFrom enc rest (si + 1) [] with
              | Ok tl => Ok (flush [d0; d1; d2; out] ++ tl)
              | Err e => Err e
              end
          | _ => decodeFrom enc rest (si + 1) (dbuf ++ [out])%list
          end
      | None =>
          if isNewline c then decodeFrom enc rest (si + 1) dbuf
          else if negb (isPad enc c) then Err (CorruptInputError si)
          else
            match dbuf with
            | [_; _] =>
                (* "==" is expected, the first "=" is already consumed *)
                let '(rest1, si1) := skipNewlines rest (si + 1) in
                match rest1 with
                | EmptyString => Err (CorruptInputError si1)
                | String c2 rest2 =>
                    if negb (isPad enc c2) then Err (CorruptInputError (si1 - 1))
                    else
                      let '(rest3, si3) := skipNewlines rest2 (si1 + 1) in
                      match rest3 with
                      | EmptyString => Ok (flush dbuf)
                      | String _ _ => Err (CorruptInputError si3)
                      end
                end
            | [_; _; _] =>
                let '(rest3, si3) := skipNewlines rest (si + 1) in
                match rest3 with
                | EmptyString => Ok (flush dbuf)
                | String _ _ => Err (CorruptInputError si3)
                end
            | _ => Err (CorruptInputError si)   (* incorrect padding *)
            end
      end
  end.

(** [Encoding.DecodeString] *)
Definition DecodeString (enc : Encoding) (s : string) : result string :=
  decodeFrom enc s 0 [].

End base64.

(** ** strings *)
Module strings.

(** [strings.Split(s, sep)] for a one-byte separator: all the fields
    between occurrences of [sep]; the result is never empty. *)
Fixpoint Split (s : string) (sep : ascii) : list string :=
  match s with
  | EmptyString => [""]
  | String c r =>
      if Ascii.eqb c sep then "" :: Split r sep
      else
        match Split r sep with
        | hd :: tl => String c hd :: tl
        | [] => [String c ""]
        end
  end.

(** The text before and after the first occurrence of [sep]. *)
Fixpoint Cut (s : string) (sep : ascii) : option (string * string) :=
  match s with
  | EmptyString => None
  | String c r =>
      if Ascii.eqb c sep then Some ("", r)
      else
        match Cut r sep with
        | Some (before, after) => Some (String c before, after)
        | None => None
        end
  end.

Fixpoint splitAtMost (s : string) (sep : ascii) (n : nat) : list string :=
  match n with
  | O => []
  | S O => [s]
  | S n' =>
      match Cut s sep with
      | Some (before, after) => before :: splitAtMost after sep n'
      | None => [s]
      end
  end.

(** [strings.SplitN(s, sep, n)] for a one-byte separator: [n = 0]
    gives nil, [n < 0] all the fields, [n > 0] at most [n] fields, the
    last one being the unsplit remainder. *)
Definition SplitN (s : string) (sep : ascii) (n : Z) : list string :=
  if n =? 0 then []
  else if n <? 0 then Split s sep
  else splitAtMost s sep (Z.to_nat n).

Fixpoint ContainsByte (s : string) (c : ascii) : bool :=
  match s with
  | EmptyString => false
  | String d r => Ascii.eqb d c || ContainsByte r c
  end.

End strings.

(** ** unicode/utf8 *)
Module utf8.

Definition RuneError : Z := 0xFFFD.
Definition RuneSelf : Z := 0x80.
Definition MaxRune : Z := 0x10FFFF.

(** The information the [first] table holds for a leading byte. *)
Inductive lead : Type :=
| LeadASCII
| LeadInvalid
| Lead (sz : nat) (lo hi : Z).   (* size and accepted range of byte 2 *)

Definition first (s0 : Z) : lead :=
  if s0 <? 0x80 then LeadASCII
  else if s0 <? 0xC2 then LeadInvalid
  else if s0 <? 0xE0 then Lead 2 0x80 0xBF
  else if s0 =? 0xE0 then Lead 3 0xA0 0xBF
  else if s0 <? 0xED then Lead 3 0x80 0xBF
  else if s0 =? 0xED then Lead 3 0x80 0x9F
  else if s0 <? 0xF0 then Lead 3 0x80 0xBF
  else if s0 =? 0xF0 then Lead 4 0x90 0xBF
  else if s0 <? 0xF4 then Lead 4 0x80 0xBF
  else if s0 =? 0xF4 then Lead 4 0x80 0x8F
  else LeadInvalid.

Definition inRange (lo hi : Z) (c : ascii) : bool :=
  (lo <=? byteZ c) && (byteZ c <=? hi).

(** Continuation bytes lie in [locb, hicb]. *)
Definition isCont (c : ascii) : bool := inRange 0x80 0xBF c.

Definition rune2 (s0 s1 : ascii) : Z :=
  Z.lor (Z.shiftl (Z.land (byteZ s0) 0x1F) 6) (Z.land (byteZ s1) 0x3F).
Definition rune3 (s0 s1 s2 : ascii) : Z :=
  Z.lor (Z.lor (Z.shiftl (Z.land (byteZ s0) 0x0F) 12)
               (Z.shiftl (Z.land (byteZ s1) 0x3F) 6))
        (Z.land (byteZ s2) 0x3F).
Definition rune4 (s0 s1 s2 s3 : ascii) : Z :=
  Z.lor (Z.lor (Z.lor (Z.shiftl (Z.land (byteZ s0) 0x07) 18)
                      (Z.shiftl (Z.land (byteZ s1) 0x3F) 12))
               (Z.shiftl (Z.land (byteZ s2) 0x3F) 6))
        (Z.land (byteZ s3) 0x3F).

(** [utf8.DecodeRuneInString] / [utf8.DecodeRune]: the first rune of
    [s] and its width in bytes; [(RuneError, 1)] for an invalid
    encoding and [(RuneError, 0)] for the empty string. *)
Definition DecodeRuneInString (s : string) : Z * nat :=
  match s with
  | EmptyString => (RuneError, 0%nat)
  | String s0 r =>
      match first (byteZ s0) with
      | LeadASCII => (byteZ s0, 1%nat)
      | LeadInvalid => (RuneError, 1%nat)
      | Lead sz lo hi =>
          match r with
          | EmptyString => (RuneError, 1%nat)
          | String s1 r1 =>
              if negb (inRange lo hi s1) then (RuneError, 1%nat)
              else if (sz <=? 2)%nat then (rune2 s0 s1, 2%nat)
              else
                match r1 with
                | EmptyString => (RuneError, 1%nat)
                | String s2 r2 =>
                    if negb (isCont s2) then (RuneError, 1%nat)
                    else if (sz <=? 3)%nat then (rune3 s0 s1 s2, 3%nat)
                    else
                      match r2 with
                      | EmptyString => (RuneError, 1%nat)
                      | String s3 _ =>
                          if negb (isCont s3) then (RuneError, 1%nat)
                          else (rune4 s0 s1 s2 s3, 4%nat)
                      end
                end
          end
      end
  end.

Definition isSurrogate (r : Z) : bool := (0xD800 <=? r) && (r <=? 0xDFFF).

Definition enc3 (r : Z) : string :=
  String (Zbyte (Z.lor 0xE0 (Z.shiftr r 12)))
 (String (Zbyte (Z.lor 0x80 (Z.land (Z.shiftr r 6) 0x3F)))
 (String (Zbyte (Z.lor 0x80 (Z.land r 0x3F))) "")).

(** [utf8.EncodeRune] / [utf8.AppendRune]: the UTF-8 encoding of [r];
    runes out of range and surrogates are written as [RuneError]. *)
Definition EncodeRune (r : Z) : string :=
  if (0 <=? r) && (r <=? 0x7F) then String (Zbyte r) ""
  else if (0 <=? r) && (r <=? 0x7FF) then
    String (Zbyte (Z.lor 0xC0 (Z.shiftr r 6)))
   (String (Zbyte (Z.lor 0x80 (Z.land r 0x3F))) "")
  else if (r <? 0) || (MaxRune <? r) || isSurrogate r then enc3 RuneError
  else if r <=? 0xFFFF then enc3 r
  else
    String (Zbyte (Z.lor 0xF0 (Z.shiftr r 18)))
   (String (Zbyte (Z.lor 0x80 (Z.land (Z.shiftr r 12) 0x3F)))
   (String (Zbyte (Z.lor 0x80 (Z.land (Z.shiftr r 6) 0x3F)))
   (String (Zbyte (Z.lor 0x80 (Z.land r 0x3F))) ""))).

(** [utf8.ValidString]: no position decodes to [(RuneError, 1)]. *)
Fixpoint ValidString (s : string) : bool :=
  match s with
  | EmptyString => true
  | String s0 r =>
      match DecodeRuneInString s with
      | (_, 2%nat) =>
          match r with
          | String _ r1 => ValidString r1
          | _ => false
          end
      | (_, 3%nat) =>
          match r with
          | String _ (String _ r2) => ValidString r2
          | _ => false
          end
      | (_, 4%nat) =>
          match r with
          | String _ (String _ (String _ r3)) => ValidString r3
          | _ => false
          end
      | (c, _) => negb (c =? RuneError) && ValidString r
      end
  end.

End utf8.

(** ** unicode/utf16 *)
Module utf16.

Definition IsSurrogate (r : Z) : bool := (0xD800 <=? r) && (r <? 0xE000).

(** [utf16.DecodeRune]: the rune of a surrogate pair, U+FFFD when the
    pair is not valid. *)
Definition DecodeRune (r1 r2 : Z) : Z :=
  if (0xD800 <=? r1) && (r1 <? 0xDC00) && (0xDC00 <=? r2) && (r2 <? 0xE000)
  then Z.lor (Z.shiftl (r1 - 0xD800) 10) (r2 - 0xDC00) + 0x10000
  else 0xFFFD.

End utf16.

(** ** encoding/json

    [json.Marshal] and [json.Unmarshal] for the values the handlers pass
    to them: structs whose fields are strings. *)
Module json.

Definition dq : ascii := "034"%char.     (* the double quote *)
Definition bsl : ascii := "092"%char.    (* the backslash *)

Definition hex : string := "0123456789abcdef".

Definition hexAt (v : Z) : ascii :=
  match String.get (Z.to_nat v) hex with
  | Some c => c
  | None => "000"%char
  end.

(** *** Encoding of strings ([encodeState.string], with HTML escaping,
    as [Marshal] calls it) *)

(** [htmlSafeSet[b]]: the ASCII bytes written as they are. *)
Definition htmlSafe (b : ascii) : bool :=
  (0x20 <=? byteZ b) && (byteZ b <? 0x80) &&
  negb (Ascii.eqb b dq || Ascii.eqb b bsl || Ascii.eqb b "<"%char
        || Ascii.eqb b ">"%char || Ascii.eqb b "&"%char).

(** The escape of an ASCII byte outside [htmlSafeSet]. *)
Definition escapeByte (b : ascii) : string :=
  if Ascii.eqb b bsl || Ascii.eqb b dq then String bsl (String b "")
  else if Ascii.eqb b "010"%char then String bsl "n"
  else if Ascii.eqb b "013"%char then String bsl "r"
  else if Ascii.eqb b "009"%char then String bsl "t"
  else
    String bsl ("u00" ++ String (hexAt (Z.shiftr (byteZ b) 4))
                        (String (hexAt (Z.land (byteZ b) 0xF)) "")).

(** A valid multi-byte rune [c] whose bytes are [raw]: U+2028 and
    U+2029 are escaped, every other rune is copied. *)
Definition escapeRune (c : Z) (raw : string) : string :=
  if (c =? 0x2028) || (c =? 0x2029)
  then String bsl ("u202" ++ String (hexAt (Z.land c 0xF)) "")
  else raw.

Definition ufffd : string := String bsl "ufffd".

(** The text between the quotes. *)
Fixpoint escapeString (s : string) : string :=
  match s with
  | EmptyString => ""
  | String b r =>
      if byteZ b <? utf8.RuneSelf then
        (if htmlSafe b then String b "" else escapeByte b) ++ escapeString r
      else
        let '(c, size) := utf8.DecodeRuneInString s in
        if (c =? utf8.RuneError) && (size =? 1)%nat then ufffd ++ escapeString r
        else
          match size, r with
          | 2%nat, String b1 r1 =>
              escapeRune c (String b (String b1 "")) ++ escapeString r1
          | 3%nat, String b1 (String b2 r2) =>
              escapeRune c (String b (String b1 (String b2 ""))) ++ escapeString r2
          | 4%nat, String b1 (String b2 (String b3 r3)) =>
              escapeRune c (String b (String b1 (String b2 (String b3 ""))))
                ++ escapeString r3
          | _, _ => ufffd ++ escapeString r
          end
  end.

Definition quote (s : string) : string :=
  String dq (escapeString s ++ String dq "").

(** The encoding of a struct whose fields are strings: [fields] lists
    the JSON name and the value of each field, in declaration order. *)
Fixpoint marshalMembers (fields : list (string * string)) : string :=
  match fields with
  | [] => ""
  | [(name, v)] => String dq (name ++ String dq ":") ++ quote v
  | (name, v) :: rest =>
      String dq (name ++ String dq ":") ++ quote v ++ "," ++ marshalMembers rest
  end.

Definition marshalStruct (fields : list (string * string)) : string :=
  "{" ++ marshalMembers fields ++ "}".

(** *** Decoding *)

#[local] Unset Elimination Schemes.
Inductive value : Type :=
| Null
| Bool (b : bool)
| Number
| Str (s : string)
| Array (elems : list value)
| Object (members : list (string * value)).
#[local] Set Elimination Schemes.

Definition maxNestingDepth : Z := 10000.

Definition isSpace (c : ascii) : bool :=
  Ascii.eqb c " "%char || Ascii.eqb c "009"%char
  || Ascii.eqb c "013"%char || Ascii.eqb c "010"%char.

Fixpoint skipSpace (s : string) : string :=
  match s with
  | String c r => if isSpace c then skipSpace r else s
  | EmptyString => s
  end.

Definition isDigit (c : ascii) : bool :=
  (byteZ "0"%char <=? byteZ c) && (byteZ c <=? byteZ "9"%char).

Definition hexVal (c : ascii) : option Z :=
  let v := byteZ c in
  if isDigit c then Some (v - byteZ "0"%char)
  else if (byteZ "a"%char <=? v) && (v <=? byteZ "f"%char)
    then Some (v - byteZ "a"%char + 10)
  else if (byteZ "A"%char <=? v) && (v <=? byteZ "F"%char)
    then Some (v - byteZ "A"%char + 10)
  else None.

(** [getu4]: the value of the four hexadecimal digits of a [\u]
    escape. *)
Definition getu4 (h1 h2 h3 h4 : ascii) : option Z :=
  match hexVal h1, hexVal h2, hexVal h3, hexVal h4 with
  | Some a, Some b, Some c, Some d => Some (((a * 16 + b) * 16 + c) * 16 + d)
  | _, _, _, _ => None
  end.

Definition simpleEscape (e : ascii) : option ascii :=
  if Ascii.eqb e dq then Some dq
  else if Ascii.eqb e bsl then Some bsl
  else if Ascii.eqb e "/"%char then Some "/"%char
  else if Ascii.eqb e "b"%char then Some "008"%char
  else if Ascii.eqb e "f"%char then Some "012"%char
  else if Ascii.eqb e "n"%char then Some "010"%char
  else if Ascii.eqb e "r"%char then Some "013"%char
  else if Ascii.eqb e "t"%char then Some "009"%char
  else None.

Definition prepend (p : string) (res : option (string * string))
  : option (string * string) :=
  match res with
  | Some (t, rest) => Some (p ++ t, rest)
  | None => None
  end.

(** The second half of a surrogate pair: the rune of [\uXXXX] when
    the six bytes are such an escape. *)
Definition secondEscape (b u g1 g2 g3 g4 : ascii) : option Z :=
  if Ascii.eqb b bsl && Ascii.eqb u "u"%char then getu4 g1 g2 g3 g4 else None.

(** A string literal from just after its opening quote: the scanner's
    string states together with [unquote].  The result is the decoded
    string and the input after the closing quote. *)
Fixpoint unquoteBody (s : string) : option (string * string) :=
  match s with
  | EmptyString => None
  | String c r =>
      if Ascii.eqb c dq then Some ("", r)
      else if Ascii.eqb c bsl then
        match r with
        | EmptyString => None
        | String e r1 =>
            if Ascii.eqb e "u"%char then
              match r1 with
              | String h1 (String h2 (String h3 (String h4 r5))) =>
                  match getu4 h1 h2 h3 h4 with
                  | None => None
                  | Some rr =>
                      if utf16.IsSurrogate rr then
                        match r5 with
                        | String b' (String u' (String g1 (String g2
                            (String g3 (String g4 r11))))) =>
                            match secondEscape b' u' g1 g2 g3 g4 with
                            | Some rr1 =>
                                if utf16.DecodeRune rr rr1 =? 0xFFFD
                                then prepend (utf8.EncodeRune 0xFFFD) (unquoteBody r5)
                                else prepend (utf8.EncodeRune (utf16.DecodeRune rr rr1))
                                             (unquoteBody r11)
                            | None => prepend (utf8.EncodeRune 0xFFFD) (unquoteBody r5)
                            end
                        | _ => prepend (utf8.EncodeRune 0xFFFD) (unquoteBody r5)
                        end
                      else prepend (utf8.EncodeRune rr) (unquoteBody r5)
                  end
              | _ => None
              end
            else
              match simpleEscape e with
              | Some ch => prepend (String ch "") (unquoteBody r1)
              | None => None
              end
        end
      else if byteZ c <? 0x20 then None
      else if byteZ c <? utf8.RuneSelf then prepend (String c "") (unquoteBody r)
      else
        (* coerce to well-formed UTF-8 *)
        let '(rr, size) := utf8.DecodeRuneInString s in
        match size, r with
        | 2%nat, String _ r1 => prepend (utf8.EncodeRune rr) (unquoteBody r1)
        | 3%nat, String _ (String _ r2) => prepend (utf8.EncodeRune rr) (unquoteBody r2)
        | 4%nat, String _ (String _ (String _ r3)) =>
            prepend (utf8.EncodeRune rr) (unquoteBody r3)
        | _, _ => prepend (utf8.EncodeRune rr) (unquoteBody r)
        end
  end.

Fixpoint skipDigits (s : string) : string :=
  match s with
  | String c r => if isDigit c then skipDigits r else s
  | EmptyString => s
  end.

(** One or more digits. *)
Definition digits1 (s : string) : option string :=
  match s with
  | String c r => if isDigit c then Some (skipDigits r) else None
  | EmptyString => None
  end.

Definition scanExponent (s : string) : option string :=
  match s with
  | String e r =>
      if Ascii.eqb e "e"%char || Ascii.eqb e "E"%char then
        match r with
        | String sg r1 =>
            if Ascii.eqb sg "+"%char || Ascii.eqb sg "-"%char
            then digits1 r1 else digits1 r
        | EmptyString => None
        end
      else Some s
  | EmptyString => Some s
  end.

Definition scanFraction (s : string) : option string :=
  match s with
  | String "."%char r =>
      match digits1 r with
      | Some r1 => scanExponent r1
      | None => None
      end
  | _ => scanExponent s
  end.

Definition scanInteger (s : string) : option string :=
  match s with
  | String c r =>
      if Ascii.eqb c "0"%char then scanFraction r
      else if isDigit c then scanFraction (skipDigits r)
      else None
  | EmptyString => None
  end.

(** A number literal; the result is the input after it. *)
Definition scanNumber (s : string) : option string :=
  match s with
  | String "-"%char r => scanInteger r
  | _ => scanInteger s
  end.

Fixpoint stripPrefix (p s : string) : option string :=
  match p, s with
  | EmptyString, _ => Some s
  | String a p', String b s' => if Ascii.eqb a b then stripPrefix p' s' else None
  | String _ _, EmptyString => None
  end.

(** The scanner and the decoder's walk over a value: [parseValue]
    reads one value after optional white space, at nesting depth
    [depth]; [parseMembers] and [parseElements] read the rest of an
    object from a key on and the rest of an array from an element on.
    [fuel] bounds the number of nested calls; [parse] gives as many as
    the input has bytes, and one more. *)
Fixpoint parseValue (fuel : nat) (depth : Z) (s : string)
  : option (value * string) :=
  match fuel with
  | O => None
  | S f =>
      match skipSpace s with
      | EmptyString => None
      | String c r =>
          if Ascii.eqb c "{"%char then
            if maxNestingDepth <? depth + 1 then None
            else
              match skipSpace r with
              | String "}"%char r' => Some (Object [], r')
              | r0 =>
                  match parseMembers f (depth + 1) r0 with
                  | Some (ms, r') => Some (Object ms, r')
                  | None => None
                  end
              end
          else if Ascii.eqb c "["%char then
            if maxNestingDepth <? depth + 1 then None
            else
              match skipSpace r with
              | String "]"%char r' => Some (Array [], r')
              | r0 =>
                  match parseElements f (depth + 1) r0 with
                  | Some (vs, r') => Some (Array vs, r')
                  | None => None
                  end
              end
          else if Ascii.eqb c dq then
            match unquoteBody r with
            | Some (t, r') => Some (Str t, r')
            | None => None
            end
          else if Ascii.eqb c "-"%char || isDigit c then
            match scanNumber (String c r) with
            | Some r' => Some (Number, r')
            | None => None
            end
          else if Ascii.eqb c "t"%char then
            match stripPrefix "rue" r with
            | Some r' => Some (Bool true, r')
            | None => None
            end
          else if Ascii.eqb c "f"%char then
            match stripPrefix "alse" r with
            | Some r' => Some (Bool false, r')
            | None => None
            end
          else if Ascii.eqb c "n"%char then
            match stripPrefix "ull" r with
            | Some r' => Some (Null, r')
            | None => None
            end
          else None
      end
  end
with parseMembers (fuel : nat) (depth : Z) (s : string)
  : option (list (string * value) * string) :=
  match fuel with
  | O => None
  | S f =>
      match s with
      | String c r =>
          if Ascii.eqb c dq then
            match unquoteBody r with
            | Some (key, r1) =>
                match skipSpace r1 with
                | String ":"%char r2 =>
                    match parseValue f depth r2 with
                    | Some (v, r3) =>
                        match skipSpace r3 with
                        | String ","%char r4 =>
                            match parseMembers f depth (skipSpace r4) with
                            | Some (ms, r5) => Some ((key, v) :: ms, r5)
                            | None => None
                            end
                        | String "}"%char r4 => Some ([(key, v)], r4)
                        | _ => None
                        end
                    | None => None
                    end
                | _ => None
                end
            | None => None
            end
          else None
      | EmptyString => None
      end
  end
with parseElements (fuel : nat) (depth : Z) (s : string)
  : option (list value * string) :=
  match fuel with
  | O => None
  | S f =>
      match parseValue f depth s with
      | Some (v, r1) =>
          match skipSpace r1 with
          | String ","%char r2 =>
              match parseElements f depth r2 with
              | Some (vs, r3) => Some (v :: vs, r3)
              | None => None
              end
          | String "]"%char r2 => Some ([v], r2)
          | _ => None
          end
      | None => None
      end
  end.

(** [checkValid] and the scan of the whole input: one value, with
    white space around it. *)
Definition parse (data : string) : option value :=
  match parseValue (S (String.length data)) 0 data with
  | Some (v, r) =>
      match skipSpace r with
      | EmptyString => Some v
      | String _ _ => None
      end
  | None => None
  end.

End json.

(** *** [Unmarshal] into a struct whose fields are strings *)
Module jsonstruct.
Import json.

Definition caseMask (c : ascii) : Z := Z.land (byteZ c) 0xDF.

Definition isUpperLetter (v : Z) : bool :=
  (byteZ "A"%char <=? v) && (v <=? byteZ "Z"%char).

Definition kelvin : Z := 0x212A.
Definition smallLongEss : Z := 0x17F.

(** [equalFold name key]: the case-insensitive comparison of an ASCII
    field name with a key of the input; besides the two cases of a
    letter, the Kelvin sign matches [k] and the long s matches [s]. *)
Fixpoint equalFold (name key : string) : bool :=
  match name with
  | EmptyString => match key with EmptyString => true | _ => false end
  | String sb name' =>
      match key with
      | EmptyString => false
      | String tb key' =>
          if byteZ tb <? utf8.RuneSelf then
            (Ascii.eqb sb tb
             || (isUpperLetter (caseMask sb) && (caseMask sb =? caseMask tb)))
            && equalFold name' key'
          else
            let '(tr, size) := utf8.DecodeRuneInString key in
            let special :=
              if Ascii.eqb sb "s"%char || Ascii.eqb sb "S"%char then tr =? smallLongEss
              else if Ascii.eqb sb "k"%char || Ascii.eqb sb "K"%char then tr =? kelvin
              else false in
            match size, key' with
            | 2%nat, String _ k2 => special && equalFold name' k2
            | 3%nat, String _ (String _ k3) => special && equalFold name' k3
            | _, _ => false
            end
      end
  end.

(** The fields of the destination struct: JSON name and current
    value, in declaration order. *)
Definition fields : Type := list (string * string).

Fixpoint setExact (key v : string) (fs : fields) : option fields :=
  match fs with
  | [] => None
  | (name, old) :: rest =>
      if String.eqb name key then Some ((name, v) :: rest)
      else
        match setExact key v rest with
        | Some rest' => Some ((name, old) :: rest')
        | None => None
        end
  end.

Fixpoint setFold (key v : string) (fs : fields) : option fields :=
  match fs with
  | [] => None
  | (name, old) :: rest =>
      if equalFold name key then Some ((name, v) :: rest)
      else
        match setFold key v rest with
        | Some rest' => Some ((name, old) :: rest')
        | None => None
        end
  end.

Fixpoint hasField (key : string) (fs : fields) : bool :=
  match fs with
  | [] => false
  | (name, _) :: rest => String.eqb name key || equalFold name key || hasField key rest
  end.

(** The field a key selects gets the value: an exact match of the
    name first, then the first case-insensitive match; a key that
    selects no field is skipped. *)
Definition setField (key v : string) (fs : fields) : fields :=
  match setExact key v fs with
  | Some fs' => fs'
  | None =>
      match setFold key v fs with
      | Some fs' => fs'
      | None => fs
      end
  end.

(** [saveError] keeps the first error. *)
Definition saveError (saved : option error) (e : error) : option error :=
  match saved with
  | Some _ => saved
  | None => Some e
  end.

(** The members of an object stored in order into the struct: a string
    sets the field, [null] leaves it, any other value is a type error
    that is saved while decoding goes on. *)
Fixpoint decodeMembers (ms : list (string * value)) (fs : fields)
  (saved : option error) : fields * option error :=
  match ms with
  | [] => (fs, saved)
  | (key, v) :: rest =>
      if hasField key fs then
        match v with
        | Str s => decodeMembers rest (setField key s fs) saved
        | Null => decodeMembers rest fs saved
        | Bool _ => decodeMembers rest fs (saveError saved (UnmarshalTypeError "bool"))
        | Number => decodeMembers rest fs (saveError saved (UnmarshalTypeError "number"))
        | Array _ => decodeMembers rest fs (saveError saved (UnmarshalTypeError "array"))
        | Object _ => decodeMembers rest fs (saveError saved (UnmarshalTypeError "object"))
        end
      else decodeMembers rest fs saved
  end.

(** [json.Unmarshal(data, &v)] where the fields of [v] are [fs]. *)
Definition Unmarshal (data : string) (fs : fields) : result fields :=
  match parse data with
  | None => Err SyntaxError
  | Some (Object ms) =>
      match decodeMembers ms fs None with
      | (fs', None) => Ok fs'
      | (_, Some e) => Err e
      end
  | Some Null => Ok fs
  | Some (Bool _) => Err (UnmarshalTypeError "bool")
  | Some Number => Err (UnmarshalTypeError "number")
  | Some (Str _) => Err (UnmarshalTypeError "string")
  | Some (Array _) => Err (UnmarshalTypeError "array")
  end.

Fixpoint field (name : string) (fs : fields) : string :=
  match fs with
  | [] => ""
  | (n, v) :: rest => if String.eqb n name then v else field name rest
  end.

End jsonstruct.

(** ** Package resources *)
Module resources.

Record AuthCode : Type := {
  RedirectURL : string;
  SessionID : string
}.

(** Modelled from the spec: the declaration of [resources.AuthCode]
    is not among the sources; its JSON member names are those of the
    state value the specification shows,
    [{"RedirectURL":...,"SessionID":...}]. *)
Definition AuthCode_fields (c : AuthCode) : jsonstruct.fields :=
  [("RedirectURL", RedirectURL c); ("SessionID", SessionID c)].

(** [json.Marshal(code)]; it has no error case for a struct of
    strings. *)
Definition Marshal (c : AuthCode) : result string :=
  Ok (json.marshalStruct (AuthCode_fields c)).

(** [json.Unmarshal(data, authCode)] *)
Definition Unmarshal (data : string) (c : AuthCode) : result AuthCode :=
  match jsonstruct.Unmarshal data (AuthCode_fields c) with
  | Ok fs =>
      Ok {| RedirectURL := jsonstruct.field "RedirectURL" fs;
            SessionID := jsonstruct.field "SessionID" fs |}
  | Err e => Err e
  end.

Record AuthResponse : Type := {
  resp_SessionID : string;
  ID : string;
  Kubeconfig : string;
  Group : string;
  Resource : string;
  Export : string
}.

End resources.

(** ** Package cookie *)
Module cookie.

Record SessionState : Type := {
  CreatedAt : Z;
  ExpiresOn : Z;
  AccessToken : string;
  IDToken : string;
  RefreshToken : string;
  RedirectURL : string;
  SessionID : string
}.

End cookie.

(** ** net/http, as far as the handlers use it *)
Module http.

Definition StatusFound : Z := 302.
Definition StatusBadRequest : Z := 400.
Definition StatusInternalServerError : Z := 500.

(** [url.Values]: the pairs of a query string or form, in order. *)
Definition Values : Type := list (string * string).

(** [Values.Get]: the first value of the key, [""] when there is
    none (also on the nil map). *)
Fixpoint Get (vs : Values) (key : string) : string :=
  match vs with
  | [] => ""
  | (k, v) :: rest => if String.eqb k key then v else Get rest key
  end.

(** [http.Request], the fields the handlers read.  [Form] is filled by
    [ParseForm] only ([FormValue] calls it); neither the router nor the
    handlers call it, so the requests the router delivers have a nil
    [Form], which is the empty list here. *)
Record Request : Type := {
  Method : string;
  Host : string;
  URL_Path : string;
  URL_Query : Values;              (* [r.URL.Query()] *)
  Form : Values;                   (* [r.Form] *)
  Cookies : list (string * string) (* the cookies sent, name and value *)
}.

(** [r.Cookie(name)]: the value of the first cookie of that name. *)
Fixpoint Cookie (cs : list (string * string)) (name : string) : result string :=
  match cs with
  | [] => Err ErrNoCookie
  | (n, v) :: rest => if String.eqb n name then Ok v else Cookie rest name
  end.

(** [http.Cookie], the value handed to [http.SetCookie]. *)
Record SetCookieValue : Type := {
  Name : string;
  Value : string;
  Path : string;
  Expires : Z;
  MaxAge : Z;
  Secure : bool;
  HttpOnly : bool
}.

(** What a handler does besides its final reply, in order. *)
Inductive Event : Type :=
| Log (msg detail : string)                          (* [logger.Info], [logger.Error] *)
| SetHeader (key value : string)                     (* [w.Header().Set] *)
| SetCookie (c : SetCookieValue)                     (* [http.SetCookie] *)
| CallExchange (code : string)                       (* token exchange *)
| CallList                                           (* listing of the CRDs *)
| CallExecute (sessionID : string)                   (* template rendering *)
| CallHandleResources (subject resource group : string) (ok : bool).
    (* credential minting, and whether it returned a credential *)

(** How a handler ends. *)
Inductive Reply : Type :=
| Error (msg : string) (code : Z)        (* [http.Error(w, msg, code)] *)
| Redirect (url : string) (code : Z)     (* [http.Redirect(w, r, url, code)] *)
| Write (body : string)                  (* [w.Write(body)], status 200 *)
| Panic (msg : string).                  (* run-time panic, nothing written *)

Definition Response : Type := (list Event * Reply)%type.

Definition isSetCookie (e : Event) : bool :=
  match e with SetCookie _ => true | _ => false end.

Definition isHandleResources (e : Event) : bool :=
  match e with CallHandleResources _ _ _ _ => true | _ => false end.

(** A credential was minted. *)
Definition isMinted (e : Event) : bool :=
  match e with CallHandleResources _ _ _ ok => ok | _ => false end.

Definition isListing (e : Event) : bool :=
  match e with CallList | CallExecute _ => true | _ => false end.

Definition isErrorReply (r : Reply) : bool :=
  match r with Error _ _ => true | _ => false end.

Definition statusOf (r : Reply) : option Z :=
  match r with
  | Error _ code => Some code
  | Redirect _ code => Some code
  | Write _ => Some 200
  | Panic _ => None
  end.

End http.

(** ** time *)
Module time.
Definition Nanosecond : Z := 1.
Definition Second : Z := 1000000000 * Nanosecond.
Definition Hour : Z := 3600 * Second.
End time.

(** ** The handler and its collaborators *)

(** [oauth2.Token], as the callback reads it. *)
Record Token : Type := {
  AccessToken : string;
  RefreshToken : string;
  Expiry : Z;
  Extra_id_token : option string   (* [Extra("id_token").(string)] *)
}.

(** [OIDCServiceProvider]: the configuration it yields for a scope list
      builds the authorization URL and exchanges codes. *)
Record OIDCServiceProvider : Type := {
  AuthCodeURL : list string -> string -> string;
  Exchange : string -> result Token
}.

(** [apiextensionsv1.CustomResourceDefinition]: the handler reads the
    name only. *)
Record CustomResourceDefinition : Type := {
  crd_Name : string;
  crd_Rest : string
}.

(** [kubernetes.Manager] *)
Record Manager : Type := {
  HandleResources : string -> string -> string -> result string
}.

(** [handler] *)
Record handler : Type := {
  oidc : OIDCServiceProvider;
  backendCallbackURL : string;
  providerPrettyName : string;
  testingAutoSelect : string;
  apiextensionsLister : result (list CustomResourceDefinition);  (* [List(labels.Everything())] *)
  kubeManager : Manager
}.

(** The packages and library calls the handlers use whose code is not
    part of the sources; they are parameters of the model. *)
Record Env : Type := {
  ErrorText : error -> string;                                (* [err.Error()] *)
  Now : Z;                                                     (* [time.Now()] *)
  epochRFC1123 : string;                 (* [time.Unix(0, 0).Format(time.RFC1123)] *)
  formatForm : http.Values -> string;                          (* [%q] of [r.Form] *)
  SessionState_Encode : cookie.SessionState -> result string;  (* [SessionState.Encode] *)
  cookie_Decode : string -> result cookie.SessionState;        (* [cookie.Decode] *)
  MakeCookie : http.Request -> string -> string -> Z -> http.SetCookieValue;
  Marshal_AuthResponse : resources.AuthResponse -> result string;
  url_Parse : string -> result string;                         (* [url.Parse] *)
  url_AddQuery : string -> string -> string -> string;
    (* [Query()], [Add(key, value)], [Encode()] and [String()] on a parsed URL *)
  template_Execute : string -> list CustomResourceDefinition -> result string
}.

(** The routes of [AddRoutes]; every one is an exact path for GET. *)
Inductive Endpoint : Type :=
| ServiceExportEndpoint
| ResourcesEndpoint
| BindEndpoint
| AuthorizeEndpoint
| CallbackEndpoint.

Definition AddRoutes : list (string * Endpoint) :=
  [("/export", ServiceExportEndpoint);
   ("/resources", ResourcesEndpoint);
   ("/bind", BindEndpoint);
   ("/authorize", AuthorizeEndpoint);
   ("/callback", CallbackEndpoint)].

(** The route the router picks for a GET of [path]: the first one whose
    path is [path]. *)
Fixpoint Match (routes : list (string * Endpoint)) (path : string) : option Endpoint :=
  match routes with
  | [] => None
  | (p, e) :: rest => if String.eqb p path then Some e else Match rest path
  end.

Section Handlers.

Variable env : Env.
Variable h : handler.

Import http.

Definition noCacheHeaders : list (string * string) :=
  [("Expires", epochRFC1123 env);
   ("Cache-Control", "no-cache, no-store, must-revalidate, max-age=0");
   ("X-Accel-Expires", "0")].

(** [prepareNoCache]: the three headers are set; the order in which
    the map is walked does not matter to the resulting header. *)
Definition prepareNoCache : list Event :=
  map (fun kv => SetHeader (fst kv) (snd kv)) noCacheHeaders.

Definition scopes : list string := ["openid"; "profile"; "email"; "offline_access"].

Definition handleAuthorize (r : Request) : Response :=
  let code := {| resources.RedirectURL := Get (URL_Query r) "u";
                 resources.SessionID := Get (URL_Query r) "s" |} in
  if String.eqb (resources.RedirectURL code) ""
     || String.eqb (resources.SessionID code) "" then
    ([Log "failed to authorize" "missing redirect url or session id"],
     Error "missing redirect_url or session_id" StatusBadRequest)
  else
    match resources.Marshal code with
    | Err err =>
        ([Log "failed to marshal auth code" (ErrorText env err)],
         Error (ErrorText env err) StatusInternalServerError)
    | Ok dataCode =>
        let encoded := base64.EncodeToString base64.StdEncoding dataCode in
        let authURL := AuthCodeURL (oidc h) scopes encoded in
        ([], Redirect authURL StatusFound)
    end.

(** [%d] of a slice length. *)
Definition itoa (n : nat) : string := NilEmpty.string_of_uint (Nat.to_uint n).

Definition parseJWT (p : string) : result string :=
  let parts := strings.Split p "."%char in
  if Z.of_nat (List.length parts) <? 2 then
    Err (errorString ("oidc: malformed jwt, expected 3 parts got "
                      ++ itoa (List.length parts)))
  else
    match base64.DecodeString base64.RawURLEncoding (nth 1 parts "") with
    | Err err => Err (errorString ("oidc: malformed jwt payload: " ++ ErrorText env err))
    | Ok payload => Ok payload
    end.

Definition orElse (a b : string) : string :=
  if String.eqb a "" then b else a.

Definition handleCallback (r : Request) : Response :=
  let errMsg := Get (Form r) "error" in
  if negb (String.eqb errMsg "") then
    ([Log "failed to authorize" errMsg],
     Error (errMsg ++ ": " ++ Get (Form r) "error_description") StatusBadRequest)
  else
    let code := orElse (Get (Form r) "code") (Get (URL_Query r) "code") in
    if String.eqb code "" then
      ([Log "no code in request" "missing code"],
       Error ("no code in request: " ++ formatForm env (Form r)) StatusBadRequest)
    else
      let state := orElse (Get (Form r) "state") (Get (URL_Query r) "state") in
      match base64.DecodeString base64.StdEncoding state with
      | Err err =>
          ([Log "failed to decode state" (ErrorText env err)],
           Error (ErrorText env err) StatusBadRequest)
      | Ok decode =>
          match resources.Unmarshal decode
                  {| resources.RedirectURL := ""; resources.SessionID := "" |} with
          | Err err =>
              ([Log "faile to unmarshal authCode" (ErrorText env err)],
               Error (ErrorText env err) StatusBadRequest)
          | Ok authCode =>
              match Exchange (oidc h) code with
              | Err err =>
                  ([CallExchange code;
                    Log "failed to exchange token" (ErrorText env err)],
                   Error "internal error" StatusInternalServerError)
              | Ok token =>
                  match Extra_id_token token with
                  | None =>
                      ([CallExchange code;
                        Log "failed to get id_token from token" ""],
                       Error "internal error" StatusInternalServerError)
                  | Some jwtStr =>
                      match parseJWT jwtStr with
                      | Err err =>
                          ([CallExchange code;
                            Log "failed to parse jwt" (ErrorText env err)],
                           Error "internal error" StatusInternalServerError)
                      | Ok jwt =>
                          (* the second test of [ok] cannot fail here *)
                          let sessionCookie :=
                            {| cookie.CreatedAt := Now env;
                               cookie.ExpiresOn := Expiry token;
                               cookie.AccessToken := AccessToken token;
                               cookie.IDToken := jwt;
                               cookie.RefreshToken := RefreshToken token;
                               cookie.RedirectURL := resources.RedirectURL authCode;
                               cookie.SessionID := resources.SessionID authCode |} in
                          match SessionState_Encode env sessionCookie with
                          | Err err =>
                              ([CallExchange code;
                                Log "failed to encode session cookie" (ErrorText env err)],
                               Error "internal error" StatusInternalServerError)
                          | Ok b =>
                              ([CallExchange code;
                                SetCookie (MakeCookie env r
                                             ("kube-bind-" ++ resources.SessionID authCode)
                                             b
                                             (1 * time.Hour))],
                               Redirect ("/resources?s=" ++ resources.SessionID authCode)
                                        StatusFound)
                          end
                      end
                  end
              end
          end
      end.

(** [sort.SliceStable(crds, func(i, j int) bool { return crds[i].Name <
    crds[j].Name })]: a stable sort by name.  [insertByName c l] puts [c],
    which stood before the elements of the sorted [l], after the elements
    whose name is smaller and before the first one whose name is not, so
    before those of its own name; [sortByName] inserts the elements from
    the last to the first. *)
Fixpoint insertByName (c : CustomResourceDefinition)
  (l : list CustomResourceDefinition) : list CustomResourceDefinition :=
  match l with
  | [] => [c]
  | d :: rest =>
      if String.ltb (crd_Name d) (crd_Name c) then d :: insertByName c rest
      else c :: l
  end.

Definition sortByName (l : list CustomResourceDefinition)
  : list CustomResourceDefinition :=
  fold_right insertByName [] l.

Definition handleResources (r : Request) : Response :=
  if negb (String.eqb (testingAutoSelect h) "") then
    let parts := strings.SplitN (testingAutoSelect h) "."%char 2 in
    match parts with
    | part0 :: part1 :: _ =>
        (prepareNoCache,
         Redirect ("/resources/" ++ part0 ++ "/" ++ part1) StatusFound)
    | _ => (prepareNoCache, Panic "index out of range [1] with length 1")
    end
  else
    match apiextensionsLister h with
    | Err err =>
        ((prepareNoCache ++ [CallList; Log "failed to list crds" (ErrorText env err)])%list,
         Error "internal error" StatusInternalServerError)
    | Ok crds =>
        let crds := sortByName crds in
        let sessionID := Get (URL_Query r) "s" in
        match template_Execute env sessionID crds with
        | Err err =>
            ((prepareNoCache ++
              [CallList; CallExecute sessionID;
               Log "failed to execute template" (ErrorText env err)])%list,
             Error "internal error" StatusInternalServerError)
        | Ok bs =>
            ((prepareNoCache ++
              [CallList; CallExecute sessionID;
               SetHeader "Content-Type" "text/html"])%list,
             Write bs)
        end
    end.

(** [json.Unmarshal([]byte(state.IDToken), &idToken)]: the struct has
    the fields [Subject] ([sub]) and [Issuer] ([iss]). *)
Definition Unmarshal_idToken (data : string) : result (string * string) :=
  match jsonstruct.Unmarshal data [("sub", ""); ("iss", "")] with
  | Ok fs => Ok (jsonstruct.field "sub" fs, jsonstruct.field "iss" fs)
  | Err e => Err e
  end.

Definition handleBind (r : Request) : Response :=
  match Cookie (Cookies r) ("kube-bind-" ++ Get (URL_Query r) "s") with
  | Err err =>
      ((prepareNoCache ++ [Log "failed to get session cookie" (ErrorText env err)])%list,
       Error "internal error" StatusInternalServerError)
  | Ok ck =>
      match cookie_Decode env ck with
      | Err err =>
          ((prepareNoCache ++
            [Log "failed to decode session cookie" (ErrorText env err)])%list,
           Error "internal error" StatusInternalServerError)
      | Ok state =>
          match Unmarshal_idToken (cookie.IDToken state) with
          | Err err =>
              ((prepareNoCache ++
                [Log "failed to unmarshal id token" (ErrorText env err)])%list,
               Error "internal error" StatusInternalServerError)
          | Ok (Subject, Issuer) =>
              let group := Get (URL_Query r) "group" in
              let resource := Get (URL_Query r) "resource" in
              match HandleResources (kubeManager h) Subject resource group with
              | Err err =>
                  ((prepareNoCache ++
                    [CallHandleResources Subject resource group false;
                     Log "failed to handle resources" (ErrorText env err)])%list,
                   Error "internal error" StatusInternalServerError)
              | Ok kfg =>
                  let authResponse :=
                    {| resources.resp_SessionID := cookie.SessionID state;
                       resources.ID := Issuer ++ "/" ++ Subject;
                       resources.Kubeconfig := kfg;
                       resources.Group := group;
                       resources.Resource := resource;
                       resources.Export := resource ++ "." ++ group |} in
                  match Marshal_AuthResponse env authResponse with
                  | Err err =>
                      ((prepareNoCache ++
                        [CallHandleResources Subject resource group true;
                         Log "failed to marshal auth response" (ErrorText env err)])%list,
                       Error "internal error" StatusInternalServerError)
                  | Ok payload =>
                      let encoded := base64.EncodeToString base64.StdEncoding payload in
                      match url_Parse env (cookie.RedirectURL state) with
                      | Err err =>
                          ((prepareNoCache ++
                            [CallHandleResources Subject resource group true;
                             Log "failed to parse redirect url" (ErrorText env err)])%list,
                           Error "internal error" StatusInternalServerError)
                      | Ok parsedAuthURL =>
                          ((prepareNoCache ++
                            [CallHandleResources Subject resource group true])%list,
                           Redirect (url_AddQuery env parsedAuthURL "auth_response" encoded)
                                    StatusFound)
                      end
                  end
              end
          end
      end
  end.

End Handlers.

(** ** The service-export reconciler (provider side) *)
Module serviceexport.

(** [apiextensionsv1.NamespaceScoped] and [kubebindv1alpha1.ClusterScope] *)
Definition NamespaceScoped : string := "Namespaced".
Definition ClusterScope : string := "Cluster".

Record APIServiceExportGroupResource : Type := {
  Group : string;
  Resource : string
}.

Record APIServiceExportResource : Type := {
  res_Scope : string;
  res_Rest : string
}.

Inductive ConditionSeverity : Type :=
| ConditionSeverityError
| ConditionSeverityInfo
| ConditionSeverityNone.

Record Condition : Type := {
  cond_Type : string;
  cond_Status : bool;
  cond_Reason : string;
  cond_Severity : ConditionSeverity;
  cond_Message : string
}.

Record APIServiceExport : Type := {
  Name : string;
  Spec_Scope : string;
  Spec_Resources : list APIServiceExportGroupResource;
  Status_Conditions : list Condition
}.

Definition APIServiceExportConditionResourcesValid : string := "ResourcesValid".

(** [reconciler] *)
Record reconciler : Type := {
  listServiceBinding : string -> result (list string);
  getServiceExportResource : string -> result APIServiceExportResource
}.

Section Reconcile.

(** The helpers of other packages, as parameters. *)
Variable ErrorText : error -> string.
Variable IsNotFound : error -> bool.                  (* [errors.IsNotFound] *)
Variable conditions_Set : APIServiceExport -> Condition -> APIServiceExport.
Variable ServiceExportResourceToCRD :
  APIServiceExportResource -> result CustomResourceDefinition.

Variable r : reconciler.

Definition MarkFalse (export : APIServiceExport) (t reason : string)
  (severity : ConditionSeverity) (message : string) : APIServiceExport :=
  conditions_Set export
    {| cond_Type := t; cond_Status := false; cond_Reason := reason;
       cond_Severity := severity; cond_Message := message |}.

Definition MarkTrue (export : APIServiceExport) (t : string) : APIServiceExport :=
  conditions_Set export
    {| cond_Type := t; cond_Status := true; cond_Reason := "";
       cond_Severity := ConditionSeverityNone; cond_Message := "" |}.

(** The state of the loop of [ensureResourcesExist], with the names
    passed to [getServiceExportResource] so far. *)
Record loopState : Type := {
  export : APIServiceExport;
  errs : list error;
  resourceValid : bool;
  lookups : list string
}.

(** One iteration of the loop. *)
Definition ensureResource (st : loopState) (resource : APIServiceExportGroupResource)
  : loopState :=
  let name := Resource resource ++ "." ++ Group resource in
  let looked := (lookups st ++ [name])%list in
  match getServiceExportResource r name with
  | Err err =>
      if negb (IsNotFound err) then
        {| export := export st; errs := (errs st ++ [err])%list;
           resourceValid := resourceValid st; lookups := looked |}
      else
        {| export :=
             MarkFalse (export st) APIServiceExportConditionResourcesValid
               "ServiceExportResourceNotFound" ConditionSeverityError
               ("APIServiceExportResource " ++ name
                ++ " not found on the service provider cluster.");
           errs := errs st; resourceValid := false; lookups := looked |}
  | Ok found =>
      if negb (String.eqb (res_Scope found) NamespaceScoped)
         && negb (String.eqb (Spec_Scope (export st)) ClusterScope) then
        {| export :=
             MarkFalse (export st) APIServiceExportConditionResourcesValid
               "ServiceExportResourceWrongScope" ConditionSeverityError
               ("APIServiceExportResource " ++ name
                ++ " is Cluster scope, but the APIServiceExport is not.");
           errs := errs st; resourceValid := false; lookups := looked |}
      else
        match ServiceExportResourceToCRD found with
        | Err err =>
            {| export :=
                 MarkFalse (export st) APIServiceExportConditionResourcesValid
                   "ServiceExportResourceInvalid" ConditionSeverityError
                   ("APIServiceExportResource " ++ name
                    ++ " on the service provider cluster is invalid: "
                    ++ ErrorText err);
               errs := errs st; resourceValid := false; lookups := looked |}
        | Ok _ =>
            {| export := export st; errs := errs st;
               resourceValid := resourceValid st; lookups := looked |}
        end
  end.

(** [ensureResourcesExist]: the export with its conditions updated,
    the errors to aggregate, and the names looked up. *)
Definition ensureResourcesExist (e : APIServiceExport)
  : APIServiceExport * list error * list string :=
  let st := fold_left ensureResource (Spec_Resources e)
              {| export := e; errs := []; resourceValid := true; lookups := [] |} in
  let e' := if resourceValid st
            then MarkTrue (export st) APIServiceExportConditionResourcesValid
            else export st in
  (e', errs st, lookups st).

End Reconcile.

End serviceexport.

(** [h] with another value of the [--testing-auto-select] flag. *)
Definition withAutoSelect (h : handler) (v : string) : handler :=
  {| oidc := oidc h;
     backendCallbackURL := backendCallbackURL h;
     providerPrettyName := providerPrettyName h;
     testingAutoSelect := v;
     apiextensionsLister := apiextensionsLister h;
     kubeManager := kubeManager h |}.

(** ** Notions used in the statements *)

(** The next bytes of a string form one well-formed UTF-8 sequence (or
    one ASCII byte); the second string is what follows it. *)
Inductive valid_head : string -> string -> Prop :=
| vh_ascii b r : byteZ b < 0x80 -> valid_head (String b r) r
| vh_2 b s1 r lo hi :
    utf8.first (byteZ b) = utf8.Lead 2 lo hi -> utf8.inRange lo hi s1 = true ->
    valid_head (String b (String s1 r)) r
| vh_3 b s1 s2 r lo hi :
    utf8.first (byteZ b) = utf8.Lead 3 lo hi -> utf8.inRange lo hi s1 = true ->
    utf8.isCont s2 = true ->
    valid_head (String b (String s1 (String s2 r))) r
| vh_4 b s1 s2 s3 r lo hi :
    utf8.first (byteZ b) = utf8.Lead 4 lo hi -> utf8.inRange lo hi s1 = true ->
    utf8.isCont s2 = true -> utf8.isCont s3 = true ->
    valid_head (String b (String s1 (String s2 (String s3 r)))) r.

(** A member name that is written without escapes and read back as it
    is. *)
Definition plainName (k : string) : Prop :=
  forall X, json.unquoteBody (k ++ String json.dq X) = Some (k, X).

(** The zero value of [resources.AuthCode]. *)
Definition emptyAuthCode : resources.AuthCode :=
  {| resources.RedirectURL := ""; resources.SessionID := "" |}.

(** The state parameter of the authorization redirect, made from
    [code] as [handleAuthorize] makes it, is decoded by the steps of
    [handleCallback] into [code] again. *)
Definition state_roundtrips (code : resources.AuthCode) : Prop :=
  exists dataCode decode,
    resources.Marshal code = Ok dataCode
    /\ base64.DecodeString base64.StdEncoding
         (base64.EncodeToString base64.StdEncoding dataCode) = Ok decode
    /\ resources.Unmarshal decode emptyAuthCode = Ok code.

(** The handler ended with [http.Error]. *)
Definition failed (resp : http.Response) : bool := http.isErrorReply (snd resp).

(** The handler set a cookie. *)
Definition cookieWritten (resp : http.Response) : bool :=
  existsb http.isSetCookie (fst resp).

(** The credential minter was called and returned a credential. *)
Definition credentialMinted (resp : http.Response) : bool :=
  existsb http.isMinted (fst resp).

(** The handler listed the resource definitions or rendered the page. *)
Definition listedOrRendered (resp : http.Response) : bool :=
  existsb http.isListing (fst resp).

(** The name under which the reconciler looks up the entry of an
    exported resource. *)
Definition lookupName (gr : serviceexport.APIServiceExportGroupResource) : string :=
  serviceexport.Resource gr ++ "." ++ serviceexport.Group gr.

(** The authorization code and the state the callback works with. *)
Definition callbackCode (r : http.Request) : string :=
  orElse (http.Get (http.Form r) "code") (http.Get (http.URL_Query r) "code").
Definition callbackState (r : http.Request) : string :=
  orElse (http.Get (http.Form r) "state") (http.Get (http.URL_Query r) "state").


(** What the raw URL-safe decoder accepts: bytes of the URL-safe
    alphabet, with carriage returns and line feeds anywhere between them,
    the number of alphabet bytes not being 1 modulo 4. *)
Definition inAlphabet (enc : base64.Encoding) (c : ascii) : bool :=
  match base64.decodeMap enc c with
  | Some _ => true
  | None => false
  end.

Fixpoint countSymbols (enc : base64.Encoding) (s : string) : nat :=
  match s with
  | EmptyString => 0
  | String c r =>
      if inAlphabet enc c then S (countSymbols enc r) else countSymbols enc r
  end.

Fixpoint onlySymbols (enc : base64.Encoding) (s : string) : bool :=
  match s with
  | EmptyString => true
  | String c r => (inAlphabet enc c || base64.isNewline c) && onlySymbols enc r
  end.

Definition validRawURL (s : string) : bool :=
  onlySymbols base64.RawURLEncoding s
  && negb (Nat.eqb (countSymbols base64.RawURLEncoding s mod 4) 1).


(** ** A concrete deployment

    One instance of the collaborators, on which the handlers can be
    run: the session codec and the encoding of the bind response are
    base64 over JSON, as the specification describes the opaque state
    codec; the identity provider accepts the code [good-code]. *)
Module Sample.

Definition errorText (e : error) : string :=
  match e with
  | CorruptInputError _ => "illegal base64 data"
  | SyntaxError => "invalid JSON"
  | UnmarshalTypeError v => "json: cannot unmarshal " ++ v
  | ErrNoCookie => "http: named cookie not present"
  | errorString t => t
  end.

Definition SessionState_fields (st : cookie.SessionState) : jsonstruct.fields :=
  [("AccessToken", cookie.AccessToken st);
   ("IDToken", cookie.IDToken st);
   ("RefreshToken", cookie.RefreshToken st);
   ("RedirectURL", cookie.RedirectURL st);
   ("SessionID", cookie.SessionID st)].

Definition encodeSession (st : cookie.SessionState) : result string :=
  Ok (base64.EncodeToString base64.StdEncoding
        (json.marshalStruct (SessionState_fields st))).

Definition decodeSession (v : string) : result cookie.SessionState :=
  match base64.DecodeString base64.StdEncoding v with
  | Err e => Err e
  | Ok data =>
      match jsonstruct.Unmarshal data
              [("AccessToken", ""); ("IDToken", ""); ("RefreshToken", "");
               ("RedirectURL", ""); ("SessionID", "")] with
      | Err e => Err e
      | Ok fs =>
          Ok {| cookie.CreatedAt := 0;
                cookie.ExpiresOn := 0;
                cookie.AccessToken := jsonstruct.field "AccessToken" fs;
                cookie.IDToken := jsonstruct.field "IDToken" fs;
                cookie.RefreshToken := jsonstruct.field "RefreshToken" fs;
                cookie.RedirectURL := jsonstruct.field "RedirectURL" fs;
                cookie.SessionID := jsonstruct.field "SessionID" fs |}
      end
  end.

Definition makeCookie (r : http.Request) (name value : string) (ttl : Z)
  : http.SetCookieValue :=
  {| http.Name := name; http.Value := value; http.Path := "/";
     http.Expires := ttl; http.MaxAge := ttl / time.Second;
     http.Secure := false; http.HttpOnly := true |}.

Definition marshalAuthResponse (a : resources.AuthResponse) : result string :=
  Ok (json.marshalStruct
        [("SessionID", resources.resp_SessionID a);
         ("ID", resources.ID a);
         ("Kubeconfig",
          base64.EncodeToString base64.StdEncoding (resources.Kubeconfig a));
         ("Group", resources.Group a);
         ("Resource", resources.Resource a);
         ("Export", resources.Export a)]).

(** [url.Parse] rejects, among others, a URL that starts with a colon
    (missing protocol scheme). *)
Definition parseURL (s : string) : result string :=
  match s with
  | String ":"%char _ => Err (errorString "missing protocol scheme")
  | _ => Ok s
  end.

Definition addQuery (u key value : string) : string :=
  u ++ "?" ++ key ++ "=" ++ value.

Definition env : Env :=
  {| ErrorText := errorText;
     Now := 1667260800;
     epochRFC1123 := "Thu, 01 Jan 1970 00:00:00 UTC";
     formatForm := fun _ => "map[]";
     SessionState_Encode := encodeSession;
     cookie_Decode := decodeSession;
     MakeCookie := makeCookie;
     Marshal_AuthResponse := marshalAuthResponse;
     url_Parse := parseURL;
     url_AddQuery := addQuery;
     template_Execute := fun _ _ => Ok "<html></html>" |}.

Definition idTokenPayload : string :=
  json.marshalStruct [("iss", "https://idp.example"); ("sub", "alice")].

(** The JWT the provider returns: header, payload and signature
    segments, the payload in raw URL-safe base64. *)
Definition idTokenJWT : string :=
  "eyJhbGciOiJub25lIn0."
  ++ "eyJpc3MiOiJodHRwczovL2lkcC5leGFtcGxlIiwic3ViIjoiYWxpY2UifQ"
  ++ ".c2ln".

Definition provider : OIDCServiceProvider :=
  {| AuthCodeURL := fun _ state => "https://idp.example/auth?state=" ++ state;
     Exchange := fun code =>
       if String.eqb code "good-code" then
         Ok {| AccessToken := "access"; RefreshToken := "refresh";
               Expiry := 1667261100; Extra_id_token := Some idTokenJWT |}
       else Err (errorString "oauth2: cannot fetch token: 400 Bad Request") |}.

Definition manager : Manager :=
  {| HandleResources := fun subject resource group =>
       if String.eqb resource "" then Err (errorString "no such resource")
       else Ok ("kubeconfig for " ++ subject) |}.

Definition h : handler :=
  {| oidc := provider;
     backendCallbackURL := "http://backend.example/callback";
     providerPrettyName := "Example Backend";
     testingAutoSelect := "";
     apiextensionsLister :=
       Ok [ {| crd_Name := "widgets.example.io"; crd_Rest := "" |} ];
     kubeManager := manager |}.

Definition request (path : string) (query : http.Values)
  (cookies : list (string * string)) : http.Request :=
  {| http.Method := "GET"; http.Host := "backend.example";
     http.URL_Path := path; http.URL_Query := query; http.Form := [];
     http.Cookies := cookies |}.

Definition session (redirectURL : string) : cookie.SessionState :=
  {| cookie.CreatedAt := 1667260800; cookie.ExpiresOn := 1667261100;
     cookie.AccessToken := "access"; cookie.IDToken := idTokenPayload;
     cookie.RefreshToken := "refresh"; cookie.RedirectURL := redirectURL;
     cookie.SessionID := "abc123" |}.

(** The value of the session cookie of a session whose caller gave
    [redirectURL]. *)
Definition sessionCookie (redirectURL : string) : string :=
  match encodeSession (session redirectURL) with
  | Ok b => b
  | Err _ => ""
  end.

(** The state parameter of a handshake of session [abc123]. *)
Definition stateParam : string :=
  "eyJSZWRpcmVjdFVSTCI6Imh0dHBzOi8vY29uc3VtZXIuZXhhbXBsZS9jYiIsIlNlc3Npb25JRCI6ImFiYzEyMyJ9".

Definition bindRequest (redirectURL : string) : http.Request :=
  request "/bind"
    [("s", "abc123"); ("group", "example.io"); ("resource", "widgets")]
    [("kube-bind-abc123", sessionCookie redirectURL)].


(** The redirect that ends the handshake of session [abc123]. *)
Definition bindRedirect : string :=
  "https://consumer.example/cb?auth_response="
  ++ "eyJTZXNzaW9uSUQiOiJhYmMxMjMiLCJJRCI6Imh0dHBzOi8vaWRwLmV4YW1wbGUvYWxpY2UiLCJLdWJlY29uZmlnIjoiYTNWaVpXTnZibVpwWnlCbWIzSWdZV3hwWTJVPSIsIkdyb3VwIjoiZXhhbXBsZS5pbyIsIlJlc291cmNlIjoid2lkZ2V0cyIsIkV4cG9ydCI6IndpZGdldHMuZXhhbXBsZS5pbyJ9".

End Sample.

(** * The rest of the backend *)

(** ** Package [options] *)
Module options.

(** [logs.Options]: the verbosity, which [NewOptions] sets, and the
    other settings. *)
Record LogsOptions : Type := {
  Verbosity : Z;
  logs_Rest : string
}.

Record ExtraOptions : Type := {
  KubeConfig : string;
  NamespacePrefix : string;
  PrettyName : string;
  TestingAutoSelect : string
}.

Section Options.

(** The option groups [OIDC] and [Serve] with their methods, and the
    defaults of the logging options. *)
Variable OIDC : Type.
Variable Serve : Type.
Variable logs_NewOptions : LogsOptions.
Variable NewOIDC : OIDC.
Variable NewServe : Serve.
(** [Complete] has a pointer receiver: it yields the group as it
    leaves it and the error, if any. *)
Variable OIDC_Complete : OIDC -> OIDC * option error.
Variable Serve_Complete : Serve -> Serve * option error.
Variable OIDC_Validate : OIDC -> option error.

Record Options : Type := {
  Logs : LogsOptions;
  OIDC_ : OIDC;
  Serve_ : Serve;
  Extra : ExtraOptions
}.

(** [completedOptions]; [CompletedOptions] wraps a pointer to it. *)
Record completedOptions : Type := {
  c_Logs : LogsOptions;
  c_OIDC : OIDC;
  c_Serve : Serve;
  c_Extra : ExtraOptions
}.

Definition CompletedOptions : Type := completedOptions.

Definition NewOptions : Options :=
  let logs := {| Verbosity := 2; logs_Rest := logs_Rest logs_NewOptions |} in
  {| Logs := logs;
     OIDC_ := NewOIDC;
     Serve_ := NewServe;
     Extra := {| KubeConfig := "";
                 NamespacePrefix := "cluster";
                 PrettyName := "Example Backend";
                 TestingAutoSelect := "" |} |}.

(** [Complete]: the options as the call leaves them, and what it
    returns. *)
Definition Complete (o : Options) : Options * result CompletedOptions :=
  match OIDC_Complete (OIDC_ o) with
  | (oidc', Some err) =>
      ({| Logs := Logs o; OIDC_ := oidc'; Serve_ := Serve_ o; Extra := Extra o |},
       Err err)
  | (oidc', None) =>
      match Serve_Complete (Serve_ o) with
      | (serve', Some err) =>
          ({| Logs := Logs o; OIDC_ := oidc'; Serve_ := serve'; Extra := Extra o |},
           Err err)
      | (serve', None) =>
          ({| Logs := Logs o; OIDC_ := oidc'; Serve_ := serve'; Extra := Extra o |},
           Ok {| c_Logs := Logs o; c_OIDC := oidc'; c_Serve := serve';
                 c_Extra := Extra o |})
      end
  end.

(** [Validate]: [None] is the nil error. *)
Definition Validate (o : CompletedOptions) : option error :=
  if String.eqb (NamespacePrefix (c_Extra o)) "" then
    Some (errorString "namespace prefix cannot be empty")
  else if String.eqb (PrettyName (c_Extra o)) "" then
    Some (errorString "pretty name cannot be empty")
  else
    match OIDC_Validate (c_OIDC o) with
    | Some err => Some err
    | None => None
    end.

End Options.

Arguments Logs {OIDC Serve} _.
Arguments OIDC_ {OIDC Serve} _.
Arguments Serve_ {OIDC Serve} _.
Arguments Extra {OIDC Serve} _.
Arguments c_Logs {OIDC Serve} _.
Arguments c_OIDC {OIDC Serve} _.
Arguments c_Serve {OIDC Serve} _.
Arguments c_Extra {OIDC Serve} _.
Arguments NewOptions {OIDC Serve} logs_NewOptions NewOIDC NewServe.
Arguments Complete {OIDC Serve} OIDC_Complete Serve_Complete o.
Arguments Validate {OIDC Serve} OIDC_Validate o.

End options.

(** ** The constructor and the export endpoint *)

(** [v1alpha1.APIServiceProviderSpec]; the handler leaves the rest of
    the [APIServiceProvider] at its zero value. *)
Record APIServiceProviderSpec : Type := {
  AuthenticatedClientURL : string;
  ProviderPrettyName : string
}.

(** [NewHandler]; the HTTP client it stores is not used by any
    handler.  The error it returns is always nil. *)
Definition NewHandler (provider : OIDCServiceProvider)
  (backendCallbackURL providerPrettyName testingAutoSelect : string)
  (mgr : Manager) (apiextensionsLister : result (list CustomResourceDefinition))
  : result handler :=
  Ok {| oidc := provider;
        backendCallbackURL := backendCallbackURL;
        providerPrettyName := providerPrettyName;
        testingAutoSelect := testingAutoSelect;
        apiextensionsLister := apiextensionsLister;
        kubeManager := mgr |}.

Section ExportEndpoint.

Variable env : Env.
Variable h : handler.
(** [json.Marshal] of the [APIServiceProvider] with the given spec. *)
Variable Marshal_APIServiceProvider : APIServiceProviderSpec -> result string.

Import http.

Definition handleServiceExport (r : Request) : Response :=
  let serviceProvider :=
    {| AuthenticatedClientURL := "http://" ++ Host r ++ "/authorize";
       ProviderPrettyName := providerPrettyName h |} in
  match Marshal_APIServiceProvider serviceProvider with
  | Err err =>
      ([Log "failed to marshal service provider" (ErrorText env err)],
       Error (ErrorText env err) StatusInternalServerError)
  | Ok bs =>
      ([SetHeader "Content-Type" "application/json"], Write bs)
  end.

(** The handler [AddRoutes] registers for each route. *)
Definition handlerOf (e : Endpoint) : Request -> Response :=
  match e with
  | ServiceExportEndpoint => handleServiceExport
  | ResourcesEndpoint => handleResources env h
  | BindEndpoint => handleBind env h
  | AuthorizeEndpoint => handleAuthorize env h
  | CallbackEndpoint => handleCallback env h
  end.

End ExportEndpoint.

(** ** The reconciler of the exports *)
Module reconcile.

Import serviceexport.

(** What [reconcile] returns: the error of the listing as it is, or the
    aggregate of the errors collected, which is nil when there is
    none. *)
Inductive Outcome : Type :=
| ListError (err : error)
| Aggregate (errs : list error).

Section Reconcile.

(** The helpers of other packages, as parameters. *)
Variable ErrorText : error -> string.
Variable IsNotFound : error -> bool.
Variable conditions_Set : APIServiceExport -> Condition -> APIServiceExport.
Variable ServiceExportResourceToCRD :
  APIServiceExportResource -> result CustomResourceDefinition.
Variable SetSummary : APIServiceExport -> APIServiceExport.   (* [conditions.SetSummary] *)

(** [kubebindv1alpha1.APIServiceBinding]: its name and
    [conditions.Get] on it. *)
Variable APIServiceBinding : Type.
Variable binding_Name : APIServiceBinding -> string.
Variable conditions_Get : APIServiceBinding -> string -> option Condition.

(** The condition types. *)
Variable APIServiceExportConditionConnected : string.
Variable APIServiceExportConditionSchemaInSync : string.
Variable APIServiceExportConditionServiceBindingReady : string.
Variable APIServiceBindingConditionSchemaInSync : string.
Variable ReadyCondition : string.

(** [reconciler], with the bindings as they are listed. *)
Variable listServiceBinding : string -> result (list APIServiceBinding).
Variable getServiceExportResource : string -> result APIServiceExportResource.

(** The same reconciler, with the bindings reduced to their names. *)
Definition r : reconciler :=
  {| serviceexport.listServiceBinding := fun export =>
       match listServiceBinding export with
       | Ok bs => Ok (map binding_Name bs)
       | Err err => Err err
       end;
     serviceexport.getServiceExportResource := getServiceExportResource |}.

(** [ensureServiceBindingConditionCopied]; the error it returns is
    always nil. *)
Definition ensureServiceBindingConditionCopied (export : APIServiceExport)
  (binding : APIServiceBinding) : APIServiceExport :=
  let export :=
    match conditions_Get binding APIServiceBindingConditionSchemaInSync with
    | Some inSync => conditions_Set export inSync
    | None =>
        MarkFalse conditions_Set export APIServiceExportConditionSchemaInSync
          "Unknown" ConditionSeverityInfo
          ("APIServiceBinding " ++ binding_Name binding
           ++ " in the consumer cluster does not have a SchemaInSync condition.")
    end in
  match conditions_Get binding ReadyCondition with
  | Some ready =>
      let clone :=
        {| cond_Type := APIServiceExportConditionServiceBindingReady;
           cond_Status := cond_Status ready;
           cond_Reason := cond_Reason ready;
           cond_Severity := cond_Severity ready;
           cond_Message := cond_Message ready |} in
      conditions_Set export clone
  | None =>
      MarkFalse conditions_Set export APIServiceExportConditionServiceBindingReady
        "Unknown" ConditionSeverityInfo
        ("SerciceBinding " ++ binding_Name binding
         ++ " in the consumer cluster does not have a Ready condition.")
  end.

(** [reconcile]: the export as the call leaves it, what it returns,
    and the names passed to [getServiceExportResource]. *)
Definition reconcile (export : APIServiceExport)
  : APIServiceExport * Outcome * list string :=
  match listServiceBinding (Name export) with
  | Err err => (export, ListError err, [])
  | Ok bindings =>
      let export :=
        match bindings with
        | [] =>
            MarkFalse conditions_Set export APIServiceExportConditionConnected
              "NoServiceBinding" ConditionSeverityInfo
              "No ServiceBindings found for APIServiceExport"
        | [binding] =>
            ensureServiceBindingConditionCopied
              (MarkTrue conditions_Set export APIServiceExportConditionConnected)
              binding
        | _ =>
            MarkFalse conditions_Set export APIServiceExportConditionConnected
              "MultipleServiceBindings" ConditionSeverityError
              "Multiple ServiceBindings found for APIServiceExport. Delete all but one."
        end in
      match ensureResourcesExist ErrorText IsNotFound conditions_Set
              ServiceExportResourceToCRD r export with
      | (export, errs, looked) =>
          (SetSummary export, Aggregate errs, looked)
      end
  end.

End Reconcile.

End reconcile.

(** ** Further notions used in the statements *)

(** The lookup of a resource fails with an error that is not "not
    found": the error the reconciler reports. *)
Definition hardError (IsNotFound : error -> bool)
  (get : string -> result serviceexport.APIServiceExportResource)
  (gr : serviceexport.APIServiceExportGroupResource) : list error :=
  match get (lookupName gr) with
  | Err err => if IsNotFound err then [] else [err]
  | Ok _ => []
  end.

(** The resource is missing, of the wrong scope for an export of scope
    [scope], or does not convert: the cases in which the reconciler
    marks the export false. *)
Definition unusable (IsNotFound : error -> bool)
  (ToCRD : serviceexport.APIServiceExportResource -> result CustomResourceDefinition)
  (get : string -> result serviceexport.APIServiceExportResource)
  (scope : string)
  (gr : serviceexport.APIServiceExportGroupResource) : bool :=
  match get (lookupName gr) with
  | Err err => IsNotFound err
  | Ok found =>
      (negb (String.eqb (serviceexport.res_Scope found) serviceexport.NamespaceScoped)
       && negb (String.eqb scope serviceexport.ClusterScope))
      || negb (isOk (ToCRD found))
  end.

(** The names of a list of resource definitions do not decrease. *)
Fixpoint sortedByName (l : list CustomResourceDefinition) : bool :=
  match l with
  | [] => true
  | c :: rest =>
      match rest with
      | [] => true
      | d :: _ => negb (String.ltb (crd_Name d) (crd_Name c)) && sortedByName rest
      end
  end.

(** The names of a list of resource definitions increase. *)
Fixpoint increasingByName (l : list CustomResourceDefinition) : bool :=
  match l with
  | [] => true
  | c :: rest =>
      match rest with
      | [] => true
      | d :: _ => String.ltb (crd_Name c) (crd_Name d) && increasingByName rest
      end
  end.


Definition isExchange (e : http.Event) : bool :=
  match e with http.CallExchange _ => true | _ => false end.

(** ** A concrete provider cluster

    One instance of the collaborators of the reconciler: the conditions
    of an export are kept one per type, the newest first; the cluster
    knows the namespaced resource [widgets.example.io] and the
    cluster-scoped [nodes.example.io], fails to answer for
    [flaky.example.io] and has no other resource. *)
Module SampleCluster.

Import serviceexport.

Definition setCondition (e : APIServiceExport) (c : Condition) : APIServiceExport :=
  {| Name := Name e;
     Spec_Scope := Spec_Scope e;
     Spec_Resources := Spec_Resources e;
     Status_Conditions :=
       c :: filter (fun d => negb (String.eqb (cond_Type d) (cond_Type c)))
              (Status_Conditions e) |}.

Definition isNotFound (e : error) : bool :=
  match e with
  | errorString t => String.eqb t "not found"
  | _ => false
  end.

Definition toCRD (res : APIServiceExportResource) : result CustomResourceDefinition :=
  if String.eqb (res_Rest res) "" then Err (errorString "no versions")
  else Ok {| crd_Name := res_Rest res; crd_Rest := "" |}.

Definition getResource (name : string) : result APIServiceExportResource :=
  if String.eqb name "widgets.example.io" then
    Ok {| res_Scope := NamespaceScoped; res_Rest := "widgets.example.io" |}
  else if String.eqb name "nodes.example.io" then
    Ok {| res_Scope := ClusterScope; res_Rest := "nodes.example.io" |}
  else if String.eqb name "flaky.example.io" then
    Err (errorString "connection refused")
  else Err (errorString "not found").

(** A binding: its name and its conditions. *)
Definition Binding : Type := (string * list Condition)%type.

Definition getCondition (b : Binding) (t : string) : option Condition :=
  find (fun c => String.eqb (cond_Type c) t) (snd b).

Definition listBindings (bindings : result (list Binding)) (export : string)
  : result (list Binding) := bindings.

Definition rec : reconciler :=
  {| listServiceBinding := fun _ => Ok [];
     getServiceExportResource := getResource |}.

Definition exportOf (resources : list string) : APIServiceExport :=
  {| Name := "my-export";
     Spec_Scope := NamespaceScoped;
     Spec_Resources :=
       map (fun res => {| Group := "example.io"; Resource := res |}) resources;
     Status_Conditions := [] |}.

End SampleCluster.

(** * Properties *)

(** ** Bytes and bit operations *)

Lemma byteZ_range (a : ascii) : 0 <= byteZ a < 256.
Proof.
  unfold byteZ. pose proof (N_ascii_bounded a). lia.
Qed.

Lemma Zbyte_byteZ (a : ascii) : Zbyte (byteZ a) = a.
Proof.
  unfold Zbyte. rewrite Z.mod_small by apply byteZ_range.
  unfold byteZ. rewrite N2Z.id. apply ascii_N_embedding.
Qed.

Lemma byteZ_Zbyte (z : Z) : 0 <= z < 256 -> byteZ (Zbyte z) = z.
Proof.
  intros Hz. unfold Zbyte, byteZ. rewrite Z.mod_small by assumption.
  rewrite N_ascii_embedding by lia. lia.
Qed.

Lemma Zbyte_mod (z : Z) : Zbyte (z mod 256) = Zbyte z.
Proof. unfold Zbyte. now rewrite Z.mod_mod by lia. Qed.

(** Bits that do not overlap add up. *)
Lemma lor_mul_low (a b k : Z) :
  0 <= k -> 0 <= b < 2 ^ k -> Z.lor (a * 2 ^ k) b = a * 2 ^ k + b.
Proof.
  intros Hk Hb.
  assert (Hland : Z.land (a * 2 ^ k) b = 0).
  { apply Z.bits_inj'. intros n Hn. rewrite Z.land_spec, Z.bits_0.
    destruct (Z.lt_ge_cases n k) as [Hlt | Hge].
    - rewrite Z.mul_pow2_bits_low by lia. reflexivity.
    - rewrite <- (Z.mod_small b (2 ^ k)) by lia.
      rewrite Z.mod_pow2_bits_high by lia. apply andb_false_r. }
  rewrite <- Z.lxor_lor by assumption.
  symmetry. apply Z.add_nocarry_lxor. assumption.
Qed.

Lemma land_mask (a n : Z) : 0 <= n -> Z.land a (2 ^ n - 1) = a mod 2 ^ n.
Proof.
  intros Hn. rewrite <- Z.land_ones by assumption.
  f_equal. rewrite Z.ones_equiv. lia.
Qed.

Ltac pows :=
  repeat match goal with
         | |- context [2 ^ ?k] =>
             let v := eval compute in (2 ^ k) in change (2 ^ k) with v
         | H : context [2 ^ ?k] |- _ =>
             let v := eval compute in (2 ^ k) in change (2 ^ k) with v in H
         end.
Ltac plia := pows; lia.

Ltac shifts :=
  repeat (rewrite Z.shiftl_mul_pow2 by lia);
  repeat (rewrite Z.shiftr_div_pow2 by lia).

Lemma sextet_eq val k : 0 <= k -> base64.sextet val k = (val / 2 ^ k) mod 64.
Proof.
  intros Hk. unfold base64.sextet. shifts.
  change 63 with (2 ^ 6 - 1). now rewrite land_mask by lia.
Qed.

Lemma sextet_range val k : 0 <= k -> 0 <= base64.sextet val k < 64.
Proof. intros Hk. rewrite sextet_eq by assumption. apply Z.mod_pos_bound. lia. Qed.

Lemma assemble_eq d0 d1 d2 d3 :
  0 <= d0 < 64 -> 0 <= d1 < 64 -> 0 <= d2 < 64 -> 0 <= d3 < 64 ->
  base64.assemble d0 d1 d2 d3 = d0 * 262144 + d1 * 4096 + d2 * 64 + d3.
Proof.
  intros H0 H1 H2 H3. unfold base64.assemble. shifts.
  rewrite (lor_mul_low d0 _ 18) by plia.
  replace (d0 * 2 ^ 18 + d1 * 2 ^ 12) with ((d0 * 64 + d1) * 2 ^ 12) by plia.
  rewrite (lor_mul_low _ _ 12) by plia.
  replace ((d0 * 64 + d1) * 2 ^ 12 + d2 * 2 ^ 6)
    with ((d0 * 4096 + d1 * 64 + d2) * 2 ^ 6) by plia.
  rewrite (lor_mul_low _ _ 6) by plia. plia.
Qed.

Lemma group3_eq a b c :
  base64.group3 a b c = byteZ a * 65536 + byteZ b * 256 + byteZ c.
Proof.
  pose proof (byteZ_range a). pose proof (byteZ_range b). pose proof (byteZ_range c).
  unfold base64.group3. shifts.
  rewrite lor_mul_low by plia.
  replace (byteZ a * 2 ^ 16 + byteZ b * 2 ^ 8) with ((byteZ a * 256 + byteZ b) * 2 ^ 8) by plia.
  rewrite lor_mul_low by plia. plia.
Qed.

Lemma quantum_full a b c :
  base64.flush [base64.sextet (base64.group3 a b c) 18;
                base64.sextet (base64.group3 a b c) 12;
                base64.sextet (base64.group3 a b c) 6;
                base64.sextet (base64.group3 a b c) 0]
  = String a (String b (String c "")).
Proof.
  pose proof (byteZ_range a). pose proof (byteZ_range b). pose proof (byteZ_range c).
  unfold base64.flush.
  rewrite assemble_eq by (apply sextet_range; lia).
  rewrite !sextet_eq by lia. rewrite group3_eq.
  set (v := byteZ a * 65536 + byteZ b * 256 + byteZ c).
  assert (Hv : 0 <= v < 16777216) by (unfold v; lia).
  shifts.
  pows.
  assert (Hsum : (v / 262144) mod 64 * 262144 + (v / 4096) mod 64 * 4096
                 + (v / 64) mod 64 * 64 + (v / 1) mod 64 = v).
  { clearbody v. clear -Hv. Z.div_mod_to_equations. lia. }
  rewrite Hsum.
  rewrite <- (Zbyte_mod (v / 65536)), <- (Zbyte_mod (v / 256)), <- (Zbyte_mod v).
  replace ((v / 65536) mod 256) with (byteZ a) by (unfold v; Z.div_mod_to_equations; lia).
  replace ((v / 256) mod 256) with (byteZ b) by (unfold v; Z.div_mod_to_equations; lia).
  replace (v mod 256) with (byteZ c) by (unfold v; Z.div_mod_to_equations; lia).
  now rewrite !Zbyte_byteZ.
Qed.

Lemma quantum_two a b :
  let val := Z.lor (Z.shiftl (byteZ a) 16) (Z.shiftl (byteZ b) 8) in
  base64.flush [base64.sextet val 18; base64.sextet val 12; base64.sextet val 6]
  = String a (String b "").
Proof.
  pose proof (byteZ_range a). pose proof (byteZ_range b).
  intros val.
  assert (Hval : val = byteZ a * 65536 + byteZ b * 256).
  { unfold val. shifts. rewrite (lor_mul_low _ _ 16) by plia. plia. }
  unfold base64.flush.
  rewrite assemble_eq by (try apply sextet_range; lia).
  rewrite !sextet_eq by lia. rewrite Hval. clear Hval val.
  set (v := byteZ a * 65536 + byteZ b * 256).
  shifts. pows.
  rewrite <- (Zbyte_mod (_ / 65536)), <- (Zbyte_mod (_ / 256)).
  replace (((v / 262144) mod 64 * 262144 + (v / 4096) mod 64 * 4096
            + (v / 64) mod 64 * 64 + 0) / 65536 mod 256)
    with (byteZ a) by (unfold v; Z.div_mod_to_equations; lia).
  replace (((v / 262144) mod 64 * 262144 + (v / 4096) mod 64 * 4096
            + (v / 64) mod 64 * 64 + 0) / 256 mod 256)
    with (byteZ b) by (unfold v; Z.div_mod_to_equations; lia).
  now rewrite !Zbyte_byteZ.
Qed.

Lemma quantum_one a :
  let val := Z.shiftl (byteZ a) 16 in
  base64.flush [base64.sextet val 18; base64.sextet val 12] = String a "".
Proof.
  pose proof (byteZ_range a).
  intros val. unfold base64.flush.
  rewrite assemble_eq by (try apply sextet_range; lia).
  rewrite !sextet_eq by lia. unfold val. shifts. pows.
  rewrite <- (Zbyte_mod (_ / 65536)).
  replace (((byteZ a * 65536 / 262144) mod 64 * 262144
            + (byteZ a * 65536 / 4096) mod 64 * 4096 + 0 * 64 + 0) / 65536 mod 256)
    with (byteZ a) by (Z.div_mod_to_equations; lia).
  now rewrite Zbyte_byteZ.
Qed.

(** A check over an initial segment of the integers, by enumeration. *)
Lemma range_check (f : Z -> bool) (n : nat) :
  forallb (fun i => f (Z.of_nat i)) (seq 0 n) = true ->
  forall v, 0 <= v < Z.of_nat n -> f v = true.
Proof.
  intros Hall v Hv. rewrite forallb_forall in Hall.
  rewrite <- (Z2Nat.id v) by lia. apply Hall. apply in_seq. lia.
Qed.

Lemma decodeMap_encodeAt_std v :
  0 <= v < 64 ->
  base64.decodeMap base64.StdEncoding (base64.encodeAt base64.StdEncoding v) = Some v.
Proof.
  intros Hv.
  pose proof (range_check
    (fun v => match base64.decodeMap base64.StdEncoding
                      (base64.encodeAt base64.StdEncoding v) with
              | Some w => w =? v
              | None => false
              end) 64 eq_refl v Hv) as Hc.
  cbv beta in Hc.
  destruct (base64.decodeMap _ _) as [w|]; [|discriminate].
  apply Z.eqb_eq in Hc. now subst.
Qed.

Lemma decodeFrom_symbol v rest si dbuf :
  0 <= v < 64 ->
  base64.decodeFrom base64.StdEncoding
    (String (base64.encodeAt base64.StdEncoding v) rest) si dbuf
  = match dbuf with
    | [d0; d1; d2] =>
        match base64.decodeFrom base64.StdEncoding rest (si + 1) [] with
        | Ok tl => Ok (base64.flush [d0; d1; d2; v] ++ tl)
        | Err e => Err e
        end
    | _ => base64.decodeFrom base64.StdEncoding rest (si + 1) (dbuf ++ [v])%list
    end.
Proof.
  intros Hv. cbn [base64.decodeFrom].
  rewrite decodeMap_encodeAt_std by assumption. reflexivity.
Qed.

Lemma string_ind3 (P : string -> Prop) :
  P "" ->
  (forall a, P (String a "")) ->
  (forall a b, P (String a (String b ""))) ->
  (forall a b c rest, P rest -> P (String a (String b (String c rest)))) ->
  forall s, P s.
Proof.
  intros H0 H1 H2 H3.
  assert (Hall : forall s, P s /\ (forall a, P (String a s))
                           /\ (forall a b, P (String a (String b s)))).
  { induction s as [|c s IH].
    - repeat split; auto.
    - destruct IH as (IHa & IHb & IHc). repeat split; auto. }
  intros s. apply Hall.
Qed.

Lemma decodeFrom_pad2 d0 d1 si :
  base64.decodeFrom base64.StdEncoding "==" si [d0; d1] = Ok (base64.flush [d0; d1]).
Proof. reflexivity. Qed.

Lemma decodeFrom_pad1 d0 d1 d2 si :
  base64.decodeFrom base64.StdEncoding "=" si [d0; d1; d2]
  = Ok (base64.flush [d0; d1; d2]).
Proof. reflexivity. Qed.

Theorem std_roundtrip (src : string) (si : Z) :
  base64.decodeFrom base64.StdEncoding
    (base64.EncodeToString base64.StdEncoding src) si [] = Ok src.
Proof.
  revert si. induction src as [| a | a b | a b c rest IH] using string_ind3; intros si.
  - reflexivity.
  - cbn [base64.EncodeToString].
    rewrite !decodeFrom_symbol by (apply sextet_range; lia).
    cbn [app]. change (base64.padding base64.StdEncoding 2) with "==".
    rewrite decodeFrom_pad2. now rewrite (quantum_one a).
  - cbn [base64.EncodeToString].
    rewrite !decodeFrom_symbol by (apply sextet_range; lia).
    cbn [app]. change (base64.padding base64.StdEncoding 1) with "=".
    rewrite decodeFrom_pad1. now rewrite (quantum_two a b).
  - cbn [base64.EncodeToString].
    rewrite !decodeFrom_symbol by (apply sextet_range; lia).
    cbn [app]. rewrite IH. now rewrite quantum_full.
Qed.

(** ** UTF-8: encoding what was decoded *)

Lemma lor_high (c b k : Z) :
  0 <= k -> c mod 2 ^ k = 0 -> 0 <= b < 2 ^ k -> Z.lor c b = c + b.
Proof.
  intros Hk Hc Hb.
  assert (Hpos : 0 < 2 ^ k) by (apply Z.pow_pos_nonneg; lia).
  rewrite (Z.div_mod c (2 ^ k)) by lia. rewrite Hc, Z.add_0_r.
  rewrite (Z.mul_comm (2 ^ k)). apply lor_mul_low; assumption.
Qed.

Lemma land_lit (a m k : Z) : m = 2 ^ k - 1 -> 0 <= k -> Z.land a m = a mod 2 ^ k.
Proof. intros -> Hk. now apply land_mask. Qed.

Ltac masks :=
  repeat rewrite (land_lit _ 0x3F 6) by (reflexivity || lia);
  repeat rewrite (land_lit _ 0x1F 5) by (reflexivity || lia);
  repeat rewrite (land_lit _ 0x0F 4) by (reflexivity || lia);
  repeat rewrite (land_lit _ 0x07 3) by (reflexivity || lia).

Ltac zcases :=
  repeat match goal with
         | |- context [?a <=? ?b] => destruct (Z.leb_spec a b); try lia
         | |- context [?a <? ?b] => destruct (Z.ltb_spec a b); try lia
         | |- context [?a =? ?b] => destruct (Z.eqb_spec a b); try lia
         end.

Lemma rune2_eq s0 s1 :
  0xC0 <= byteZ s0 <= 0xDF -> 0x80 <= byteZ s1 <= 0xBF ->
  utf8.rune2 s0 s1 = (byteZ s0 - 0xC0) * 64 + (byteZ s1 - 0x80).
Proof.
  intros H0 H1. unfold utf8.rune2. masks. shifts.
  replace (byteZ s0 mod 2 ^ 5) with (byteZ s0 - 0xC0) by (pows; Z.div_mod_to_equations; lia).
  replace (byteZ s1 mod 2 ^ 6) with (byteZ s1 - 0x80) by (pows; Z.div_mod_to_equations; lia).
  rewrite (lor_mul_low _ _ 6) by plia. plia.
Qed.

Lemma rune3_eq s0 s1 s2 :
  0xE0 <= byteZ s0 <= 0xEF -> 0x80 <= byteZ s1 <= 0xBF -> 0x80 <= byteZ s2 <= 0xBF ->
  utf8.rune3 s0 s1 s2
  = (byteZ s0 - 0xE0) * 4096 + (byteZ s1 - 0x80) * 64 + (byteZ s2 - 0x80).
Proof.
  intros H0 H1 H2. unfold utf8.rune3. masks. shifts.
  replace (byteZ s0 mod 2 ^ 4) with (byteZ s0 - 0xE0) by (pows; Z.div_mod_to_equations; lia).
  replace (byteZ s1 mod 2 ^ 6) with (byteZ s1 - 0x80) by (pows; Z.div_mod_to_equations; lia).
  replace (byteZ s2 mod 2 ^ 6) with (byteZ s2 - 0x80) by (pows; Z.div_mod_to_equations; lia).
  rewrite (lor_mul_low _ _ 12) by plia.
  replace ((byteZ s0 - 224) * 2 ^ 12 + (byteZ s1 - 128) * 2 ^ 6)
    with (((byteZ s0 - 224) * 64 + (byteZ s1 - 128)) * 2 ^ 6) by plia.
  rewrite (lor_mul_low _ _ 6) by plia. plia.
Qed.

Lemma rune4_eq s0 s1 s2 s3 :
  0xF0 <= byteZ s0 <= 0xF7 -> 0x80 <= byteZ s1 <= 0xBF ->
  0x80 <= byteZ s2 <= 0xBF -> 0x80 <= byteZ s3 <= 0xBF ->
  utf8.rune4 s0 s1 s2 s3
  = (byteZ s0 - 0xF0) * 262144 + (byteZ s1 - 0x80) * 4096
    + (byteZ s2 - 0x80) * 64 + (byteZ s3 - 0x80).
Proof.
  intros H0 H1 H2 H3. unfold utf8.rune4. masks. shifts.
  replace (byteZ s0 mod 2 ^ 3) with (byteZ s0 - 0xF0) by (pows; Z.div_mod_to_equations; lia).
  replace (byteZ s1 mod 2 ^ 6) with (byteZ s1 - 0x80) by (pows; Z.div_mod_to_equations; lia).
  replace (byteZ s2 mod 2 ^ 6) with (byteZ s2 - 0x80) by (pows; Z.div_mod_to_equations; lia).
  replace (byteZ s3 mod 2 ^ 6) with (byteZ s3 - 0x80) by (pows; Z.div_mod_to_equations; lia).
  rewrite (lor_mul_low _ _ 18) by plia.
  replace ((byteZ s0 - 240) * 2 ^ 18 + (byteZ s1 - 128) * 2 ^ 12)
    with (((byteZ s0 - 240) * 64 + (byteZ s1 - 128)) * 2 ^ 12) by plia.
  rewrite (lor_mul_low _ _ 12) by plia.
  replace (((byteZ s0 - 240) * 64 + (byteZ s1 - 128)) * 2 ^ 12 + (byteZ s2 - 128) * 2 ^ 6)
    with (((byteZ s0 - 240) * 4096 + (byteZ s1 - 128) * 64 + (byteZ s2 - 128)) * 2 ^ 6)
    by plia.
  rewrite (lor_mul_low _ _ 6) by plia. plia.
Qed.

(** The byte [hi + x] written as [hi | x]. *)
Lemma Zbyte_lor (hi k e : Z) (c : ascii) :
  0 <= k -> hi mod 2 ^ k = 0 -> 0 <= e < 2 ^ k -> hi + e = byteZ c ->
  Zbyte (Z.lor hi e) = c.
Proof.
  intros Hk Hhi He Hc. rewrite (lor_high hi e k) by assumption.
  rewrite Hc. apply Zbyte_byteZ.
Qed.

Ltac byte_with k :=
  solve [ apply (Zbyte_lor _ k);
          [ lia | reflexivity
          | pows; Z.div_mod_to_equations; lia
          | pows; Z.div_mod_to_equations; lia ] ].

Ltac bytes_eq :=
  repeat match goal with |- String _ _ = String _ _ => f_equal end;
  first [ byte_with 3 | byte_with 4 | byte_with 5 | byte_with 6 ].

Lemma EncodeRune_rune2 s0 s1 :
  0xC2 <= byteZ s0 <= 0xDF -> 0x80 <= byteZ s1 <= 0xBF ->
  utf8.EncodeRune (utf8.rune2 s0 s1) = String s0 (String s1 "").
Proof.
  intros H0 H1. rewrite rune2_eq by lia.
  set (r := (byteZ s0 - 0xC0) * 64 + (byteZ s1 - 0x80)).
  assert (Hr : 0x80 <= r <= 0x7FF) by (unfold r; lia).
  unfold utf8.EncodeRune, utf8.MaxRune, utf8.isSurrogate.
  zcases; cbn [andb orb]; masks; shifts; subst r; bytes_eq.
Qed.

Lemma EncodeRune_rune3 s0 s1 s2 lo hi :
  utf8.first (byteZ s0) = utf8.Lead 3 lo hi ->
  utf8.inRange lo hi s1 = true -> utf8.isCont s2 = true ->
  utf8.EncodeRune (utf8.rune3 s0 s1 s2) = String s0 (String s1 (String s2 "")).
Proof.
  unfold utf8.first, utf8.isCont, utf8.inRange.
  intros Hf H1 H2.
  apply andb_prop in H1 as [H1a H1b]. apply andb_prop in H2 as [H2a H2b].
  apply Z.leb_le in H1a, H1b, H2a, H2b.
  pose proof (byteZ_range s0) as R0.
  assert (Hc : 0xE0 <= byteZ s0 <= 0xEF /\ 0x80 <= byteZ s1 <= 0xBF
               /\ (byteZ s0 = 0xE0 -> 0xA0 <= byteZ s1)
               /\ (byteZ s0 = 0xED -> byteZ s1 <= 0x9F)).
  { revert Hf. zcases; intros Hf; inversion Hf; subst; lia. }
  clear Hf H1a H1b. destruct Hc as (H0 & H1 & HE0 & HED).
  rewrite rune3_eq by lia.
  set (r := (byteZ s0 - 0xE0) * 4096 + (byteZ s1 - 0x80) * 64 + (byteZ s2 - 0x80)).
  assert (Hr : 0x800 <= r <= 0xFFFF /\ ~ (0xD800 <= r <= 0xDFFF)) by (unfold r; lia).
  unfold utf8.EncodeRune, utf8.MaxRune, utf8.isSurrogate.
  zcases; cbn [andb orb]; unfold utf8.enc3; masks; shifts; subst r; bytes_eq.
Qed.

Lemma EncodeRune_rune4 s0 s1 s2 s3 lo hi :
  utf8.first (byteZ s0) = utf8.Lead 4 lo hi ->
  utf8.inRange lo hi s1 = true -> utf8.isCont s2 = true -> utf8.isCont s3 = true ->
  utf8.EncodeRune (utf8.rune4 s0 s1 s2 s3)
  = String s0 (String s1 (String s2 (String s3 ""))).
Proof.
  unfold utf8.first, utf8.isCont, utf8.inRange.
  intros Hf H1 H2 H3.
  apply andb_prop in H1 as [H1a H1b]. apply andb_prop in H2 as [H2a H2b].
  apply andb_prop in H3 as [H3a H3b].
  apply Z.leb_le in H1a, H1b, H2a, H2b, H3a, H3b.
  pose proof (byteZ_range s0) as R0.
  assert (Hc : 0xF0 <= byteZ s0 <= 0xF4 /\ 0x80 <= byteZ s1 <= 0xBF
               /\ (byteZ s0 = 0xF0 -> 0x90 <= byteZ s1)
               /\ (byteZ s0 = 0xF4 -> byteZ s1 <= 0x8F)).
  { revert Hf. zcases; intros Hf; inversion Hf; subst; lia. }
  clear Hf H1a H1b. destruct Hc as (H0 & H1 & HF0 & HF4).
  rewrite rune4_eq by lia.
  set (r := (byteZ s0 - 0xF0) * 262144 + (byteZ s1 - 0x80) * 4096
            + (byteZ s2 - 0x80) * 64 + (byteZ s3 - 0x80)).
  assert (Hr : 0x10000 <= r <= 0x10FFFF) by (unfold r; lia).
  unfold utf8.EncodeRune, utf8.MaxRune, utf8.isSurrogate.
  zcases; cbn [andb orb]; masks; shifts; subst r; bytes_eq.
Qed.

Lemma first_Lead2 s0 lo hi :
  utf8.first (byteZ s0) = utf8.Lead 2 lo hi ->
  0xC2 <= byteZ s0 <= 0xDF /\ lo = 0x80 /\ hi = 0xBF.
Proof.
  unfold utf8.first. zcases; intros Hf; inversion Hf; subst; lia.
Qed.

Lemma first_sz s0 sz lo hi :
  utf8.first (byteZ s0) = utf8.Lead sz lo hi -> sz = 2%nat \/ sz = 3%nat \/ sz = 4%nat.
Proof.
  unfold utf8.first. zcases; intros Hf; inversion Hf; subst; auto.
Qed.

(** ** JSON string literals *)

Lemma append_assoc (a b c : string) : (a ++ b) ++ c = a ++ (b ++ c).
Proof. induction a as [|x a IH]; cbn; [reflexivity | now rewrite IH]. Qed.

Lemma append_nil_r (a : string) : a ++ "" = a.
Proof. induction a as [|x a IH]; cbn; [reflexivity | now rewrite IH]. Qed.

Lemma string_strong_ind (P : string -> Prop) :
  (forall s, (forall t, (String.length t < String.length s)%nat -> P t) -> P s) ->
  forall s, P s.
Proof.
  intros Hstep s.
  assert (Hall : forall n t, (String.length t < n)%nat -> P t).
  { induction n as [|n IH]; intros t Ht; [lia|].
    apply Hstep. intros u Hu. apply IH. lia. }
  apply (Hall (S (String.length s))). lia.
Qed.

(** *** Decoding equations of [DecodeRuneInString] *)

Lemma Decode_ascii b X :
  byteZ b < 0x80 -> utf8.DecodeRuneInString (String b X) = (byteZ b, 1%nat).
Proof.
  intros Hb. unfold utf8.DecodeRuneInString, utf8.first.
  destruct (Z.ltb_spec (byteZ b) 0x80); [reflexivity | lia].
Qed.

Lemma Decode2 b s1 X lo hi :
  utf8.first (byteZ b) = utf8.Lead 2 lo hi -> utf8.inRange lo hi s1 = true ->
  utf8.DecodeRuneInString (String b (String s1 X)) = (utf8.rune2 b s1, 2%nat).
Proof. intros Hf H1. unfold utf8.DecodeRuneInString. now rewrite Hf, H1. Qed.

Lemma Decode3 b s1 s2 X lo hi :
  utf8.first (byteZ b) = utf8.Lead 3 lo hi -> utf8.inRange lo hi s1 = true ->
  utf8.isCont s2 = true ->
  utf8.DecodeRuneInString (String b (String s1 (String s2 X)))
  = (utf8.rune3 b s1 s2, 3%nat).
Proof. intros Hf H1 H2. unfold utf8.DecodeRuneInString. now rewrite Hf, H1, H2. Qed.

Lemma Decode4 b s1 s2 s3 X lo hi :
  utf8.first (byteZ b) = utf8.Lead 4 lo hi -> utf8.inRange lo hi s1 = true ->
  utf8.isCont s2 = true -> utf8.isCont s3 = true ->
  utf8.DecodeRuneInString (String b (String s1 (String s2 (String s3 X))))
  = (utf8.rune4 b s1 s2 s3, 4%nat).
Proof.
  intros Hf H1 H2 H3. unfold utf8.DecodeRuneInString. now rewrite Hf, H1, H2, H3.
Qed.

Lemma first_ascii v : v < 0x80 -> utf8.first v = utf8.LeadASCII.
Proof. intros Hv. unfold utf8.first. destruct (Z.ltb_spec v 0x80); [reflexivity|lia]. Qed.

Lemma ValidString_inv b r :
  utf8.ValidString (String b r) = true ->
  exists rest, valid_head (String b r) rest /\ utf8.ValidString rest = true.
Proof.
  intros Hv.
  destruct (Z.lt_ge_cases (byteZ b) 0x80) as [Hlt | Hge].
  - exists r. split; [now constructor|].
    cbn [utf8.ValidString] in Hv. rewrite Decode_ascii in Hv by assumption.
    now apply andb_prop in Hv.
  - cbn [utf8.ValidString] in Hv. unfold utf8.DecodeRuneInString in Hv.
    destruct (utf8.first (byteZ b)) as [| |sz lo hi] eqn:Hf.
    + unfold utf8.first in Hf. destruct (Z.ltb_spec (byteZ b) 0x80); [lia|].
      revert Hf. zcases; discriminate.
    + discriminate.
    + destruct r as [|s1 r1]; [discriminate|].
      destruct (utf8.inRange lo hi s1) eqn:H1; cbn [negb] in Hv; [|discriminate].
      destruct (first_sz _ _ _ _ Hf) as [-> | [-> | ->]]; cbn in Hv.
      * exists r1. split; [eapply vh_2; eassumption | assumption].
      * destruct r1 as [|s2 r2]; [discriminate|].
        destruct (utf8.isCont s2) eqn:H2; cbn [negb] in Hv; [|discriminate].
        exists r2. split; [eapply vh_3; eassumption | assumption].
      * destruct r1 as [|s2 r2]; [discriminate|].
        destruct (utf8.isCont s2) eqn:H2; cbn [negb] in Hv; [|discriminate].
        destruct r2 as [|s3 r3]; [discriminate|].
        destruct (utf8.isCont s3) eqn:H3; cbn [negb] in Hv; [|discriminate].
        exists r3. split; [eapply vh_4; eassumption | assumption].
Qed.

(** *** One step of the encoder and of the decoder *)

Lemma eqb_high b c : 0x80 <= byteZ b -> byteZ c < 0x80 -> Ascii.eqb b c = false.
Proof.
  intros Hb Hc. apply Ascii.eqb_neq. intros ->. lia.
Qed.

Lemma first_Lead_high v sz lo hi : utf8.first v = utf8.Lead sz lo hi -> 0xC2 <= v.
Proof. unfold utf8.first. zcases; intros Hf; inversion Hf; lia. Qed.

(** An ASCII byte, escaped or not, reads back as itself. *)
Lemma unquote_ascii b X :
  byteZ b < 0x80 ->
  json.unquoteBody ((if json.htmlSafe b then String b "" else json.escapeByte b) ++ X)
  = json.prepend (String b "") (json.unquoteBody X).
Proof.
  intros Hb.
  destruct b as [[] [] [] [] [] [] [] []];
    first [ reflexivity | exfalso; vm_compute in Hb; discriminate Hb ].
Qed.

Lemma escape_ascii b r :
  byteZ b < 0x80 ->
  json.escapeString (String b r)
  = (if json.htmlSafe b then String b "" else json.escapeByte b) ++ json.escapeString r.
Proof.
  intros Hb. cbn [json.escapeString]. unfold utf8.RuneSelf.
  destruct (Z.ltb_spec (byteZ b) 0x80); [reflexivity | lia].
Qed.

Lemma high_not_special b :
  0x80 <= byteZ b ->
  Ascii.eqb b json.dq = false /\ Ascii.eqb b json.bsl = false
  /\ (byteZ b <? 0x20) = false /\ (byteZ b <? utf8.RuneSelf) = false.
Proof.
  intros Hb. repeat split;
    try (apply eqb_high; [assumption | vm_compute; reflexivity]);
    apply Z.ltb_ge; unfold utf8.RuneSelf; lia.
Qed.

Lemma escape_2 b s1 r lo hi :
  utf8.first (byteZ b) = utf8.Lead 2 lo hi -> utf8.inRange lo hi s1 = true ->
  json.escapeString (String b (String s1 r))
  = String b (String s1 (json.escapeString r)).
Proof.
  intros Hf H1.
  pose proof (first_Lead_high _ _ _ _ Hf) as Hb.
  destruct (high_not_special b) as (_ & _ & _ & Hself); [lia|].
  cbn [json.escapeString]. rewrite Hself, (Decode2 _ _ _ _ _ Hf H1).
  cbn [Nat.eqb]. rewrite andb_false_r.
  destruct (first_Lead2 _ _ _ Hf) as (Hb2 & -> & ->).
  unfold utf8.inRange in H1. apply andb_prop in H1 as [H1a H1b].
  apply Z.leb_le in H1a, H1b.
  unfold json.escapeRune. rewrite rune2_eq by lia.
  zcases. reflexivity.
Qed.

Lemma unquote_2 b s1 X lo hi :
  utf8.first (byteZ b) = utf8.Lead 2 lo hi -> utf8.inRange lo hi s1 = true ->
  json.unquoteBody (String b (String s1 X))
  = json.prepend (String b (String s1 "")) (json.unquoteBody X).
Proof.
  intros Hf H1.
  pose proof (first_Lead_high _ _ _ _ Hf) as Hb.
  destruct (high_not_special b) as (Hdq & Hbs & Hctl & Hself); [lia|].
  cbn [json.unquoteBody]. rewrite Hdq, Hbs, Hctl, Hself, (Decode2 _ _ _ _ _ Hf H1).
  destruct (first_Lead2 _ _ _ Hf) as (Hb2 & -> & ->).
  unfold utf8.inRange in H1. apply andb_prop in H1 as [H1a H1b].
  apply Z.leb_le in H1a, H1b.
  now rewrite EncodeRune_rune2 by lia.
Qed.

(** A rune, escaped or copied, reads back as its UTF-8 encoding. *)
Lemma unquote_escapeRune c b raw X :
  0x80 <= byteZ b ->
  json.unquoteBody (String b raw ++ X)
  = json.prepend (utf8.EncodeRune c) (json.unquoteBody X) ->
  json.unquoteBody (json.escapeRune c (String b raw) ++ X)
  = json.prepend (utf8.EncodeRune c) (json.unquoteBody X).
Proof.
  intros Hb Hraw. unfold json.escapeRune.
  destruct (Z.eqb_spec c 0x2028) as [-> | _]; [reflexivity|].
  destruct (Z.eqb_spec c 0x2029) as [-> | _]; [reflexivity|].
  exact Hraw.
Qed.

Lemma escape_3 b s1 s2 r lo hi :
  utf8.first (byteZ b) = utf8.Lead 3 lo hi -> utf8.inRange lo hi s1 = true ->
  utf8.isCont s2 = true ->
  json.escapeString (String b (String s1 (String s2 r)))
  = json.escapeRune (utf8.rune3 b s1 s2) (String b (String s1 (String s2 "")))
    ++ json.escapeString r.
Proof.
  intros Hf H1 H2.
  pose proof (first_Lead_high _ _ _ _ Hf) as Hb.
  destruct (high_not_special b) as (_ & _ & _ & Hself); [lia|].
  cbn [json.escapeString]. rewrite Hself, (Decode3 _ _ _ _ _ _ Hf H1 H2).
  cbn [Nat.eqb]. now rewrite andb_false_r.
Qed.

Lemma unquote_3 b s1 s2 X lo hi :
  utf8.first (byteZ b) = utf8.Lead 3 lo hi -> utf8.inRange lo hi s1 = true ->
  utf8.isCont s2 = true ->
  json.unquoteBody (String b (String s1 (String s2 X)))
  = json.prepend (utf8.EncodeRune (utf8.rune3 b s1 s2)) (json.unquoteBody X).
Proof.
  intros Hf H1 H2.
  pose proof (first_Lead_high _ _ _ _ Hf) as Hb.
  destruct (high_not_special b) as (Hdq & Hbs & Hctl & Hself); [lia|].
  cbn [json.unquoteBody].
  now rewrite Hdq, Hbs, Hctl, Hself, (Decode3 _ _ _ _ _ _ Hf H1 H2).
Qed.

Lemma escape_4 b s1 s2 s3 r lo hi :
  utf8.first (byteZ b) = utf8.Lead 4 lo hi -> utf8.inRange lo hi s1 = true ->
  utf8.isCont s2 = true -> utf8.isCont s3 = true ->
  json.escapeString (String b (String s1 (String s2 (String s3 r))))
  = json.escapeRune (utf8.rune4 b s1 s2 s3)
      (String b (String s1 (String s2 (String s3 ""))))
    ++ json.escapeString r.
Proof.
  intros Hf H1 H2 H3.
  pose proof (first_Lead_high _ _ _ _ Hf) as Hb.
  destruct (high_not_special b) as (_ & _ & _ & Hself); [lia|].
  cbn [json.escapeString]. rewrite Hself, (Decode4 _ _ _ _ _ _ _ Hf H1 H2 H3).
  cbn [Nat.eqb]. now rewrite andb_false_r.
Qed.

Lemma unquote_4 b s1 s2 s3 X lo hi :
  utf8.first (byteZ b) = utf8.Lead 4 lo hi -> utf8.inRange lo hi s1 = true ->
  utf8.isCont s2 = true -> utf8.isCont s3 = true ->
  json.unquoteBody (String b (String s1 (String s2 (String s3 X))))
  = json.prepend (utf8.EncodeRune (utf8.rune4 b s1 s2 s3)) (json.unquoteBody X).
Proof.
  intros Hf H1 H2 H3.
  pose proof (first_Lead_high _ _ _ _ Hf) as Hb.
  destruct (high_not_special b) as (Hdq & Hbs & Hctl & Hself); [lia|].
  cbn [json.unquoteBody].
  now rewrite Hdq, Hbs, Hctl, Hself, (Decode4 _ _ _ _ _ _ _ Hf H1 H2 H3).
Qed.

(** A string literal written by the encoder reads back as the string it
    was written from, when that string is valid UTF-8. *)
Lemma unquote_escape (s rest : string) :
  utf8.ValidString s = true ->
  json.unquoteBody (json.escapeString s ++ String json.dq rest) = Some (s, rest).
Proof.
  revert rest. induction s as [s IH] using string_strong_ind. intros rest Hv.
  destruct s as [|b r]; [reflexivity|].
  destruct (ValidString_inv _ _ Hv) as (tl & Hhead & Htl).
  inversion Hhead as [b' r' Hb | b' s1 r' lo hi Hf H1 | b' s1 s2 r' lo hi Hf H1 H2
                      | b' s1 s2 s3 r' lo hi Hf H1 H2 H3]; subst.
  - rewrite escape_ascii, append_assoc, unquote_ascii by assumption.
    rewrite IH by (cbn; lia || assumption). reflexivity.
  - rewrite (escape_2 _ _ _ _ _ Hf H1). cbn [append].
    rewrite (unquote_2 _ _ _ _ _ Hf H1).
    rewrite IH by (cbn; lia || assumption). reflexivity.
  - pose proof (first_Lead_high _ _ _ _ Hf) as Hb.
    rewrite (escape_3 _ _ _ _ _ _ Hf H1 H2), append_assoc.
    rewrite unquote_escapeRune; [| lia | cbn [append]; apply (unquote_3 _ _ _ _ _ _ Hf H1 H2)].
    rewrite (EncodeRune_rune3 _ _ _ _ _ Hf H1 H2).
    rewrite IH by (cbn; lia || assumption). reflexivity.
  - pose proof (first_Lead_high _ _ _ _ Hf) as Hb.
    rewrite (escape_4 _ _ _ _ _ _ _ Hf H1 H2 H3), append_assoc.
    rewrite unquote_escapeRune;
      [| lia | cbn [append]; apply (unquote_4 _ _ _ _ _ _ _ Hf H1 H2 H3)].
    rewrite (EncodeRune_rune4 _ _ _ _ _ _ Hf H1 H2 H3).
    rewrite IH by (cbn; lia || assumption). reflexivity.
Qed.

(** ** JSON objects *)

Lemma length_append (a b : string) :
  String.length (a ++ b) = (String.length a + String.length b)%nat.
Proof. induction a as [|x a IH]; cbn; [reflexivity | now rewrite IH]. Qed.

(** *** Steps of the parser *)

Lemma parseValue_dq f d X :
  json.parseValue (S f) d (String json.dq X)
  = match json.unquoteBody X with
    | Some (t, r) => Some (json.Str t, r)
    | None => None
    end.
Proof. reflexivity. Qed.

Lemma parseValue_brace f X :
  json.parseValue (S f) 0 (String "{" (String json.dq X))
  = match json.parseMembers f 1 (String json.dq X) with
    | Some (ms, r) => Some (json.Object ms, r)
    | None => None
    end.
Proof. reflexivity. Qed.

Lemma parseMembers_dq f d X :
  json.parseMembers (S f) d (String json.dq X)
  = match json.unquoteBody X with
    | Some (key, r1) =>
        match json.skipSpace r1 with
        | String ":"%char r2 =>
            match json.parseValue f d r2 with
            | Some (v, r3) =>
                match json.skipSpace r3 with
                | String ","%char r4 =>
                    match json.parseMembers f d (json.skipSpace r4) with
                    | Some (ms, r5) => Some ((key, v) :: ms, r5)
                    | None => None
                    end
                | String "}"%char r4 => Some ([(key, v)], r4)
                | _ => None
                end
            | None => None
            end
        | _ => None
        end
    | None => None
    end.
Proof. reflexivity. Qed.

Lemma parseValue_string f d X t r :
  json.unquoteBody X = Some (t, r) ->
  json.parseValue (S f) d (String json.dq X) = Some (json.Str t, r).
Proof. intros H. now rewrite parseValue_dq, H. Qed.

Lemma parseValue_object f X ms r :
  json.parseMembers f 1 (String json.dq X) = Some (ms, r) ->
  json.parseValue (S f) 0 (String "{" (String json.dq X)) = Some (json.Object ms, r).
Proof. intros H. now rewrite parseValue_brace, H. Qed.

Lemma parseMembers_more f d X key Y v Z ms r :
  json.unquoteBody X = Some (key, String ":" Y) ->
  json.parseValue f d Y = Some (v, String "," (String json.dq Z)) ->
  json.parseMembers f d (String json.dq Z) = Some (ms, r) ->
  json.parseMembers (S f) d (String json.dq X) = Some ((key, v) :: ms, r).
Proof.
  intros Hk Hv Hms. rewrite parseMembers_dq, Hk.
  change (json.skipSpace (String ":" Y)) with (String ":" Y). cbv iota.
  rewrite Hv.
  change (json.skipSpace (String "," (String json.dq Z))) with (String "," (String json.dq Z)).
  cbv iota.
  change (json.skipSpace (String json.dq Z)) with (String json.dq Z).
  now rewrite Hms.
Qed.

Lemma parseMembers_last f d X key Y v r :
  json.unquoteBody X = Some (key, String ":" Y) ->
  json.parseValue f d Y = Some (v, String "}" r) ->
  json.parseMembers (S f) d (String json.dq X) = Some ([(key, v)], r).
Proof.
  intros Hk Hv. rewrite parseMembers_dq, Hk.
  change (json.skipSpace (String ":" Y)) with (String ":" Y). cbv iota.
  rewrite Hv.
  change (json.skipSpace (String "}" r)) with (String "}" r).
  reflexivity.
Qed.

(** The text [Marshal] writes for a struct of two string fields. *)
Lemma marshalStruct_two k1 v1 k2 v2 :
  json.marshalStruct [(k1, v1); (k2, v2)]
  = String "{" (String json.dq (k1 ++ String json.dq (String ":" (String json.dq
      (json.escapeString v1 ++ String json.dq (String "," (String json.dq
        (k2 ++ String json.dq (String ":" (String json.dq
          (json.escapeString v2 ++ String json.dq "}"))))))))))).
Proof.
  unfold json.marshalStruct, json.marshalMembers, json.quote.
  do 6 (rewrite ?append_assoc; cbn [append]). reflexivity.
Qed.

Lemma parse_marshal_two k1 v1 k2 v2 :
  plainName k1 -> plainName k2 ->
  utf8.ValidString v1 = true -> utf8.ValidString v2 = true ->
  json.parse (json.marshalStruct [(k1, v1); (k2, v2)])
  = Some (json.Object [(k1, json.Str v1); (k2, json.Str v2)]).
Proof.
  intros Hk1 Hk2 Hv1 Hv2. unfold json.parse. rewrite marshalStruct_two.
  match goal with
  | |- context [json.parseValue (S (String.length ?d))] =>
      assert (Hfuel : exists n, String.length d = S (S (S (S n))))
  end.
  { match goal with |- exists n, ?l = _ => exists (l - 4)%nat end.
    cbn [String.length]. rewrite !length_append. cbn [String.length].
    rewrite !length_append. cbn [String.length]. lia. }
  destruct Hfuel as [n ->].
  erewrite parseValue_object.
  2:{ eapply parseMembers_more.
      - apply Hk1.
      - apply parseValue_string. apply unquote_escape. assumption.
      - eapply parseMembers_last.
        + apply Hk2.
        + apply parseValue_string. apply unquote_escape. assumption. }
  reflexivity.
Qed.

(** ** The state parameter *)

Lemma plain_RedirectURL : plainName "RedirectURL".
Proof. intros X. reflexivity. Qed.

Lemma plain_SessionID : plainName "SessionID".
Proof. intros X. reflexivity. Qed.

Lemma Unmarshal_Marshal (code : resources.AuthCode) :
  utf8.ValidString (resources.RedirectURL code) = true ->
  utf8.ValidString (resources.SessionID code) = true ->
  resources.Unmarshal (json.marshalStruct (resources.AuthCode_fields code)) emptyAuthCode
  = Ok code.
Proof.
  intros Hu Hs. destruct code as [u s].
  cbn [resources.RedirectURL resources.SessionID] in Hu, Hs.
  unfold resources.Unmarshal, jsonstruct.Unmarshal, resources.AuthCode_fields.
  cbn [resources.RedirectURL resources.SessionID].
  rewrite (parse_marshal_two _ _ _ _ plain_RedirectURL plain_SessionID Hu Hs).
  reflexivity.
Qed.

Lemma DecodeString_EncodeToString (src : string) :
  base64.DecodeString base64.StdEncoding
    (base64.EncodeToString base64.StdEncoding src) = Ok src.
Proof. apply std_roundtrip. Qed.

(** C1 (amended): for every HandshakeRequest whose redirectURL and
    sessionID are valid UTF-8 (empty or not), the state parameter made by
    JSON marshalling and standard base64 encoding, as [handleAuthorize]
    makes it, is decoded by standard base64 decoding and JSON
    unmarshalling, as [handleCallback] decodes it, into the identical
    HandshakeRequest. *)
Theorem state_roundtrip_valid_utf8 (code : resources.AuthCode) :
  utf8.ValidString (resources.RedirectURL code) = true ->
  utf8.ValidString (resources.SessionID code) = true ->
  state_roundtrips code.
Proof.
  intros Hu Hs. unfold state_roundtrips, resources.Marshal.
  eexists _, _. split; [reflexivity|]. split.
  - apply DecodeString_EncodeToString.
  - now apply Unmarshal_Marshal.
Qed.

Lemma state_roundtrip_valid_utf8_witness :
  state_roundtrips {| resources.RedirectURL := "https://consumer.example/cb";
                      resources.SessionID := "abc123" |}.
Proof.
  apply state_roundtrip_valid_utf8; vm_compute; reflexivity.
Defined.

(** C1, as stated, fails: a redirect URL that is not valid UTF-8 (the
    single byte 0xFF, as the query [u=%FF] yields it) is non-empty, but
    [json.Marshal] writes it as the replacement character U+FFFD, so the
    state decodes to a different HandshakeRequest. *)
Lemma state_roundtrip_counterexample :
  let code := {| resources.RedirectURL := String "255"%char "";
                 resources.SessionID := "abc123" |} in
  resources.RedirectURL code <> "" /\ resources.SessionID code <> ""
  /\ ~ state_roundtrips code.
Proof.
  cbv zeta. split; [discriminate|]. split; [discriminate|].
  intros (dataCode & decode & Hm & Hd & Hu).
  unfold resources.Marshal in Hm. injection Hm as <-.
  rewrite DecodeString_EncodeToString in Hd. injection Hd as <-.
  vm_compute in Hu. discriminate Hu.
Qed.

(** ** The handlers *)

Lemma eqb_empty_false (s : string) : s <> "" -> String.eqb s "" = false.
Proof. intros H. now apply String.eqb_neq. Qed.

(** Case analysis on the calls a handler makes, outermost first. *)
Ltac branch :=
  match goal with
  | |- context [match ?x with _ => _ end] =>
      lazymatch x with
      | context [match _ with _ => _ end] => fail
      | _ => destruct x eqn:?
      end
  end.

(** C7: a request to /authorize whose [u] or [s] query parameter is
    empty is answered with 400 and no redirect is issued; when both are
    non-empty the answer is a 302 redirect to the authorization URL of
    the identity provider. *)
Theorem handleAuthorize_checks (env : Env) (h : handler) (r : http.Request) :
  (http.Get (http.URL_Query r) "u" = "" \/ http.Get (http.URL_Query r) "s" = "" ->
   handleAuthorize env h r
   = ([http.Log "failed to authorize" "missing redirect url or session id"],
      http.Error "missing redirect_url or session_id" 400))
  /\ (http.Get (http.URL_Query r) "u" <> "" ->
      http.Get (http.URL_Query r) "s" <> "" ->
      exists state,
        handleAuthorize env h r
        = ([], http.Redirect (AuthCodeURL (oidc h) scopes state) 302)).
Proof.
  unfold handleAuthorize. cbn [resources.RedirectURL resources.SessionID].
  split.
  - intros [-> | ->]; cbn [String.eqb orb]; [reflexivity|].
    now rewrite orb_true_r.
  - intros Hu Hs. rewrite (eqb_empty_false _ Hu), (eqb_empty_false _ Hs).
    cbn [orb resources.Marshal]. eexists. reflexivity.
Qed.

Lemma handleAuthorize_checks_witness :
  handleAuthorize Sample.env Sample.h (Sample.request "/authorize" [("u", "")] [])
  = ([http.Log "failed to authorize" "missing redirect url or session id"],
     http.Error "missing redirect_url or session_id" 400)
  /\ exists state,
       handleAuthorize Sample.env Sample.h
         (Sample.request "/authorize"
            [("u", "https://consumer.example/cb"); ("s", "abc123")] [])
       = ([], http.Redirect (AuthCodeURL (oidc Sample.h) scopes state) 302).
Proof.
  split.
  - apply (proj1 (handleAuthorize_checks Sample.env Sample.h _)).
    left. reflexivity.
  - apply (proj2 (handleAuthorize_checks Sample.env Sample.h _)); discriminate.
Defined.

(** The state parameter of the redirect is the standard base64 of the
    marshalled [AuthCode] of the request. *)
Lemma handleAuthorize_state (env : Env) (h : handler) (r : http.Request) :
  http.Get (http.URL_Query r) "u" <> "" ->
  http.Get (http.URL_Query r) "s" <> "" ->
  exists dataCode,
    resources.Marshal {| resources.RedirectURL := http.Get (http.URL_Query r) "u";
                         resources.SessionID := http.Get (http.URL_Query r) "s" |}
    = Ok dataCode
    /\ handleAuthorize env h r
       = ([], http.Redirect
                (AuthCodeURL (oidc h) scopes
                   (base64.EncodeToString base64.StdEncoding dataCode)) 302).
Proof.
  intros Hu Hs. unfold handleAuthorize. cbn [resources.RedirectURL resources.SessionID].
  rewrite (eqb_empty_false _ Hu), (eqb_empty_false _ Hs).
  cbn [orb resources.Marshal]. eexists. split; reflexivity.
Qed.

(** What the first branch of the callback does when [r.Form] carries a
    non-empty [error]: the answer is a 400 whose message is the error
    followed by [error_description]; no cookie is set and the identity
    provider is not called. *)
Lemma handleCallback_form_error (env : Env) (h : handler) (r : http.Request) :
  http.Get (http.Form r) "error" <> "" ->
  snd (handleCallback env h r)
  = http.Error (http.Get (http.Form r) "error" ++ ": "
                ++ http.Get (http.Form r) "error_description") 400
  /\ cookieWritten (handleCallback env h r) = false
  /\ fst (handleCallback env h r)
     = [http.Log "failed to authorize" (http.Get (http.Form r) "error")].
Proof.
  intros Herr. unfold handleCallback, cookieWritten.
  rewrite (eqb_empty_false _ Herr). cbn [negb]. repeat split.
Qed.

(** C3, on the code: the callback reads [error] and [error_description]
    from [r.Form] alone, without the fall-back to the URL query that it
    has for [code] and [state].  A request as the router delivers it
    (nil form) whose URL carries [error] and [error_description] is
    answered with the 400 of a missing code, whose message is the same
    whatever the two parameters are; and when the URL also carries a
    code and a state, the error is ignored and the session cookie is
    set. *)
Theorem handleCallback_error_in_query (env : Env) (h : handler)
  (method host path err description : string) (cookies : list (string * string)) :
  handleCallback env h
    {| http.Method := method; http.Host := host; http.URL_Path := path;
       http.URL_Query := [("error", err); ("error_description", description)];
       http.Form := []; http.Cookies := cookies |}
  = ([http.Log "no code in request" "missing code"],
     http.Error ("no code in request: " ++ formatForm env []) 400)
  /\ cookieWritten
       (handleCallback Sample.env Sample.h
          (Sample.request "/callback"
             [("error", "access_denied"); ("error_description", "denied");
              ("code", "good-code"); ("state", Sample.stateParam)] []))
     = true.
Proof.
  split.
  - reflexivity.
  - vm_compute. reflexivity.
Qed.

(** C5: a callback that succeeds sets exactly one cookie, made with the
    name [kube-bind-] followed by the session id of the decoded state and
    with a lifetime of one hour (3600 * 10^9 ns), whatever expiry the
    token of the identity provider reports, and redirects to
    [/resources?s=<session id>]. *)
Theorem handleCallback_cookie (env : Env) (h : handler) (r : http.Request)
  (evs : list http.Event) (url : string) (status : Z) :
  handleCallback env h r = (evs, http.Redirect url status) ->
  exists decode authCode token b,
    base64.DecodeString base64.StdEncoding (callbackState r) = Ok decode
    /\ resources.Unmarshal decode emptyAuthCode = Ok authCode
    /\ Exchange (oidc h) (callbackCode r) = Ok token
    /\ evs = [http.CallExchange (callbackCode r);
              http.SetCookie
                (MakeCookie env r ("kube-bind-" ++ resources.SessionID authCode) b
                   3600000000000)]
    /\ url = "/resources?s=" ++ resources.SessionID authCode
    /\ status = 302.
Proof.
  unfold handleCallback, callbackCode, callbackState, emptyAuthCode.
  repeat branch; intros H; try discriminate H.
  injection H as <- <- <-.
  eexists _, _, _, _. repeat split; first [reflexivity | eassumption].
Qed.

Lemma handleCallback_cookie_witness :
  exists decode authCode token b,
    base64.DecodeString base64.StdEncoding Sample.stateParam = Ok decode
    /\ resources.Unmarshal decode emptyAuthCode = Ok authCode
    /\ Exchange Sample.provider "good-code" = Ok token
    /\ [http.CallExchange "good-code";
        http.SetCookie
          (Sample.makeCookie
             (Sample.request "/callback"
                [("code", "good-code"); ("state", Sample.stateParam)] [])
             "kube-bind-abc123" (Sample.sessionCookie "https://consumer.example/cb")
             (1 * time.Hour))]
       = [http.CallExchange "good-code";
          http.SetCookie
            (Sample.makeCookie
               (Sample.request "/callback"
                  [("code", "good-code"); ("state", Sample.stateParam)] [])
               ("kube-bind-" ++ resources.SessionID authCode) b 3600000000000)]
    /\ "/resources?s=abc123" = "/resources?s=" ++ resources.SessionID authCode
    /\ 302 = 302.
Proof.
  apply (handleCallback_cookie Sample.env Sample.h
           (Sample.request "/callback"
              [("code", "good-code"); ("state", Sample.stateParam)] [])).
  vm_compute. reflexivity.
Defined.

(** C4 (amended): an error response of the callback handler comes with
    no cookie set; an error response of the bind handler comes with no
    credential minted, except when the failure occurs after the minting
    step.  That is the case exactly when the handler got as far as the
    minting and the minting succeeded -- the session cookie was there and
    decoded to [state], the ID token of [state] unmarshalled to [subject]
    and [issuer], and the minter, called with [subject] and the resource
    and group of the query, returned the credential [kfg] -- and then the
    encoding of the response the handler built from them failed or, the
    encoding done, the redirect URL stored in the session did not
    parse. *)
Theorem failure_leaves_no_artifact (env : Env) (h : handler) (r : http.Request) :
  (failed (handleCallback env h r) = true ->
   cookieWritten (handleCallback env h r) = false)
  /\ (failed (handleBind env h r) = true ->
      (credentialMinted (handleBind env h r) = true
       <-> exists ck state subject issuer kfg authResponse,
             http.Cookie (http.Cookies r)
               ("kube-bind-" ++ http.Get (http.URL_Query r) "s") = Ok ck
             /\ cookie_Decode env ck = Ok state
             /\ Unmarshal_idToken (cookie.IDToken state) = Ok (subject, issuer)
             /\ HandleResources (kubeManager h) subject
                  (http.Get (http.URL_Query r) "resource")
                  (http.Get (http.URL_Query r) "group") = Ok kfg
             /\ authResponse
                = {| resources.resp_SessionID := cookie.SessionID state;
                     resources.ID := issuer ++ "/" ++ subject;
                     resources.Kubeconfig := kfg;
                     resources.Group := http.Get (http.URL_Query r) "group";
                     resources.Resource := http.Get (http.URL_Query r) "resource";
                     resources.Export :=
                       http.Get (http.URL_Query r) "resource" ++ "."
                       ++ http.Get (http.URL_Query r) "group" |}
             /\ (isOk (Marshal_AuthResponse env authResponse) = false
                 \/ (isOk (Marshal_AuthResponse env authResponse) = true
                     /\ isOk (url_Parse env (cookie.RedirectURL state)) = false)))).
Proof.
  split.
  - unfold failed, cookieWritten, handleCallback.
    repeat branch; cbn; intros H; first [reflexivity | discriminate H].
  - unfold failed, credentialMinted, handleBind, prepareNoCache.
    repeat branch; cbn; intros H1; try discriminate H1; split.
    all: try (intros H2; discriminate H2).
    all: try (intros _; reflexivity).
    all: try (intros (ck' & state' & subject' & issuer' & kfg' & a' & Hck & Hdec & Hid
                      & Hmint & Ha & Hlate);
              congruence).
    all: intros _; eexists _, _, _, _, _, _;
      (split; [reflexivity|]); (split; [eassumption|]); (split; [eassumption|]);
      (split; [eassumption|]); (split; [reflexivity|]);
      match goal with
      | H : Marshal_AuthResponse _ _ = Err _ |- _ => left; exact (f_equal isOk H)
      | H : Marshal_AuthResponse _ _ = Ok _, H' : url_Parse _ _ = Err _ |- _ =>
          right; split; [exact (f_equal isOk H) | exact (f_equal isOk H')]
      end.
Qed.

Lemma failure_leaves_no_artifact_witness :
  cookieWritten
    (handleCallback Sample.env Sample.h
       (Sample.request "/callback" [("code", "bad-code"); ("state", Sample.stateParam)] []))
  = false
  /\ exists ck state subject issuer kfg authResponse,
       http.Cookie (http.Cookies (Sample.bindRequest ":"))
         ("kube-bind-" ++ http.Get (http.URL_Query (Sample.bindRequest ":")) "s") = Ok ck
       /\ cookie_Decode Sample.env ck = Ok state
       /\ Unmarshal_idToken (cookie.IDToken state) = Ok (subject, issuer)
       /\ HandleResources (kubeManager Sample.h) subject
            (http.Get (http.URL_Query (Sample.bindRequest ":")) "resource")
            (http.Get (http.URL_Query (Sample.bindRequest ":")) "group") = Ok kfg
       /\ authResponse
          = {| resources.resp_SessionID := cookie.SessionID state;
               resources.ID := issuer ++ "/" ++ subject;
               resources.Kubeconfig := kfg;
               resources.Group := http.Get (http.URL_Query (Sample.bindRequest ":")) "group";
               resources.Resource :=
                 http.Get (http.URL_Query (Sample.bindRequest ":")) "resource";
               resources.Export :=
                 http.Get (http.URL_Query (Sample.bindRequest ":")) "resource" ++ "."
                 ++ http.Get (http.URL_Query (Sample.bindRequest ":")) "group" |}
       /\ (isOk (Marshal_AuthResponse Sample.env authResponse) = false
           \/ (isOk (Marshal_AuthResponse Sample.env authResponse) = true
               /\ isOk (url_Parse Sample.env (cookie.RedirectURL state)) = false)).
Proof.
  split.
  - apply (proj1 (failure_leaves_no_artifact Sample.env Sample.h _)).
    vm_compute. reflexivity.
  - refine (proj1 (proj2 (failure_leaves_no_artifact Sample.env Sample.h
                            (Sample.bindRequest ":")) _) _);
      vm_compute; reflexivity.
Defined.

(** C4, as stated, fails for the bind handler: for a session whose
    redirect URL does not parse (the caller gave [u=:]), the credential
    is minted first and the handler then answers 500. *)
Lemma failure_leaves_no_artifact_counterexample :
  failed (handleBind Sample.env Sample.h (Sample.bindRequest ":")) = true
  /\ credentialMinted (handleBind Sample.env Sample.h (Sample.bindRequest ":")) = true.
Proof. split; vm_compute; reflexivity. Qed.

(** C8: the upstream failures are masked.  When the token exchange is
    called and fails, the callback answers 500 with the fixed message
    [internal error]; when the session cookie is missing or does not
    decode, or when the minting of the credential fails, the bind handler
    answers 500 with the same fixed message.  The text of the error does
    not occur in the answer. *)
Theorem upstream_errors_masked (env : Env) (h : handler) (r : http.Request) :
  (forall code e,
      In (http.CallExchange code) (fst (handleCallback env h r)) ->
      Exchange (oidc h) code = Err e ->
      snd (handleCallback env h r) = http.Error "internal error" 500)
  /\ (forall e,
        http.Cookie (http.Cookies r) ("kube-bind-" ++ http.Get (http.URL_Query r) "s")
        = Err e ->
        snd (handleBind env h r) = http.Error "internal error" 500)
  /\ (forall ck e,
        http.Cookie (http.Cookies r) ("kube-bind-" ++ http.Get (http.URL_Query r) "s")
        = Ok ck ->
        cookie_Decode env ck = Err e ->
        snd (handleBind env h r) = http.Error "internal error" 500)
  /\ (forall subject resource group e,
        In (http.CallHandleResources subject resource group false)
           (fst (handleBind env h r)) ->
        HandleResources (kubeManager h) subject resource group = Err e ->
        snd (handleBind env h r) = http.Error "internal error" 500).
Proof.
  repeat split.
  - intros code e. unfold handleCallback.
    repeat branch; cbn; intros Hin Hex;
      repeat match goal with
             | H : _ \/ _ |- _ => destruct H
             | H : False |- _ => destruct H
             | H : http.CallExchange _ = http.CallExchange _ |- _ => injection H as <-
             | H : _ = http.CallExchange _ |- _ => discriminate H
             end;
      first [reflexivity | congruence].
  - intros e He. unfold handleBind. now rewrite He.
  - intros ck e Hck He. unfold handleBind. now rewrite Hck, He.
  - intros subject resource group e. unfold handleBind, prepareNoCache.
    repeat branch; cbn; intros Hin Hex;
      repeat match goal with
             | H : _ \/ _ |- _ => destruct H
             | H : False |- _ => destruct H
             | H : _ = http.CallHandleResources _ _ _ _ |- _ => discriminate H
             end;
      reflexivity.
Qed.

Lemma upstream_errors_masked_witness :
  snd (handleCallback Sample.env Sample.h
         (Sample.request "/callback"
            [("code", "bad-code"); ("state", Sample.stateParam)] []))
  = http.Error "internal error" 500
  /\ snd (handleBind Sample.env Sample.h
            (Sample.request "/bind" [("s", "abc123")] []))
     = http.Error "internal error" 500
  /\ snd (handleBind Sample.env Sample.h
            (Sample.request "/bind" [("s", "abc123")]
               [("kube-bind-abc123", "not base64!")]))
     = http.Error "internal error" 500
  /\ snd (handleBind Sample.env Sample.h
            (Sample.request "/bind" [("s", "abc123"); ("group", "example.io")]
               [("kube-bind-abc123",
                 Sample.sessionCookie "https://consumer.example/cb")]))
     = http.Error "internal error" 500.
Proof.
  split; [|split; [|split]].
  - apply (proj1 (upstream_errors_masked Sample.env Sample.h _)
             "bad-code" (errorString "oauth2: cannot fetch token: 400 Bad Request")).
    + vm_compute. left. reflexivity.
    + reflexivity.
  - apply (proj1 (proj2 (upstream_errors_masked Sample.env Sample.h _)) ErrNoCookie).
    reflexivity.
  - apply (proj1 (proj2 (proj2 (upstream_errors_masked Sample.env Sample.h _)))
             "not base64!" (CorruptInputError 3)).
    + reflexivity.
    + vm_compute. reflexivity.
  - apply (proj2 (proj2 (proj2 (upstream_errors_masked Sample.env Sample.h _)))
             "alice" "" "example.io" (errorString "no such resource")).
    + vm_compute. do 3 right. left. reflexivity.
    + reflexivity.
Defined.

(** ** Splitting at dots *)

Lemma Cut_None (s : string) (sep : ascii) :
  strings.ContainsByte s sep = false -> strings.Cut s sep = None.
Proof.
  induction s as [|c s IH]; cbn; [reflexivity|].
  intros H. apply orb_false_elim in H as [Hc Hs].
  rewrite Hc, (IH Hs). reflexivity.
Qed.

Lemma Cut_Some (s : string) (sep : ascii) :
  strings.ContainsByte s sep = true ->
  exists before after,
    strings.Cut s sep = Some (before, after)
    /\ s = before ++ String sep after
    /\ strings.ContainsByte before sep = false.
Proof.
  induction s as [|c s IH]; cbn; [discriminate|].
  destruct (Ascii.eqb c sep) eqn:Hc; cbn.
  - intros _. apply Ascii.eqb_eq in Hc as ->. exists "", s. repeat split.
  - intros Hs. destruct (IH Hs) as (before & after & -> & -> & Hb).
    exists (String c before), after. cbn. rewrite Hc, Hb. repeat split.
Qed.

Lemma SplitN_two_without (s : string) (sep : ascii) :
  strings.ContainsByte s sep = false -> strings.SplitN s sep 2 = [s].
Proof.
  intros H. unfold strings.SplitN.
  change (strings.splitAtMost s sep 2 = [s]). cbn [strings.splitAtMost].
  now rewrite (Cut_None _ _ H).
Qed.

Lemma SplitN_two_with (s : string) (sep : ascii) :
  strings.ContainsByte s sep = true ->
  exists before after,
    strings.SplitN s sep 2 = [before; after]
    /\ s = before ++ String sep after
    /\ strings.ContainsByte before sep = false.
Proof.
  intros H. destruct (Cut_Some _ _ H) as (before & after & Hcut & Hs & Hb).
  exists before, after. unfold strings.SplitN.
  change (strings.splitAtMost s sep 2 = [before; after] /\ s = before ++ String sep after
          /\ strings.ContainsByte before sep = false).
  cbn [strings.splitAtMost]. rewrite Hcut. repeat split; assumption.
Qed.

Lemma Split_without (s : string) (sep : ascii) :
  strings.ContainsByte s sep = false -> strings.Split s sep = [s].
Proof.
  induction s as [|c s IH]; cbn; [reflexivity|].
  intros H. apply orb_false_elim in H as [Hc Hs].
  rewrite Hc, (IH Hs). reflexivity.
Qed.

Lemma Split_app (a b : string) (sep : ascii) :
  strings.ContainsByte a sep = false ->
  strings.Split (a ++ String sep b) sep = a :: strings.Split b sep.
Proof.
  induction a as [|c a IH]; cbn.
  - intros _. now rewrite Ascii.eqb_refl.
  - intros H. apply orb_false_elim in H as [Hc Ha].
    rewrite Hc, (IH Ha). reflexivity.
Qed.

Lemma Split_with (s : string) (sep : ascii) :
  strings.ContainsByte s sep = true ->
  exists p0 p1 rest, strings.Split s sep = p0 :: p1 :: rest.
Proof.
  intros H. destruct (Cut_Some _ _ H) as (before & after & _ & -> & Hb).
  rewrite (Split_app _ _ _ Hb).
  destruct after as [|c after]; cbn.
  - exists before, "", []. reflexivity.
  - destruct (Ascii.eqb c sep).
    + eexists _, _, _. reflexivity.
    + destruct (strings.Split after sep) as [|x l] eqn:E; eexists _, _, _; reflexivity.
Qed.

Lemma Split_length_lt_2 (s : string) (sep : ascii) :
  (List.length (strings.Split s sep) < 2)%nat <-> strings.ContainsByte s sep = false.
Proof.
  split.
  - intros Hlen. destruct (strings.ContainsByte s sep) eqn:H; [|reflexivity].
    destruct (Split_with _ _ H) as (p0 & p1 & rest & E).
    rewrite E in Hlen. cbn in Hlen. lia.
  - intros H. rewrite (Split_without _ _ H). cbn. lia.
Qed.

(** ** The auto-select override *)

Lemma handleResources_override (env : Env) (h : handler) (r : http.Request) :
  testingAutoSelect h <> "" ->
  handleResources env h r
  = match strings.SplitN (testingAutoSelect h) "." 2 with
    | part0 :: part1 :: _ =>
        (prepareNoCache env, http.Redirect ("/resources/" ++ part0 ++ "/" ++ part1) 302)
    | _ => (prepareNoCache env, http.Panic "index out of range [1] with length 1")
    end.
Proof.
  intros H. unfold handleResources. now rewrite (eqb_empty_false _ H).
Qed.

(** C9: with a non-empty override that contains no dot, the handler
    panics on [parts[1]] and writes no answer, for every request; with an
    override that contains a dot it redirects instead. *)
Theorem handleResources_override_panics (env : Env) (h : handler) (r : http.Request) :
  testingAutoSelect h <> "" ->
  (strings.ContainsByte (testingAutoSelect h) "." = false ->
   snd (handleResources env h r) = http.Panic "index out of range [1] with length 1"
   /\ http.statusOf (snd (handleResources env h r)) = None)
  /\ (strings.ContainsByte (testingAutoSelect h) "." = true ->
      exists url, snd (handleResources env h r) = http.Redirect url 302).
Proof.
  intros Hne. rewrite (handleResources_override env h r Hne). split.
  - intros Hdot. rewrite (SplitN_two_without _ _ Hdot). split; reflexivity.
  - intros Hdot. destruct (SplitN_two_with _ _ Hdot) as (p0 & p1 & -> & _ & _).
    eexists. reflexivity.
Qed.

Lemma handleResources_override_panics_witness :
  (snd (handleResources Sample.env (withAutoSelect Sample.h "foo")
          (Sample.request "/resources" [("s", "abc123")] []))
   = http.Panic "index out of range [1] with length 1"
   /\ http.statusOf
        (snd (handleResources Sample.env (withAutoSelect Sample.h "foo")
                (Sample.request "/resources" [("s", "abc123")] []))) = None)
  /\ exists url,
       snd (handleResources Sample.env (withAutoSelect Sample.h "foo.bar")
              (Sample.request "/resources" [("s", "abc123")] []))
       = http.Redirect url 302.
Proof.
  split.
  - apply (proj1 (handleResources_override_panics Sample.env
                    (withAutoSelect Sample.h "foo") _ ltac:(discriminate))).
    reflexivity.
  - apply (proj2 (handleResources_override_panics Sample.env
                    (withAutoSelect Sample.h "foo.bar") _ ltac:(discriminate))).
    reflexivity.
Defined.

(** With an override [a.b] the handler neither lists nor renders and
    redirects every request to [/resources/a/b]. *)
Lemma handleResources_override_redirect (env : Env) (h : handler) (r : http.Request)
  (a b : string) :
  strings.ContainsByte a "." = false ->
  handleResources env (withAutoSelect h (a ++ String "." b)) r
  = (prepareNoCache env, http.Redirect ("/resources/" ++ a ++ "/" ++ b) 302).
Proof.
  intros Ha. rewrite handleResources_override.
  - cbn [testingAutoSelect withAutoSelect]. unfold strings.SplitN.
    change (Z.to_nat 2) with 2%nat. cbn [Z.eqb Z.ltb Z.compare strings.splitAtMost].
    assert (Hcut : strings.Cut (a ++ String "." b) "." = Some (a, b)).
    { clear -Ha. induction a as [|c a IH]; cbn in *; [reflexivity|].
      apply orb_false_elim in Ha as [Hc Ha]. now rewrite Hc, (IH Ha). }
    now rewrite Hcut.
  - cbn. destruct a; discriminate.
Qed.

(** C6, on the code: with the override [foo.bar] every request to
    /resources is redirected, without listing or rendering, to
    [/resources/foo/bar]; no route of [AddRoutes] serves that path, and
    the bind step is the route [/bind]. *)
Theorem handleResources_autoselect_target (env : Env) (h : handler) (r : http.Request) :
  handleResources env (withAutoSelect h "foo.bar") r
  = (prepareNoCache env, http.Redirect "/resources/foo/bar" 302)
  /\ listedOrRendered (handleResources env (withAutoSelect h "foo.bar") r) = false
  /\ Match AddRoutes "/resources/foo/bar" = None
  /\ Match AddRoutes "/bind" = Some BindEndpoint.
Proof.
  repeat split.
Qed.

(** ** The export key *)

Section Lookups.

Variable ErrorText : error -> string.
Variable IsNotFound : error -> bool.
Variable conditions_Set :
  serviceexport.APIServiceExport -> serviceexport.Condition ->
  serviceexport.APIServiceExport.
Variable ServiceExportResourceToCRD :
  serviceexport.APIServiceExportResource -> result CustomResourceDefinition.
Variable rec : serviceexport.reconciler.

Let step := serviceexport.ensureResource ErrorText IsNotFound conditions_Set
              ServiceExportResourceToCRD rec.

Lemma ensureResource_lookups st gr :
  serviceexport.lookups (step st gr)
  = (serviceexport.lookups st ++ [lookupName gr])%list.
Proof.
  unfold step, serviceexport.ensureResource, lookupName.
  repeat branch; reflexivity.
Qed.

Lemma fold_ensureResource_lookups l st :
  serviceexport.lookups (fold_left step l st)
  = (serviceexport.lookups st ++ map lookupName l)%list.
Proof.
  revert st. induction l as [|gr l IH]; intros st; cbn [fold_left map].
  - now rewrite app_nil_r.
  - rewrite IH, ensureResource_lookups, <- app_assoc. reflexivity.
Qed.

(** The reconciler looks up, in order, the entry named
    [resource.group] of every resource of the export. *)
Lemma ensureResourcesExist_lookups e :
  snd (serviceexport.ensureResourcesExist ErrorText IsNotFound conditions_Set
         ServiceExportResourceToCRD rec e)
  = map lookupName (serviceexport.Spec_Resources e).
Proof.
  unfold serviceexport.ensureResourcesExist. cbn [snd].
  fold step. now rewrite fold_ensureResource_lookups.
Qed.

End Lookups.



(** ** The scenarios of the specification, run on the sample deployment *)

(** [GET /authorize?u=https://consumer.example/cb&s=abc123] redirects to
    the identity provider with the base64 of
    [{"RedirectURL":"https://consumer.example/cb","SessionID":"abc123"}]
    as state. *)
Example authorize_scenario :
  handleAuthorize Sample.env Sample.h
    (Sample.request "/authorize"
       [("u", "https://consumer.example/cb"); ("s", "abc123")] [])
  = ([], http.Redirect ("https://idp.example/auth?state=" ++ Sample.stateParam) 302)
  /\ base64.DecodeString base64.StdEncoding Sample.stateParam
     = Ok (json.marshalStruct
             [("RedirectURL", "https://consumer.example/cb"); ("SessionID", "abc123")]).
Proof. split; vm_compute; reflexivity. Qed.

(** The handshake of session [abc123] for the resource [widgets] of the
    group [example.io] ends in a redirect to the caller's URL whose
    [auth_response] decodes to a response of that session with the
    export key [widgets.example.io]. *)
Example handshake_scenario :
  exists blob payload fs,
    snd (handleBind Sample.env Sample.h
           (Sample.bindRequest "https://consumer.example/cb"))
    = http.Redirect ("https://consumer.example/cb?auth_response=" ++ blob) 302
    /\ base64.DecodeString base64.StdEncoding blob = Ok payload
    /\ jsonstruct.Unmarshal payload
         [("SessionID", ""); ("ID", ""); ("Kubeconfig", ""); ("Group", "");
          ("Resource", ""); ("Export", "")] = Ok fs
    /\ jsonstruct.field "SessionID" fs = "abc123"
    /\ jsonstruct.field "Export" fs = "widgets.example.io".
Proof.
  eexists _, _, _. split; [vm_compute; reflexivity|].
  split; [vm_compute; reflexivity|].
  split; vm_compute; [reflexivity|]. split; reflexivity.
Qed.

(** ** What the raw URL-safe decoder accepts *)

Lemma decodeFrom_raw_ok (s : string) :
  forall si dbuf,
    (List.length dbuf < 4)%nat ->
    isOk (base64.decodeFrom base64.RawURLEncoding s si dbuf)
    = onlySymbols base64.RawURLEncoding s
      && negb (Nat.eqb ((List.length dbuf + countSymbols base64.RawURLEncoding s) mod 4) 1).
Proof.
  induction s as [|c s IH]; intros si dbuf Hlen.
  - cbn [base64.decodeFrom onlySymbols countSymbols andb].
    destruct dbuf as [|d0 [|d1 [|d2 [|d3 l]]]]; cbn in *; try reflexivity; lia.
  - cbn [base64.decodeFrom onlySymbols countSymbols]. unfold inAlphabet.
    destruct (base64.decodeMap base64.RawURLEncoding c) as [out|] eqn:Hmap.
    + cbn [orb andb].
      destruct dbuf as [|d0 [|d1 [|d2 [|d3 l]]]]; cbn [List.length] in Hlen; try lia.
      * rewrite IH by (cbn; lia). cbn [app List.length]. 
        now rewrite Nat.add_succ_r.
      * rewrite IH by (cbn; lia). cbn [app List.length].
        now rewrite !Nat.add_succ_r.
      * rewrite IH by (cbn; lia). cbn [app List.length].
        now rewrite !Nat.add_succ_r.
      * transitivity (isOk (base64.decodeFrom base64.RawURLEncoding s (si + 1) [])).
        { now destruct (base64.decodeFrom base64.RawURLEncoding s (si + 1) []). }
        rewrite IH by (cbn; lia). cbn [List.length Nat.add].
        replace (S (S (S (S (countSymbols base64.RawURLEncoding s)))))
          with (countSymbols base64.RawURLEncoding s + 1 * 4)%nat by lia.
        now rewrite Nat.Div0.mod_add.
    + cbn [orb]. destruct (base64.isNewline c) eqn:Hnl.
      * cbn [andb]. now apply IH.
      * reflexivity.
Qed.

Lemma DecodeString_raw_ok (s : string) :
  isOk (base64.DecodeString base64.RawURLEncoding s) = validRawURL s.
Proof.
  unfold base64.DecodeString, validRawURL.
  now rewrite decodeFrom_raw_ok by (cbn; lia).
Qed.

(** ** parseJWT *)

Lemma parseJWT_few_parts (env : Env) (p : string) :
  strings.ContainsByte p "." = false ->
  parseJWT env p = Err (errorString "oidc: malformed jwt, expected 3 parts got 1").
Proof.
  intros H. unfold parseJWT. rewrite (Split_without _ _ H). reflexivity.
Qed.

Lemma parseJWT_second_part (env : Env) (p : string) :
  strings.ContainsByte p "." = true ->
  parseJWT env p
  = match base64.DecodeString base64.RawURLEncoding
            (nth 1 (strings.Split p ".") "") with
    | Err err => Err (errorString ("oidc: malformed jwt payload: " ++ ErrorText env err))
    | Ok payload => Ok payload
    end.
Proof.
  intros H. unfold parseJWT.
  destruct (Split_with _ _ H) as (p0 & p1 & rest & ->).
  cbn [List.length]. 
  destruct (Z.ltb_spec (Z.of_nat (S (S (List.length rest)))) 2); [lia | reflexivity].
Qed.

(** C10: [parseJWT] fails exactly when its input has fewer than two
    dot-separated parts (it contains no dot) or when its second part is
    not raw URL-safe base64 as the decoder takes it: bytes of the
    URL-safe alphabet, carriage returns and line feeds being skipped,
    whose number is not 1 modulo 4.  The first failure reports that three
    parts are expected, yet an input of two dot-free parts whose second
    part decodes is accepted and yields the decoded bytes. *)
Theorem parseJWT_error_iff (env : Env) (p : string) :
  (isOk (parseJWT env p) = false <->
   (List.length (strings.Split p ".") < 2)%nat
   \/ validRawURL (nth 1 (strings.Split p ".") "") = false)
  /\ ((List.length (strings.Split p ".") < 2)%nat ->
      parseJWT env p = Err (errorString "oidc: malformed jwt, expected 3 parts got 1"))
  /\ (forall header payloadB64 payload,
        strings.ContainsByte header "." = false ->
        strings.ContainsByte payloadB64 "." = false ->
        base64.DecodeString base64.RawURLEncoding payloadB64 = Ok payload ->
        parseJWT env (header ++ "." ++ payloadB64) = Ok payload).
Proof.
  repeat split.
  - intros Herr. destruct (strings.ContainsByte p ".") eqn:Hdot.
    + right. rewrite (parseJWT_second_part env p Hdot) in Herr.
      rewrite <- DecodeString_raw_ok.
      destruct (base64.DecodeString _ _); [discriminate Herr | reflexivity].
    + left. now apply Split_length_lt_2.
  - intros [Hlen | Hdec].
    + apply Split_length_lt_2 in Hlen. now rewrite (parseJWT_few_parts env p Hlen).
    + rewrite <- DecodeString_raw_ok in Hdec.
      destruct (strings.ContainsByte p ".") eqn:Hdot.
      * rewrite (parseJWT_second_part env p Hdot).
        destruct (base64.DecodeString _ _); [discriminate Hdec | reflexivity].
      * now rewrite (parseJWT_few_parts env p Hdot).
  - intros Hlen. apply Split_length_lt_2 in Hlen. now apply parseJWT_few_parts.
  - intros header payloadB64 payload Hh Hp Hdec.
    rewrite parseJWT_second_part.
    + change (header ++ "." ++ payloadB64) with (header ++ String "." payloadB64).
      rewrite (Split_app _ _ _ Hh), (Split_without _ _ Hp). cbn [nth].
      now rewrite Hdec.
    + clear -Hh. induction header as [|c hd IH]; cbn in *; [reflexivity|].
      apply orb_false_elim in Hh as [Hc Hh]. now rewrite Hc, (IH Hh).
Qed.

Lemma parseJWT_error_iff_witness :
  parseJWT Sample.env "x" = Err (errorString "oidc: malformed jwt, expected 3 parts got 1")
  /\ parseJWT Sample.env ("eyJhbGciOiJub25lIn0" ++ "." ++ "e30") = Ok "{}".
Proof.
  split.
  - apply (proj1 (proj2 (parseJWT_error_iff Sample.env "x"))). vm_compute. lia.
  - apply (proj2 (proj2 (parseJWT_error_iff Sample.env "x")));
      vm_compute; reflexivity.
Defined.

(** * Further properties *)

(** ** The handshake, step by step *)

(** X1: the two halves of the handshake fit together.  For a request to
    /authorize with non-empty, valid UTF-8 [u] and [s], the handler
    redirects to the identity provider with a state parameter; a callback
    request that carries no [error] in its form, an authorization code the
    provider accepts and that very state sets the cookie [kube-bind-<s>]
    holding the session of [u] and [s] and redirects to
    [/resources?s=<s>]. *)
Theorem authorize_then_callback (env : Env) (h : handler) (r r' : http.Request)
  (u s code jwtStr jwt b : string) (token : Token) :
  http.Get (http.URL_Query r) "u" = u ->
  http.Get (http.URL_Query r) "s" = s ->
  u <> "" -> s <> "" ->
  utf8.ValidString u = true -> utf8.ValidString s = true ->
  code <> "" ->
  Exchange (oidc h) code = Ok token ->
  Extra_id_token token = Some jwtStr ->
  parseJWT env jwtStr = Ok jwt ->
  SessionState_Encode env
    {| cookie.CreatedAt := Now env;
       cookie.ExpiresOn := Expiry token;
       cookie.AccessToken := AccessToken token;
       cookie.IDToken := jwt;
       cookie.RefreshToken := RefreshToken token;
       cookie.RedirectURL := u;
       cookie.SessionID := s |} = Ok b ->
  exists state,
    handleAuthorize env h r
    = ([], http.Redirect (AuthCodeURL (oidc h) scopes state) 302)
    /\ (http.Get (http.Form r') "error" = "" ->
        callbackCode r' = code ->
        callbackState r' = state ->
        handleCallback env h r'
        = ([http.CallExchange code;
            http.SetCookie (MakeCookie env r' ("kube-bind-" ++ s) b (1 * time.Hour))],
           http.Redirect ("/resources?s=" ++ s) 302)).
Proof.
  intros Hu Hs Hune Hsne Huv Hsv Hcode Hex Hid Hjwt Henc.
  exists (base64.EncodeToString base64.StdEncoding
            (json.marshalStruct
               (resources.AuthCode_fields
                  {| resources.RedirectURL := u; resources.SessionID := s |}))).
  split.
  - unfold handleAuthorize. rewrite Hu, Hs.
    cbn [resources.RedirectURL resources.SessionID].
    rewrite (eqb_empty_false _ Hune), (eqb_empty_false _ Hsne).
    reflexivity.
  - intros Herr Hc Hst. unfold callbackCode in Hc. unfold callbackState in Hst.
    unfold handleCallback. rewrite Herr, Hc, Hst.
    rewrite (eqb_empty_false _ Hcode). cbn [String.eqb negb].
    rewrite DecodeString_EncodeToString.
    change {| resources.RedirectURL := ""; resources.SessionID := "" |}
      with emptyAuthCode.
    rewrite Unmarshal_Marshal by assumption.
    rewrite Hex, Hid, Hjwt. cbn [resources.RedirectURL resources.SessionID].
    rewrite Henc. reflexivity.
Qed.

Lemma authorize_then_callback_witness :
  exists state,
    handleAuthorize Sample.env Sample.h
      (Sample.request "/authorize"
         [("u", "https://consumer.example/cb"); ("s", "abc123")] [])
    = ([], http.Redirect (AuthCodeURL (oidc Sample.h) scopes state) 302)
    /\ (http.Get (http.Form (Sample.request "/callback"
                               [("code", "good-code"); ("state", Sample.stateParam)] []))
          "error" = "" ->
        callbackCode (Sample.request "/callback"
                        [("code", "good-code"); ("state", Sample.stateParam)] [])
        = "good-code" ->
        callbackState (Sample.request "/callback"
                         [("code", "good-code"); ("state", Sample.stateParam)] [])
        = state ->
        handleCallback Sample.env Sample.h
          (Sample.request "/callback"
             [("code", "good-code"); ("state", Sample.stateParam)] [])
        = ([http.CallExchange "good-code";
            http.SetCookie
              (MakeCookie Sample.env
                 (Sample.request "/callback"
                    [("code", "good-code"); ("state", Sample.stateParam)] [])
                 ("kube-bind-" ++ "abc123")
                 (Sample.sessionCookie "https://consumer.example/cb")
                 (1 * time.Hour))],
           http.Redirect ("/resources?s=" ++ "abc123") 302)).
Proof.
  apply (authorize_then_callback Sample.env Sample.h
           (Sample.request "/authorize"
              [("u", "https://consumer.example/cb"); ("s", "abc123")] [])
           (Sample.request "/callback"
              [("code", "good-code"); ("state", Sample.stateParam)] [])
           "https://consumer.example/cb" "abc123" "good-code"
           Sample.idTokenJWT Sample.idTokenPayload
           (Sample.sessionCookie "https://consumer.example/cb")
           {| AccessToken := "access"; RefreshToken := "refresh";
              Expiry := 1667261100; Extra_id_token := Some Sample.idTokenJWT |});
    first [ discriminate | vm_compute; reflexivity ].
Defined.

(** X2: the callback contacts the identity provider only with the code
    of the request, and only when that code is not empty, the form carries
    no [error], and the state is base64 of JSON that decodes into an
    authorization code. *)
Theorem handleCallback_exchange_guarded (env : Env) (h : handler) (r : http.Request)
  (c : string) :
  In (http.CallExchange c) (fst (handleCallback env h r)) ->
  c = callbackCode r
  /\ c <> ""
  /\ http.Get (http.Form r) "error" = ""
  /\ exists decode authCode,
       base64.DecodeString base64.StdEncoding (callbackState r) = Ok decode
       /\ resources.Unmarshal decode emptyAuthCode = Ok authCode.
Proof.
  unfold handleCallback, callbackCode, callbackState, emptyAuthCode.
  repeat branch; cbn [fst In]; intros Hin;
    repeat match goal with
           | H : _ \/ _ |- _ => destruct H
           | H : False |- _ => destruct H
           | H : http.CallExchange _ = http.CallExchange _ |- _ => injection H as <-
           | H : _ = http.CallExchange _ |- _ => discriminate H
           end;
    (split; [reflexivity|]);
    (split; [now apply String.eqb_neq|]);
    (split; [match goal with
             | H : negb (String.eqb ?x "") = false |- ?x = "" =>
                 apply negb_false_iff in H; now apply String.eqb_eq in H
             end|]);
    eexists _, _; split; first [reflexivity | eassumption].
Qed.

Lemma handleCallback_exchange_guarded_witness :
  "good-code"
  = callbackCode (Sample.request "/callback"
                    [("code", "good-code"); ("state", Sample.stateParam)] [])
  /\ "good-code" <> ""
  /\ http.Get (http.Form (Sample.request "/callback"
                            [("code", "good-code"); ("state", Sample.stateParam)] []))
       "error" = ""
  /\ exists decode authCode,
       base64.DecodeString base64.StdEncoding
         (callbackState (Sample.request "/callback"
                           [("code", "good-code"); ("state", Sample.stateParam)] []))
       = Ok decode
       /\ resources.Unmarshal decode emptyAuthCode = Ok authCode.
Proof.
  apply (handleCallback_exchange_guarded Sample.env Sample.h
           (Sample.request "/callback"
              [("code", "good-code"); ("state", Sample.stateParam)] [])
           "good-code").
  vm_compute. left. reflexivity.
Defined.

(** X3: what the callback stores.  When it redirects, the value of the
    cookie is the encoding of the session made of the current time, the
    expiry and the access and refresh tokens of the token the provider
    returned, the decoded payload segment of its [id_token] (not the JWT
    itself), and the redirect URL and session id of the decoded state. *)
Theorem handleCallback_session_contents (env : Env) (h : handler) (r : http.Request)
  (evs : list http.Event) (url : string) (status : Z) :
  handleCallback env h r = (evs, http.Redirect url status) ->
  exists decode authCode token jwtStr jwt b,
    base64.DecodeString base64.StdEncoding (callbackState r) = Ok decode
    /\ resources.Unmarshal decode emptyAuthCode = Ok authCode
    /\ Exchange (oidc h) (callbackCode r) = Ok token
    /\ Extra_id_token token = Some jwtStr
    /\ parseJWT env jwtStr = Ok jwt
    /\ SessionState_Encode env
         {| cookie.CreatedAt := Now env;
            cookie.ExpiresOn := Expiry token;
            cookie.AccessToken := AccessToken token;
            cookie.IDToken := jwt;
            cookie.RefreshToken := RefreshToken token;
            cookie.RedirectURL := resources.RedirectURL authCode;
            cookie.SessionID := resources.SessionID authCode |} = Ok b
    /\ evs = [http.CallExchange (callbackCode r);
              http.SetCookie
                (MakeCookie env r ("kube-bind-" ++ resources.SessionID authCode) b
                   (1 * time.Hour))].
Proof.
  unfold handleCallback, callbackCode, callbackState, emptyAuthCode.
  repeat branch; intros H; try discriminate H.
  injection H as <- <- <-.
  eexists _, _, _, _, _, _.
  repeat match goal with |- _ /\ _ => split end; first [eassumption | reflexivity].
Qed.

Lemma handleCallback_session_contents_witness :
  exists decode authCode token jwtStr jwt b,
    base64.DecodeString base64.StdEncoding
      (callbackState (Sample.request "/callback"
                        [("code", "good-code"); ("state", Sample.stateParam)] []))
    = Ok decode
    /\ resources.Unmarshal decode emptyAuthCode = Ok authCode
    /\ Exchange (oidc Sample.h)
         (callbackCode (Sample.request "/callback"
                          [("code", "good-code"); ("state", Sample.stateParam)] []))
       = Ok token
    /\ Extra_id_token token = Some jwtStr
    /\ parseJWT Sample.env jwtStr = Ok jwt
    /\ SessionState_Encode Sample.env
         {| cookie.CreatedAt := Now Sample.env;
            cookie.ExpiresOn := Expiry token;
            cookie.AccessToken := AccessToken token;
            cookie.IDToken := jwt;
            cookie.RefreshToken := RefreshToken token;
            cookie.RedirectURL := resources.RedirectURL authCode;
            cookie.SessionID := resources.SessionID authCode |} = Ok b
    /\ [http.CallExchange "good-code";
        http.SetCookie
          (Sample.makeCookie
             (Sample.request "/callback"
                [("code", "good-code"); ("state", Sample.stateParam)] [])
             "kube-bind-abc123" (Sample.sessionCookie "https://consumer.example/cb")
             (1 * time.Hour))]
       = [http.CallExchange
            (callbackCode (Sample.request "/callback"
                             [("code", "good-code"); ("state", Sample.stateParam)] []));
          http.SetCookie
            (MakeCookie Sample.env
               (Sample.request "/callback"
                  [("code", "good-code"); ("state", Sample.stateParam)] [])
               ("kube-bind-" ++ resources.SessionID authCode) b (1 * time.Hour))].
Proof.
  apply (handleCallback_session_contents Sample.env Sample.h
           (Sample.request "/callback"
              [("code", "good-code"); ("state", Sample.stateParam)] [])
           _ "/resources?s=abc123" 302).
  vm_compute. reflexivity.
Defined.

(** ** From the callback to the bind step *)

Lemma Cookie_head (name value : string) (rest : list (string * string)) :
  http.Cookie ((name, value) :: rest) name = Ok value.
Proof. cbn [http.Cookie]. now rewrite String.eqb_refl. Qed.

(** X4: the cookie the callback sets is the one the bind step reads.
    When the callback redirects to [/resources?s=<sid>] it has set the
    cookie [kube-bind-<sid>]; a bind request with [s=<sid>] that sends
    this cookie first, whose value decodes and whose ID token parses,
    reaches the minting of the credential for the subject of the stored
    token and for the resource and group of its own query. *)
Theorem callback_then_bind (env : Env) (h : handler) (rC : http.Request)
  (evs : list http.Event) (sid : string) (status : Z) :
  handleCallback env h rC = (evs, http.Redirect ("/resources?s=" ++ sid) status) ->
  exists b,
    In (http.SetCookie (MakeCookie env rC ("kube-bind-" ++ sid) b (1 * time.Hour))) evs
    /\ forall (rB : http.Request) (rest : list (string * string))
              (state : cookie.SessionState) (subject issuer : string),
         http.Get (http.URL_Query rB) "s" = sid ->
         http.Cookies rB = ("kube-bind-" ++ sid, b) :: rest ->
         cookie_Decode env b = Ok state ->
         Unmarshal_idToken (cookie.IDToken state) = Ok (subject, issuer) ->
         In (http.CallHandleResources subject
               (http.Get (http.URL_Query rB) "resource")
               (http.Get (http.URL_Query rB) "group")
               (isOk (HandleResources (kubeManager h) subject
                        (http.Get (http.URL_Query rB) "resource")
                        (http.Get (http.URL_Query rB) "group"))))
            (fst (handleBind env h rB)).
Proof.
  unfold handleCallback.
  repeat branch; intros H; try discriminate H.
  injection H as <- Hsid <-. rewrite Hsid.
  eexists. split; [right; left; reflexivity|].
  intros rB rest state subject issuer Hs Hck Hdec Hid.
  unfold handleBind. rewrite Hs, Hck, Cookie_head, Hdec, Hid.
  repeat branch; cbn [fst isOk]; apply in_or_app; right; left; reflexivity.
Qed.

Lemma callback_then_bind_witness :
  exists b,
    In (http.SetCookie
          (MakeCookie Sample.env
             (Sample.request "/callback"
                [("code", "good-code"); ("state", Sample.stateParam)] [])
             ("kube-bind-" ++ "abc123") b (1 * time.Hour)))
       [http.CallExchange "good-code";
        http.SetCookie
          (Sample.makeCookie
             (Sample.request "/callback"
                [("code", "good-code"); ("state", Sample.stateParam)] [])
             "kube-bind-abc123" (Sample.sessionCookie "https://consumer.example/cb")
             (1 * time.Hour))]
    /\ forall (rB : http.Request) (rest : list (string * string))
              (state : cookie.SessionState) (subject issuer : string),
         http.Get (http.URL_Query rB) "s" = "abc123" ->
         http.Cookies rB = ("kube-bind-" ++ "abc123", b) :: rest ->
         cookie_Decode Sample.env b = Ok state ->
         Unmarshal_idToken (cookie.IDToken state) = Ok (subject, issuer) ->
         In (http.CallHandleResources subject
               (http.Get (http.URL_Query rB) "resource")
               (http.Get (http.URL_Query rB) "group")
               (isOk (HandleResources (kubeManager Sample.h) subject
                        (http.Get (http.URL_Query rB) "resource")
                        (http.Get (http.URL_Query rB) "group"))))
            (fst (handleBind Sample.env Sample.h rB)).
Proof.
  apply (callback_then_bind Sample.env Sample.h
           (Sample.request "/callback"
              [("code", "good-code"); ("state", Sample.stateParam)] [])
           _ "abc123" 302).
  vm_compute. reflexivity.
Defined.

(** X5: the redirect of the callback is served.  Its URL is a path that
    [AddRoutes] gives to [handleResources], followed by [?s=<sid>]; with
    no override and a listing that succeeds, a request that carries this
    [s] renders the page for that session id. *)
Theorem callback_redirect_reaches_resources (env : Env) (h : handler)
  (r : http.Request) (evs : list http.Event) (url : string) (status : Z) :
  handleCallback env h r = (evs, http.Redirect url status) ->
  exists path sid,
    url = path ++ "?s=" ++ sid
    /\ Match AddRoutes path = Some ResourcesEndpoint
    /\ forall r' crds,
         http.Get (http.URL_Query r') "s" = sid ->
         testingAutoSelect h = "" ->
         apiextensionsLister h = Ok crds ->
         In (http.CallExecute sid) (fst (handleResources env h r')).
Proof.
  unfold handleCallback.
  repeat branch; intros H; try discriminate H.
  injection H as <- <- <-.
  exists "/resources". eexists. split; [reflexivity|]. split; [reflexivity|].
  intros r' crds Hs Hq Hl. unfold handleResources. rewrite Hq, Hl, Hs.
  cbn [String.eqb negb].
  destruct (template_Execute env _ _); cbn [fst]; apply in_or_app; right; right; left;
    reflexivity.
Qed.

Lemma callback_redirect_reaches_resources_witness :
  exists path sid,
    "/resources?s=abc123" = path ++ "?s=" ++ sid
    /\ Match AddRoutes path = Some ResourcesEndpoint
    /\ forall r' crds,
         http.Get (http.URL_Query r') "s" = sid ->
         testingAutoSelect Sample.h = "" ->
         apiextensionsLister Sample.h = Ok crds ->
         In (http.CallExecute sid) (fst (handleResources Sample.env Sample.h r')).
Proof.
  apply (callback_redirect_reaches_resources Sample.env Sample.h
           (Sample.request "/callback"
              [("code", "good-code"); ("state", Sample.stateParam)] [])
           [http.CallExchange "good-code";
            http.SetCookie
              (Sample.makeCookie
                 (Sample.request "/callback"
                    [("code", "good-code"); ("state", Sample.stateParam)] [])
                 "kube-bind-abc123" (Sample.sessionCookie "https://consumer.example/cb")
                 (1 * time.Hour))]
           "/resources?s=abc123" 302).
  vm_compute. reflexivity.
Defined.

(** ** What every route answers *)

Lemma SplitN_two_short (s : string) (sep : ascii) :
  (exists p0 p1 rest, strings.SplitN s sep 2 = p0 :: p1 :: rest)
  \/ (strings.ContainsByte s sep = false /\ strings.SplitN s sep 2 = [s]).
Proof.
  destruct (strings.ContainsByte s sep) eqn:H.
  - left. destruct (SplitN_two_with _ _ H) as (p0 & p1 & E & _ & _).
    exists p0, p1, []. exact E.
  - right. split; [reflexivity|]. now apply SplitN_two_without.
Qed.

(** X6: the answers of the five routes.  A handler panics only at
    /resources and only with a non-empty override that has no dot; an
    error answer is a 500, or a 400 from /authorize or /callback; every
    redirect is a 302 and /export never redirects; a body is written only
    by /export and, without an override, by /resources. *)
Theorem routed_replies (env : Env) (h : handler)
  (marshal : APIServiceProviderSpec -> result string)
  (e : Endpoint) (r : http.Request) :
  match snd (handlerOf env h marshal e r) with
  | http.Panic _ =>
      e = ResourcesEndpoint
      /\ testingAutoSelect h <> ""
      /\ strings.ContainsByte (testingAutoSelect h) "." = false
  | http.Error _ code =>
      code = 500
      \/ (code = 400 /\ (e = AuthorizeEndpoint \/ e = CallbackEndpoint))
  | http.Redirect _ code =>
      code = 302 /\ e <> ServiceExportEndpoint
  | http.Write _ =>
      e = ServiceExportEndpoint
      \/ (e = ResourcesEndpoint /\ testingAutoSelect h = "")
  end.
Proof.
  destruct e; cbn [handlerOf].
  - unfold handleServiceExport. destruct (marshal _); cbn; auto.
  - unfold handleResources.
    destruct (String.eqb (testingAutoSelect h) "") eqn:Hq; cbn [negb].
    + apply String.eqb_eq in Hq.
      repeat (cbn [snd]; branch); cbn; auto.
    + apply String.eqb_neq in Hq.
      destruct (SplitN_two_short (testingAutoSelect h) ".")
        as [(p0 & p1 & rest & ->) | [Hdot ->]]; cbn.
      * split; [reflexivity | discriminate].
      * auto.
  - unfold handleBind. repeat (cbn [snd]; branch); cbn; auto;
      split; [reflexivity | discriminate].
  - unfold handleAuthorize. repeat (cbn [snd]; branch); cbn; auto;
      split; [reflexivity | discriminate].
  - unfold handleCallback. repeat (cbn [snd]; branch); cbn; auto;
      split; [reflexivity | discriminate].
Qed.

(** X7: each effect belongs to one route.  Only /callback sets a
    cookie or calls the token exchange, only /bind calls the minting of
    credentials, only /resources lists the resource definitions or
    renders the page; /authorize and /export do none of these. *)
Theorem effects_by_route (env : Env) (h : handler)
  (marshal : APIServiceProviderSpec -> result string)
  (e : Endpoint) (r : http.Request) :
  match e with
  | CallbackEndpoint =>
      credentialMinted (handlerOf env h marshal e r) = false
      /\ existsb http.isHandleResources (fst (handlerOf env h marshal e r)) = false
      /\ listedOrRendered (handlerOf env h marshal e r) = false
  | BindEndpoint =>
      cookieWritten (handlerOf env h marshal e r) = false
      /\ existsb isExchange (fst (handlerOf env h marshal e r)) = false
      /\ listedOrRendered (handlerOf env h marshal e r) = false
  | ResourcesEndpoint =>
      cookieWritten (handlerOf env h marshal e r) = false
      /\ existsb isExchange (fst (handlerOf env h marshal e r)) = false
      /\ existsb http.isHandleResources (fst (handlerOf env h marshal e r)) = false
  | AuthorizeEndpoint | ServiceExportEndpoint =>
      cookieWritten (handlerOf env h marshal e r) = false
      /\ existsb isExchange (fst (handlerOf env h marshal e r)) = false
      /\ existsb http.isHandleResources (fst (handlerOf env h marshal e r)) = false
      /\ listedOrRendered (handlerOf env h marshal e r) = false
  end.
Proof.
  destruct e; cbn [handlerOf];
    unfold cookieWritten, credentialMinted, listedOrRendered,
      handleServiceExport, handleResources, handleBind, handleAuthorize,
      handleCallback, prepareNoCache;
    repeat branch; cbn; repeat split.
Qed.


(** X9: every error answer of /bind and of /resources is the 500 with
    the fixed text [internal error], whichever step failed. *)
Theorem bind_and_resources_errors_masked (env : Env) (h : handler) (r : http.Request)
  (msg : string) (code : Z) :
  snd (handleBind env h r) = http.Error msg code
  \/ snd (handleResources env h r) = http.Error msg code ->
  msg = "internal error" /\ code = 500.
Proof.
  unfold handleBind, handleResources.
  intros [H | H]; revert H; repeat branch; cbn [snd]; intros H;
    first [discriminate H | injection H as <- <-; split; reflexivity].
Qed.

Lemma bind_and_resources_errors_masked_witness :
  "internal error" = "internal error" /\ 500 = 500.
Proof.
  apply (bind_and_resources_errors_masked Sample.env Sample.h
           (Sample.bindRequest ":") "internal error" 500).
  left. vm_compute. reflexivity.
Defined.

(** ** The bind step *)

(** X10: the bind step calls the minting of credentials only after the
    session cookie [kube-bind-<s>] was found and decoded and the stored ID
    token was parsed; the subject it passes is the [sub] of that token,
    the resource and the group are those of the query, and the event
    records whether the call returned a credential. *)
Theorem handleBind_mint_guarded (env : Env) (h : handler) (r : http.Request)
  (subject resource group : string) (ok : bool) :
  In (http.CallHandleResources subject resource group ok) (fst (handleBind env h r)) ->
  exists ck state issuer,
    http.Cookie (http.Cookies r) ("kube-bind-" ++ http.Get (http.URL_Query r) "s") = Ok ck
    /\ cookie_Decode env ck = Ok state
    /\ Unmarshal_idToken (cookie.IDToken state) = Ok (subject, issuer)
    /\ resource = http.Get (http.URL_Query r) "resource"
    /\ group = http.Get (http.URL_Query r) "group"
    /\ ok = isOk (HandleResources (kubeManager h) subject resource group).
Proof.
  unfold handleBind, prepareNoCache.
  repeat branch; cbn [fst In map app noCacheHeaders]; intros Hin;
    repeat match goal with
           | H : _ \/ _ |- _ => destruct H
           | H : False |- _ => destruct H
           | H : http.CallHandleResources _ _ _ _ = http.CallHandleResources _ _ _ _ |- _ =>
               injection H as <- <- <- <-
           | H : _ = http.CallHandleResources _ _ _ _ |- _ => discriminate H
           end;
    eexists _, _, _;
    repeat match goal with |- _ /\ _ => split end;
    try reflexivity; try eassumption;
    match goal with
    | H : HandleResources _ _ _ _ = _ |- _ => now rewrite H
    end.
Qed.

Lemma handleBind_mint_guarded_witness :
  exists ck state issuer,
    http.Cookie (http.Cookies (Sample.bindRequest "https://consumer.example/cb"))
      ("kube-bind-"
       ++ http.Get (http.URL_Query (Sample.bindRequest "https://consumer.example/cb")) "s")
    = Ok ck
    /\ cookie_Decode Sample.env ck = Ok state
    /\ Unmarshal_idToken (cookie.IDToken state) = Ok ("alice", issuer)
    /\ "widgets"
       = http.Get (http.URL_Query (Sample.bindRequest "https://consumer.example/cb"))
           "resource"
    /\ "example.io"
       = http.Get (http.URL_Query (Sample.bindRequest "https://consumer.example/cb")) "group"
    /\ true = isOk (HandleResources (kubeManager Sample.h) "alice" "widgets" "example.io").
Proof.
  apply (handleBind_mint_guarded Sample.env Sample.h
           (Sample.bindRequest "https://consumer.example/cb")
           "alice" "widgets" "example.io" true).
  vm_compute. do 3 right. left. reflexivity.
Defined.

(** X11: whom the bind response names.  When the bind step redirects,
    the encoded response carries the session id stored in the cookie (not
    the [s] of the query), the identity [<iss>/<sub>] of the stored ID
    token, the credential minted for that subject, and the redirect goes
    to the URL stored in the cookie with [auth_response] added; the only
    effects are the no-cache headers and the one minting call. *)
Theorem handleBind_response_identity (env : Env) (h : handler) (r : http.Request)
  (evs : list http.Event) (url : string) (status : Z) :
  handleBind env h r = (evs, http.Redirect url status) ->
  exists ck state subject issuer kfg payload parsedAuthURL,
    http.Cookie (http.Cookies r) ("kube-bind-" ++ http.Get (http.URL_Query r) "s") = Ok ck
    /\ cookie_Decode env ck = Ok state
    /\ Unmarshal_idToken (cookie.IDToken state) = Ok (subject, issuer)
    /\ HandleResources (kubeManager h) subject
         (http.Get (http.URL_Query r) "resource") (http.Get (http.URL_Query r) "group")
       = Ok kfg
    /\ Marshal_AuthResponse env
         {| resources.resp_SessionID := cookie.SessionID state;
            resources.ID := issuer ++ "/" ++ subject;
            resources.Kubeconfig := kfg;
            resources.Group := http.Get (http.URL_Query r) "group";
            resources.Resource := http.Get (http.URL_Query r) "resource";
            resources.Export := http.Get (http.URL_Query r) "resource" ++ "."
                                ++ http.Get (http.URL_Query r) "group" |}
       = Ok payload
    /\ url_Parse env (cookie.RedirectURL state) = Ok parsedAuthURL
    /\ url = url_AddQuery env parsedAuthURL "auth_response"
               (base64.EncodeToString base64.StdEncoding payload)
    /\ evs = (prepareNoCache env
              ++ [http.CallHandleResources subject
                    (http.Get (http.URL_Query r) "resource")
                    (http.Get (http.URL_Query r) "group") true])%list.
Proof.
  unfold handleBind.
  repeat branch; intros H; try discriminate H.
  injection H as <- <- <-.
  eexists _, _, _, _, _, _, _.
  repeat match goal with |- _ /\ _ => split end; first [eassumption | reflexivity].
Qed.

Lemma handleBind_response_identity_witness :
  exists ck state subject issuer kfg payload parsedAuthURL,
    http.Cookie (http.Cookies (Sample.bindRequest "https://consumer.example/cb"))
      ("kube-bind-"
       ++ http.Get (http.URL_Query (Sample.bindRequest "https://consumer.example/cb")) "s")
    = Ok ck
    /\ cookie_Decode Sample.env ck = Ok state
    /\ Unmarshal_idToken (cookie.IDToken state) = Ok (subject, issuer)
    /\ HandleResources (kubeManager Sample.h) subject
         (http.Get (http.URL_Query (Sample.bindRequest "https://consumer.example/cb"))
            "resource")
         (http.Get (http.URL_Query (Sample.bindRequest "https://consumer.example/cb"))
            "group")
       = Ok kfg
    /\ Marshal_AuthResponse Sample.env
         {| resources.resp_SessionID := cookie.SessionID state;
            resources.ID := issuer ++ "/" ++ subject;
            resources.Kubeconfig := kfg;
            resources.Group :=
              http.Get (http.URL_Query (Sample.bindRequest "https://consumer.example/cb"))
                "group";
            resources.Resource :=
              http.Get (http.URL_Query (Sample.bindRequest "https://consumer.example/cb"))
                "resource";
            resources.Export :=
              http.Get (http.URL_Query (Sample.bindRequest "https://consumer.example/cb"))
                "resource" ++ "."
              ++ http.Get (http.URL_Query (Sample.bindRequest "https://consumer.example/cb"))
                   "group" |}
       = Ok payload
    /\ url_Parse Sample.env (cookie.RedirectURL state) = Ok parsedAuthURL
    /\ Sample.bindRedirect
       = url_AddQuery Sample.env parsedAuthURL "auth_response"
           (base64.EncodeToString base64.StdEncoding payload)
    /\ (prepareNoCache Sample.env
        ++ [http.CallHandleResources "alice" "widgets" "example.io" true])%list
       = (prepareNoCache Sample.env
          ++ [http.CallHandleResources subject
                (http.Get (http.URL_Query (Sample.bindRequest "https://consumer.example/cb"))
                   "resource")
                (http.Get (http.URL_Query (Sample.bindRequest "https://consumer.example/cb"))
                   "group") true])%list.
Proof.
  apply (handleBind_response_identity Sample.env Sample.h
           (Sample.bindRequest "https://consumer.example/cb")
           _ Sample.bindRedirect 302).
  vm_compute. reflexivity.
Defined.

(** ** The payload of a JWT *)

Lemma decodeMap_encodeAt_raw v :
  0 <= v < 64 ->
  base64.decodeMap base64.RawURLEncoding (base64.encodeAt base64.RawURLEncoding v)
  = Some v.
Proof.
  intros Hv.
  pose proof (range_check
    (fun v => match base64.decodeMap base64.RawURLEncoding
                      (base64.encodeAt base64.RawURLEncoding v) with
              | Some w => w =? v
              | None => false
              end) 64 eq_refl v Hv) as Hc.
  cbv beta in Hc.
  destruct (base64.decodeMap _ _) as [w|]; [|discriminate].
  apply Z.eqb_eq in Hc. now subst.
Qed.

Lemma encodeAt_raw_no_dot v :
  0 <= v < 64 ->
  Ascii.eqb (base64.encodeAt base64.RawURLEncoding v) "." = false.
Proof.
  intros Hv.
  pose proof (range_check
    (fun v => negb (Ascii.eqb (base64.encodeAt base64.RawURLEncoding v) "."))
    64 eq_refl v Hv) as Hc.
  cbv beta in Hc. now apply negb_true_iff in Hc.
Qed.

Lemma decodeFrom_symbol_raw v rest si dbuf :
  0 <= v < 64 ->
  base64.decodeFrom base64.RawURLEncoding
    (String (base64.encodeAt base64.RawURLEncoding v) rest) si dbuf
  = match dbuf with
    | [d0; d1; d2] =>
        match base64.decodeFrom base64.RawURLEncoding rest (si + 1) [] with
        | Ok tl => Ok (base64.flush [d0; d1; d2; v] ++ tl)
        | Err e => Err e
        end
    | _ => base64.decodeFrom base64.RawURLEncoding rest (si + 1) (dbuf ++ [v])%list
    end.
Proof.
  intros Hv. cbn [base64.decodeFrom].
  rewrite decodeMap_encodeAt_raw by assumption. reflexivity.
Qed.

Lemma decodeFrom_raw_end2 d0 d1 si :
  base64.decodeFrom base64.RawURLEncoding "" si [d0; d1] = Ok (base64.flush [d0; d1]).
Proof. reflexivity. Qed.

Lemma decodeFrom_raw_end3 d0 d1 d2 si :
  base64.decodeFrom base64.RawURLEncoding "" si [d0; d1; d2]
  = Ok (base64.flush [d0; d1; d2]).
Proof. reflexivity. Qed.

Lemma raw_roundtrip (src : string) (si : Z) :
  base64.decodeFrom base64.RawURLEncoding
    (base64.EncodeToString base64.RawURLEncoding src) si [] = Ok src.
Proof.
  revert si. induction src as [| a | a b | a b c rest IH] using string_ind3; intros si.
  - reflexivity.
  - cbn [base64.EncodeToString].
    rewrite !decodeFrom_symbol_raw by (apply sextet_range; lia).
    cbn [app]. change (base64.padding base64.RawURLEncoding 2) with "".
    rewrite decodeFrom_raw_end2. now rewrite (quantum_one a).
  - cbn [base64.EncodeToString].
    rewrite !decodeFrom_symbol_raw by (apply sextet_range; lia).
    cbn [app]. change (base64.padding base64.RawURLEncoding 1) with "".
    rewrite decodeFrom_raw_end3. now rewrite (quantum_two a b).
  - cbn [base64.EncodeToString].
    rewrite !decodeFrom_symbol_raw by (apply sextet_range; lia).
    cbn [app]. rewrite IH. now rewrite quantum_full.
Qed.

Lemma EncodeToString_raw_no_dot (src : string) :
  strings.ContainsByte (base64.EncodeToString base64.RawURLEncoding src) "." = false.
Proof.
  induction src as [| a | a b | a b c rest IH] using string_ind3;
    cbn [base64.EncodeToString strings.ContainsByte];
    rewrite ?encodeAt_raw_no_dot by (apply sextet_range; lia);
    cbn [orb]; first [reflexivity | exact IH].
Qed.

Lemma Split_three (header payload signature : string) :
  strings.ContainsByte header "." = false ->
  strings.ContainsByte payload "." = false ->
  strings.Split (header ++ "." ++ payload ++ "." ++ signature) "."
  = header :: payload :: strings.Split signature ".".
Proof.
  intros Hh Hp.
  change (header ++ "." ++ payload ++ "." ++ signature)
    with (header ++ String "." (payload ++ String "." signature)).
  rewrite (Split_app _ _ _ Hh), (Split_app _ _ _ Hp). reflexivity.
Qed.

Lemma parseJWT_three (env : Env) (header payload signature : string) :
  strings.ContainsByte header "." = false ->
  strings.ContainsByte payload "." = false ->
  parseJWT env (header ++ "." ++ payload ++ "." ++ signature)
  = match base64.DecodeString base64.RawURLEncoding payload with
    | Err err => Err (errorString ("oidc: malformed jwt payload: " ++ ErrorText env err))
    | Ok decoded => Ok decoded
    end.
Proof.
  intros Hh Hp. unfold parseJWT. rewrite (Split_three _ _ _ Hh Hp).
  cbn [List.length nth].
  destruct (Z.ltb_spec (Z.of_nat (S (S (List.length (strings.Split signature "."))))) 2);
    [lia | reflexivity].
Qed.

(** X12: [parseJWT] reads the second segment only: two tokens with the
    same dot-free second segment give the same result, whatever their
    first segments (dot-free) and whatever follows the second dot.  No
    signature is checked. *)
Theorem parseJWT_ignores_header_and_signature (env : Env)
  (header1 header2 payload signature1 signature2 : string) :
  strings.ContainsByte header1 "." = false ->
  strings.ContainsByte header2 "." = false ->
  strings.ContainsByte payload "." = false ->
  parseJWT env (header1 ++ "." ++ payload ++ "." ++ signature1)
  = parseJWT env (header2 ++ "." ++ payload ++ "." ++ signature2).
Proof.
  intros H1 H2 Hp. now rewrite !parseJWT_three.
Qed.

Lemma parseJWT_ignores_header_and_signature_witness :
  parseJWT Sample.env
    ("eyJhbGciOiJub25lIn0" ++ "."
     ++ "eyJpc3MiOiJodHRwczovL2lkcC5leGFtcGxlIiwic3ViIjoiYWxpY2UifQ" ++ "." ++ "c2ln")
  = parseJWT Sample.env
      ("forged" ++ "."
       ++ "eyJpc3MiOiJodHRwczovL2lkcC5leGFtcGxlIiwic3ViIjoiYWxpY2UifQ" ++ "."
       ++ "not.a.signature").
Proof.
  apply (parseJWT_ignores_header_and_signature Sample.env
           "eyJhbGciOiJub25lIn0" "forged"
           "eyJpc3MiOiJodHRwczovL2lkcC5leGFtcGxlIiwic3ViIjoiYWxpY2UifQ"
           "c2ln" "not.a.signature"); reflexivity.
Defined.

(** X13: [parseJWT] returns the bytes that were encoded: for a token
    whose second segment is the raw URL-safe base64 of [claims], it
    yields [claims], for every byte string [claims]. *)
Theorem parseJWT_reads_payload (env : Env) (header claims signature : string) :
  strings.ContainsByte header "." = false ->
  parseJWT env
    (header ++ "." ++ base64.EncodeToString base64.RawURLEncoding claims
     ++ "." ++ signature)
  = Ok claims.
Proof.
  intros Hh. rewrite (parseJWT_three _ _ _ _ Hh (EncodeToString_raw_no_dot claims)).
  unfold base64.DecodeString. now rewrite raw_roundtrip.
Qed.

Lemma parseJWT_reads_payload_witness :
  parseJWT Sample.env
    ("eyJhbGciOiJub25lIn0" ++ "."
     ++ base64.EncodeToString base64.RawURLEncoding Sample.idTokenPayload
     ++ "." ++ "c2ln")
  = Ok Sample.idTokenPayload.
Proof.
  apply (parseJWT_reads_payload Sample.env "eyJhbGciOiJub25lIn0"
           Sample.idTokenPayload "c2ln").
  reflexivity.
Defined.

(** ** The claims of the ID token *)

Lemma plain_iss : plainName "iss".
Proof. intros X. reflexivity. Qed.

Lemma plain_sub : plainName "sub".
Proof. intros X. reflexivity. Qed.

Lemma marshalStruct_one k v :
  json.marshalStruct [(k, v)]
  = String "{" (String json.dq (k ++ String json.dq (String ":" (String json.dq
      (json.escapeString v ++ String json.dq "}"))))).
Proof.
  unfold json.marshalStruct, json.marshalMembers, json.quote.
  do 4 (rewrite ?append_assoc; cbn [append]). reflexivity.
Qed.

Lemma parse_marshal_one k v :
  plainName k -> utf8.ValidString v = true ->
  json.parse (json.marshalStruct [(k, v)]) = Some (json.Object [(k, json.Str v)]).
Proof.
  intros Hk Hv. unfold json.parse. rewrite marshalStruct_one.
  match goal with
  | |- context [json.parseValue (S (String.length ?d))] =>
      assert (Hfuel : exists n, String.length d = S (S (S (S n))))
  end.
  { match goal with |- exists n, ?l = _ => exists (l - 4)%nat end.
    cbn [String.length]. rewrite !length_append. cbn [String.length].
    rewrite !length_append. cbn [String.length]. lia. }
  destruct Hfuel as [n ->].
  erewrite parseValue_object.
  2:{ eapply parseMembers_last.
      - apply Hk.
      - apply parseValue_string. apply unquote_escape. assumption. }
  reflexivity.
Qed.

Lemma Unmarshal_idToken_claims (iss sub : string) :
  utf8.ValidString iss = true -> utf8.ValidString sub = true ->
  Unmarshal_idToken (json.marshalStruct [("iss", iss); ("sub", sub)]) = Ok (sub, iss).
Proof.
  intros Hi Hs. unfold Unmarshal_idToken, jsonstruct.Unmarshal.
  rewrite (parse_marshal_two _ _ _ _ plain_iss plain_sub Hi Hs). reflexivity.
Qed.

Lemma Unmarshal_idToken_issuer_only (iss : string) :
  utf8.ValidString iss = true ->
  Unmarshal_idToken (json.marshalStruct [("iss", iss)]) = Ok ("", iss).
Proof.
  intros Hi. unfold Unmarshal_idToken, jsonstruct.Unmarshal.
  rewrite (parse_marshal_one _ _ plain_iss Hi). reflexivity.
Qed.

(** X14: from the token of the provider to the identity of the bind
    step.  For a JWT whose payload is the JSON object of an issuer and a
    subject (valid UTF-8), the payload [parseJWT] extracts at the callback
    is decoded at the bind step into that subject and that issuer. *)
Theorem jwt_identity (env : Env) (header iss sub signature : string) :
  strings.ContainsByte header "." = false ->
  utf8.ValidString iss = true ->
  utf8.ValidString sub = true ->
  exists claims,
    parseJWT env
      (header ++ "."
       ++ base64.EncodeToString base64.RawURLEncoding
            (json.marshalStruct [("iss", iss); ("sub", sub)])
       ++ "." ++ signature)
    = Ok claims
    /\ Unmarshal_idToken claims = Ok (sub, iss).
Proof.
  intros Hh Hi Hs. eexists. split.
  - rewrite (parseJWT_three _ _ _ _ Hh (EncodeToString_raw_no_dot _)).
    unfold base64.DecodeString. rewrite raw_roundtrip. reflexivity.
  - now apply Unmarshal_idToken_claims.
Qed.

Lemma jwt_identity_witness :
  exists claims,
    parseJWT Sample.env
      ("eyJhbGciOiJub25lIn0" ++ "."
       ++ base64.EncodeToString base64.RawURLEncoding
            (json.marshalStruct [("iss", "https://idp.example"); ("sub", "alice")])
       ++ "." ++ "c2ln")
    = Ok claims
    /\ Unmarshal_idToken claims = Ok ("alice", "https://idp.example").
Proof.
  apply (jwt_identity Sample.env "eyJhbGciOiJub25lIn0" "https://idp.example" "alice"
           "c2ln"); reflexivity.
Defined.

(** X15: the bind step does not require a subject.  With a session
    whose ID token is a JSON object that has an [iss] but no [sub], the
    credential minting is called with the empty subject. *)
Theorem handleBind_mints_without_subject (env : Env) (h : handler) (r : http.Request)
  (ck iss : string) (state : cookie.SessionState) :
  http.Cookie (http.Cookies r) ("kube-bind-" ++ http.Get (http.URL_Query r) "s") = Ok ck ->
  cookie_Decode env ck = Ok state ->
  cookie.IDToken state = json.marshalStruct [("iss", iss)] ->
  utf8.ValidString iss = true ->
  In (http.CallHandleResources ""
        (http.Get (http.URL_Query r) "resource") (http.Get (http.URL_Query r) "group")
        (isOk (HandleResources (kubeManager h) ""
                 (http.Get (http.URL_Query r) "resource")
                 (http.Get (http.URL_Query r) "group"))))
     (fst (handleBind env h r)).
Proof.
  intros Hck Hdec Hid Hv. unfold handleBind.
  rewrite Hck, Hdec, Hid, (Unmarshal_idToken_issuer_only _ Hv).
  repeat branch; cbn [fst isOk]; apply in_or_app; right; left; reflexivity.
Qed.

Lemma handleBind_mints_without_subject_witness :
  In (http.CallHandleResources "" "widgets" "example.io" true)
     (fst (handleBind Sample.env Sample.h
             (Sample.request "/bind"
                [("s", "abc123"); ("group", "example.io"); ("resource", "widgets")]
                [("kube-bind-abc123",
                  "eyJBY2Nlc3NUb2tlbiI6IiIsIklEVG9rZW4iOiJ7XCJpc3NcIjpcImh0dHBzOi8vaWRwLmV4YW1wbGVcIn0iLCJSZWZyZXNoVG9rZW4iOiIiLCJSZWRpcmVjdFVSTCI6IiIsIlNlc3Npb25JRCI6IiJ9")]))).
Proof.
  apply (handleBind_mints_without_subject Sample.env Sample.h
           (Sample.request "/bind"
              [("s", "abc123"); ("group", "example.io"); ("resource", "widgets")]
              [("kube-bind-abc123",
                "eyJBY2Nlc3NUb2tlbiI6IiIsIklEVG9rZW4iOiJ7XCJpc3NcIjpcImh0dHBzOi8vaWRwLmV4YW1wbGVcIn0iLCJSZWZyZXNoVG9rZW4iOiIiLCJSZWRpcmVjdFVSTCI6IiIsIlNlc3Npb25JRCI6IiJ9")])
           "eyJBY2Nlc3NUb2tlbiI6IiIsIklEVG9rZW4iOiJ7XCJpc3NcIjpcImh0dHBzOi8vaWRwLmV4YW1wbGVcIn0iLCJSZWZyZXNoVG9rZW4iOiIiLCJSZWRpcmVjdFVSTCI6IiIsIlNlc3Npb25JRCI6IiJ9"
           "https://idp.example"
           {| cookie.CreatedAt := 0; cookie.ExpiresOn := 0;
              cookie.AccessToken := "";
              cookie.IDToken := json.marshalStruct [("iss", "https://idp.example")];
              cookie.RefreshToken := ""; cookie.RedirectURL := "";
              cookie.SessionID := "" |});
    vm_compute; reflexivity.
Defined.

(** ** The resource page *)

Lemma ltb_asym (a b : string) : String.ltb a b = true -> String.ltb b a = false.
Proof.
  unfold String.ltb. rewrite (String.compare_antisym a b).
  destruct (String.compare b a); cbn; congruence.
Qed.

Lemma insertByName_perm (c : CustomResourceDefinition) (l : list CustomResourceDefinition) :
  Permutation (c :: l) (insertByName c l).
Proof.
  induction l as [|d rest IH]; cbn [insertByName].
  - apply Permutation_refl.
  - destruct (String.ltb (crd_Name d) (crd_Name c)).
    + eapply perm_trans; [apply perm_swap|]. now apply perm_skip.
    + apply Permutation_refl.
Qed.

Lemma sortByName_perm (l : list CustomResourceDefinition) :
  Permutation l (sortByName l).
Proof.
  unfold sortByName. induction l as [|c l IH]; cbn [fold_right].
  - apply perm_nil.
  - eapply perm_trans; [apply perm_skip, IH | apply insertByName_perm].
Qed.

Lemma sortedByName_cons (c : CustomResourceDefinition) (l : list CustomResourceDefinition) :
  sortedByName (c :: l)
  = match l with
    | [] => true
    | d :: _ => negb (String.ltb (crd_Name d) (crd_Name c)) && sortedByName l
    end.
Proof. destruct l; reflexivity. Qed.

Lemma insertByName_sorted (c : CustomResourceDefinition)
  (l : list CustomResourceDefinition) :
  sortedByName l = true -> sortedByName (insertByName c l) = true.
Proof.
  induction l as [|d rest IH]; intros Hl; cbn [insertByName].
  - reflexivity.
  - destruct (String.ltb (crd_Name d) (crd_Name c)) eqn:Hdc.
    + rewrite sortedByName_cons in Hl. rewrite sortedByName_cons.
      destruct rest as [|e rest'].
      * cbn [insertByName]. now rewrite (ltb_asym _ _ Hdc).
      * apply andb_true_iff in Hl as [Hde Hrest].
        specialize (IH Hrest). rewrite IH.
        cbn [insertByName] in *.
        destruct (String.ltb (crd_Name e) (crd_Name c)).
        -- now rewrite Hde.
        -- now rewrite (ltb_asym _ _ Hdc).
    + rewrite sortedByName_cons. now rewrite Hdc, Hl.
Qed.

Lemma ltb_irrefl (a : string) : String.ltb a a = false.
Proof.
  unfold String.ltb. pose proof (String.compare_antisym a a) as H.
  destruct (String.compare a a); cbn in H; first [reflexivity | discriminate H].
Qed.

Lemma insertByName_named (n : string) (c : CustomResourceDefinition)
  (l : list CustomResourceDefinition) :
  filter (fun d => String.eqb (crd_Name d) n) (insertByName c l)
  = filter (fun d => String.eqb (crd_Name d) n) (c :: l).
Proof.
  induction l as [|d rest IH]; cbn [insertByName]; [reflexivity|].
  destruct (String.ltb (crd_Name d) (crd_Name c)) eqn:Hdc; [|reflexivity].
  cbn [filter] in *. rewrite IH.
  destruct (String.eqb_spec (crd_Name c) n) as [Hc|Hc];
    destruct (String.eqb_spec (crd_Name d) n) as [Hd|Hd]; try reflexivity.
  rewrite Hc, Hd, ltb_irrefl in Hdc. discriminate Hdc.
Qed.

Lemma sortByName_named (n : string) (l : list CustomResourceDefinition) :
  filter (fun d => String.eqb (crd_Name d) n) (sortByName l)
  = filter (fun d => String.eqb (crd_Name d) n) l.
Proof.
  unfold sortByName. induction l as [|c l IH]; cbn [fold_right]; [reflexivity|].
  rewrite insertByName_named. cbn [filter]. now rewrite IH.
Qed.

Lemma sortByName_sorted (l : list CustomResourceDefinition) :
  sortedByName (sortByName l) = true.
Proof.
  unfold sortByName. induction l as [|c l IH]; cbn [fold_right].
  - reflexivity.
  - now apply insertByName_sorted.
Qed.

Lemma sorted_distinct_increasing (l : list CustomResourceDefinition) :
  sortedByName l = true -> NoDup (map crd_Name l) -> increasingByName l = true.
Proof.
  induction l as [|c rest IH]; [reflexivity|].
  destruct rest as [|d rest']; [reflexivity|].
  intros Hs Hn. rewrite sortedByName_cons in Hs.
  apply andb_true_iff in Hs as [Hdc Hrest].
  apply negb_true_iff in Hdc.
  inversion Hn as [|x xs Hnotin Hn' [Hx Hxs]]. subst.
  change (increasingByName (c :: d :: rest'))
    with (String.ltb (crd_Name c) (crd_Name d) && increasingByName (d :: rest')).
  rewrite (IH Hrest Hn'), andb_true_r.
  assert (Hne : crd_Name d <> crd_Name c).
  { intros E. apply Hnotin. left. exact E. }
  unfold String.ltb in *. rewrite (String.compare_antisym (crd_Name c) (crd_Name d)).
  destruct (String.compare (crd_Name d) (crd_Name c)) eqn:Hc; cbn.
  - apply String.compare_eq_iff in Hc. contradiction.
  - discriminate Hdc.
  - reflexivity.
Qed.

(** X16: without an override, and when the listing succeeds, the page
    is rendered from the listed resource definitions rearranged so that
    their names do not decrease, none lost and none added; when the names
    are distinct, as those of the definitions of a cluster are, they
    increase, which fixes the order.  What the template returns is the
    body, and a template failure gives the generic 500. *)
Theorem handleResources_lists_sorted (env : Env) (h : handler) (r : http.Request)
  (crds : list CustomResourceDefinition) :
  testingAutoSelect h = "" ->
  apiextensionsLister h = Ok crds ->
  exists sorted,
    Permutation crds sorted
    /\ sortedByName sorted = true
    /\ (NoDup (map crd_Name crds) -> increasingByName sorted = true)
    /\ snd (handleResources env h r)
       = match template_Execute env (http.Get (http.URL_Query r) "s") sorted with
         | Ok bs => http.Write bs
         | Err _ => http.Error "internal error" 500
         end.
Proof.
  intros Hq Hl. exists (sortByName crds).
  split; [apply sortByName_perm|]. split; [apply sortByName_sorted|]. split.
  - intros Hn. apply sorted_distinct_increasing; [apply sortByName_sorted|].
    eapply Permutation_NoDup; [|exact Hn].
    apply Permutation_map, sortByName_perm.
  - unfold handleResources. rewrite Hq, Hl. cbn [String.eqb negb].
    destruct (template_Execute env _ _); reflexivity.
Qed.

(** X28: the sort of [handleResources] is stable, as [sort.SliceStable]
    is: the sorted list has the names in non-decreasing order and, for
    every name, the resource definitions of that name are the listed ones
    of that name in their listing order.  The two together fix the sorted
    list. *)
Theorem sortByName_stable (l : list CustomResourceDefinition) :
  sortedByName (sortByName l) = true
  /\ forall n : string,
       filter (fun d => String.eqb (crd_Name d) n) (sortByName l)
       = filter (fun d => String.eqb (crd_Name d) n) l.
Proof.
  split; [apply sortByName_sorted | intros n; apply sortByName_named].
Qed.

(** Two definitions of one name stay in their listing order, behind a
    definition of a smaller name that was listed after them. *)
Lemma sortByName_equal_names :
  sortByName [ {| crd_Name := "x"; crd_Rest := "first" |};
               {| crd_Name := "x"; crd_Rest := "second" |};
               {| crd_Name := "a"; crd_Rest := "third" |} ]
  = [ {| crd_Name := "a"; crd_Rest := "third" |};
      {| crd_Name := "x"; crd_Rest := "first" |};
      {| crd_Name := "x"; crd_Rest := "second" |} ].
Proof. reflexivity. Qed.

Lemma handleResources_lists_sorted_witness :
  exists sorted,
    Permutation
      [ {| crd_Name := "widgets.example.io"; crd_Rest := "" |};
        {| crd_Name := "gadgets.example.io"; crd_Rest := "" |} ] sorted
    /\ sortedByName sorted = true
    /\ (NoDup (map crd_Name
                 [ {| crd_Name := "widgets.example.io"; crd_Rest := "" |};
                   {| crd_Name := "gadgets.example.io"; crd_Rest := "" |} ]) ->
        increasingByName sorted = true)
    /\ snd (handleResources Sample.env
              {| oidc := Sample.provider;
                 backendCallbackURL := "http://backend.example/callback";
                 providerPrettyName := "Example Backend";
                 testingAutoSelect := "";
                 apiextensionsLister :=
                   Ok [ {| crd_Name := "widgets.example.io"; crd_Rest := "" |};
                        {| crd_Name := "gadgets.example.io"; crd_Rest := "" |} ];
                 kubeManager := Sample.manager |}
              (Sample.request "/resources" [("s", "abc123")] []))
       = match template_Execute Sample.env
                 (http.Get (http.URL_Query
                              (Sample.request "/resources" [("s", "abc123")] [])) "s")
                 sorted with
         | Ok bs => http.Write bs
         | Err _ => http.Error "internal error" 500
         end.
Proof.
  apply (handleResources_lists_sorted Sample.env _ _ _); reflexivity.
Defined.

(** ** The constructor *)

(** X17: [NewHandler] never fails, and the handler it returns works
    with the values it was given: it lists the resource definitions
    exactly when the override it was given is empty, and the export
    endpoint announces the pretty name it was given. *)
Theorem NewHandler_lists_iff_no_override (env : Env) (provider : OIDCServiceProvider)
  (callbackURL prettyName autoSelect : string)
  (mgr : Manager) (lister : result (list CustomResourceDefinition))
  (r : http.Request) :
  exists h,
    NewHandler provider callbackURL prettyName autoSelect mgr lister = Ok h
    /\ listedOrRendered (handleResources env h r) = String.eqb autoSelect ""
    /\ (forall marshal : APIServiceProviderSpec -> result string,
          snd (handleServiceExport env h marshal r)
          = match marshal {| AuthenticatedClientURL := "http://" ++ http.Host r ++ "/authorize";
                             ProviderPrettyName := prettyName |} with
            | Ok bs => http.Write bs
            | Err err => http.Error (ErrorText env err) 500
            end).
Proof.
  eexists. split; [reflexivity|]. split.
  - unfold listedOrRendered, handleResources, prepareNoCache.
    cbn [testingAutoSelect apiextensionsLister].
    destruct (String.eqb autoSelect "") eqn:Hq; cbn [negb].
    + repeat branch; reflexivity.
    + repeat branch; reflexivity.
  - intros marshal. unfold handleServiceExport.
    cbn [providerPrettyName]. destruct (marshal _); reflexivity.
Qed.

(** ** What each handler reads *)

(** X18: each handler reads its own fields of the handler value only:
    /authorize and /callback answer alike under two handlers with the
    same identity provider, /bind under two with the same manager,
    /resources under two with the same override and the same lister,
    /export under two with the same pretty name.  No handler reads the
    callback URL given to [NewHandler]. *)
Theorem handlers_read_their_fields (env : Env) (h h' : handler)
  (marshal : APIServiceProviderSpec -> result string) (r : http.Request) :
  (oidc h = oidc h' ->
   handleAuthorize env h r = handleAuthorize env h' r
   /\ handleCallback env h r = handleCallback env h' r)
  /\ (kubeManager h = kubeManager h' -> handleBind env h r = handleBind env h' r)
  /\ (testingAutoSelect h = testingAutoSelect h' ->
      apiextensionsLister h = apiextensionsLister h' ->
      handleResources env h r = handleResources env h' r)
  /\ (providerPrettyName h = providerPrettyName h' ->
      handleServiceExport env h marshal r = handleServiceExport env h' marshal r).
Proof.
  split; [|split; [|split]].
  - intros H. split.
    + unfold handleAuthorize. now rewrite H.
    + unfold handleCallback. now rewrite H.
  - intros H. unfold handleBind. now rewrite H.
  - intros H1 H2. unfold handleResources. now rewrite H1, H2.
  - intros H. unfold handleServiceExport. now rewrite H.
Qed.

Lemma handlers_read_their_fields_witness :
  (handleAuthorize Sample.env Sample.h
     (Sample.request "/authorize" [("u", "https://consumer.example/cb"); ("s", "abc123")] [])
   = handleAuthorize Sample.env (withAutoSelect Sample.h "widgets.example.io")
       (Sample.request "/authorize"
          [("u", "https://consumer.example/cb"); ("s", "abc123")] [])
   /\ handleCallback Sample.env Sample.h
        (Sample.request "/authorize"
           [("u", "https://consumer.example/cb"); ("s", "abc123")] [])
      = handleCallback Sample.env (withAutoSelect Sample.h "widgets.example.io")
          (Sample.request "/authorize"
             [("u", "https://consumer.example/cb"); ("s", "abc123")] []))
  /\ handleBind Sample.env Sample.h
       (Sample.request "/authorize"
          [("u", "https://consumer.example/cb"); ("s", "abc123")] [])
     = handleBind Sample.env (withAutoSelect Sample.h "widgets.example.io")
         (Sample.request "/authorize"
            [("u", "https://consumer.example/cb"); ("s", "abc123")] []).
Proof.
  split.
  - apply (proj1 (handlers_read_their_fields Sample.env Sample.h
                    (withAutoSelect Sample.h "widgets.example.io")
                    (fun _ => Ok "") _)).
    reflexivity.
  - apply (proj1 (proj2 (handlers_read_their_fields Sample.env Sample.h
                           (withAutoSelect Sample.h "widgets.example.io")
                           (fun _ => Ok "") _))).
    reflexivity.
Defined.

(** X19: each handler reads its own parts of the request only:
    /authorize and /resources answer alike to two requests with the same
    URL query, so the resource page is served without any cookie being
    looked at; /bind answers alike to two requests with the same URL
    query and the same cookies; /export to two requests with the same
    host. *)
Theorem handlers_read_their_inputs (env : Env) (h : handler)
  (marshal : APIServiceProviderSpec -> result string) (r r' : http.Request) :
  (http.URL_Query r = http.URL_Query r' ->
   handleAuthorize env h r = handleAuthorize env h r'
   /\ handleResources env h r = handleResources env h r')
  /\ (http.URL_Query r = http.URL_Query r' ->
      http.Cookies r = http.Cookies r' ->
      handleBind env h r = handleBind env h r')
  /\ (http.Host r = http.Host r' ->
      handleServiceExport env h marshal r = handleServiceExport env h marshal r').
Proof.
  split; [|split].
  - intros H. split.
    + unfold handleAuthorize. now rewrite H.
    + unfold handleResources. now rewrite H.
  - intros H1 H2. unfold handleBind. now rewrite H1, H2.
  - intros H. unfold handleServiceExport. now rewrite H.
Qed.

Lemma handlers_read_their_inputs_witness :
  (handleAuthorize Sample.env Sample.h (Sample.request "/resources" [("s", "abc123")] [])
   = handleAuthorize Sample.env Sample.h
       (Sample.request "/elsewhere" [("s", "abc123")] [("kube-bind-abc123", "x")])
   /\ handleResources Sample.env Sample.h (Sample.request "/resources" [("s", "abc123")] [])
      = handleResources Sample.env Sample.h
          (Sample.request "/elsewhere" [("s", "abc123")] [("kube-bind-abc123", "x")]))
  /\ handleServiceExport Sample.env Sample.h (fun _ => Ok "")
       (Sample.request "/resources" [("s", "abc123")] [])
     = handleServiceExport Sample.env Sample.h (fun _ => Ok "")
         (Sample.request "/elsewhere" [("s", "abc123")] [("kube-bind-abc123", "x")]).
Proof.
  split.
  - apply (proj1 (handlers_read_their_inputs Sample.env Sample.h (fun _ => Ok "") _ _)).
    reflexivity.
  - apply (proj2 (proj2 (handlers_read_their_inputs Sample.env Sample.h
                           (fun _ => Ok "") _ _))).
    reflexivity.
Defined.

(** ** The export endpoint and the routes *)

(** X20: when /export answers with a body, that body is the encoding of
    a provider whose authenticated client URL is [http://<Host>] followed
    by a path that [AddRoutes] gives to [handleAuthorize], and the only
    header set is the JSON content type. *)
Theorem handleServiceExport_advertises_authorize (env : Env) (h : handler)
  (marshal : APIServiceProviderSpec -> result string) (r : http.Request) (bs : string) :
  snd (handleServiceExport env h marshal r) = http.Write bs ->
  exists path,
    marshal {| AuthenticatedClientURL := "http://" ++ http.Host r ++ path;
               ProviderPrettyName := providerPrettyName h |} = Ok bs
    /\ Match AddRoutes path = Some AuthorizeEndpoint
    /\ fst (handleServiceExport env h marshal r)
       = [http.SetHeader "Content-Type" "application/json"].
Proof.
  unfold handleServiceExport. intros H. exists "/authorize".
  destruct (marshal _) as [bs' | err] eqn:E; [|discriminate H].
  injection H as <-. repeat split.
Qed.

Lemma handleServiceExport_advertises_authorize_witness :
  exists path,
    (fun spec => Ok (AuthenticatedClientURL spec ++ " " ++ ProviderPrettyName spec))
      {| AuthenticatedClientURL :=
           "http://" ++ http.Host (Sample.request "/export" [] []) ++ path;
         ProviderPrettyName := providerPrettyName Sample.h |}
    = Ok "http://backend.example/authorize Example Backend"
    /\ Match AddRoutes path = Some AuthorizeEndpoint
    /\ fst (handleServiceExport Sample.env Sample.h
              (fun spec => Ok (AuthenticatedClientURL spec ++ " " ++ ProviderPrettyName spec))
              (Sample.request "/export" [] []))
       = [http.SetHeader "Content-Type" "application/json"].
Proof.
  apply (handleServiceExport_advertises_authorize Sample.env Sample.h
           (fun spec => Ok (AuthenticatedClientURL spec ++ " " ++ ProviderPrettyName spec))
           (Sample.request "/export" [] [])
           "http://backend.example/authorize Example Backend").
  reflexivity.
Defined.

(** X21: no route shadows another: the router picks an endpoint for a
    path exactly when [AddRoutes] registers that pair. *)
Theorem AddRoutes_no_shadowing (path : string) (e : Endpoint) :
  Match AddRoutes path = Some e <-> In (path, e) AddRoutes.
Proof.
  unfold AddRoutes. cbn [Match In]. split.
  - repeat match goal with
           | |- context [String.eqb ?a path] => destruct (String.eqb_spec a path)
           end; intros H; try discriminate H; injection H as <-; subst; auto 10.
  - intros H.
    repeat match goal with
           | H : _ \/ _ |- _ => destruct H as [H | H]
           end;
      try (injection H as <- <-; reflexivity).
    destruct H.
Qed.

(** ** The options *)

(** X22: [Validate] returns nil exactly when the namespace prefix and
    the pretty name are not empty and the OIDC options validate; an
    empty namespace prefix is reported first, then an empty pretty
    name. *)
Theorem Validate_nil_iff (OIDC Serve : Type) (OIDC_Validate : OIDC -> option error)
  (c : options.CompletedOptions OIDC Serve) :
  (options.Validate OIDC_Validate c = None
   <-> options.NamespacePrefix (options.c_Extra c) <> ""
       /\ options.PrettyName (options.c_Extra c) <> ""
       /\ OIDC_Validate (options.c_OIDC c) = None)
  /\ (options.NamespacePrefix (options.c_Extra c) = "" ->
      options.Validate OIDC_Validate c
      = Some (errorString "namespace prefix cannot be empty"))
  /\ (options.NamespacePrefix (options.c_Extra c) <> "" ->
      options.PrettyName (options.c_Extra c) = "" ->
      options.Validate OIDC_Validate c
      = Some (errorString "pretty name cannot be empty")).
Proof.
  unfold options.Validate.
  destruct (String.eqb_spec (options.NamespacePrefix (options.c_Extra c)) "") as [Hn | Hn];
    [|destruct (String.eqb_spec (options.PrettyName (options.c_Extra c)) "") as [Hp | Hp]].
  - repeat split; try congruence; try discriminate.
    intros (H & _). congruence.
  - repeat split; try congruence; try discriminate.
    intros (_ & H & _). congruence.
  - destruct (OIDC_Validate (options.c_OIDC c)) eqn:Hv;
      repeat split; try congruence; try discriminate.
    intros (_ & _ & H). discriminate H.
Qed.

(** X23: [Complete] never changes the logging and the extra options.
    When it succeeds both groups completed without error and the result
    holds the options' own settings and the two groups as completed; when
    it fails the error is that of the OIDC group, the serve group being
    left untouched, or else that of the serve group. *)
Theorem Complete_keeps_settings (OIDC Serve : Type)
  (OIDC_Complete : OIDC -> OIDC * option error)
  (Serve_Complete : Serve -> Serve * option error)
  (o : options.Options OIDC Serve) :
  options.Extra (fst (options.Complete OIDC_Complete Serve_Complete o)) = options.Extra o
  /\ options.Logs (fst (options.Complete OIDC_Complete Serve_Complete o)) = options.Logs o
  /\ match snd (options.Complete OIDC_Complete Serve_Complete o) with
     | Ok c =>
         snd (OIDC_Complete (options.OIDC_ o)) = None
         /\ snd (Serve_Complete (options.Serve_ o)) = None
         /\ options.c_Extra c = options.Extra o
         /\ options.c_Logs c = options.Logs o
         /\ options.c_OIDC c = fst (OIDC_Complete (options.OIDC_ o))
         /\ options.c_Serve c = fst (Serve_Complete (options.Serve_ o))
     | Err err =>
         (snd (OIDC_Complete (options.OIDC_ o)) = Some err
          /\ options.Serve_ (fst (options.Complete OIDC_Complete Serve_Complete o))
             = options.Serve_ o)
         \/ (snd (OIDC_Complete (options.OIDC_ o)) = None
             /\ snd (Serve_Complete (options.Serve_ o)) = Some err)
     end.
Proof.
  unfold options.Complete.
  destruct (OIDC_Complete (options.OIDC_ o)) as [oidc' [e1|]];
    [|destruct (Serve_Complete (options.Serve_ o)) as [serve' [e2|]]];
    cbn; repeat split; auto.
Qed.

(** X24: the defaults pass the local checks.  When [Complete] succeeds
    on the options of [NewOptions], [Validate] returns what the OIDC
    group's own validation returns; the override is off and the verbosity
    is 2. *)
Theorem NewOptions_validates (OIDC Serve : Type) (logs_NewOptions : options.LogsOptions)
  (NewOIDC : OIDC) (NewServe : Serve)
  (OIDC_Complete : OIDC -> OIDC * option error)
  (Serve_Complete : Serve -> Serve * option error)
  (OIDC_Validate : OIDC -> option error)
  (c : options.CompletedOptions OIDC Serve) :
  snd (options.Complete OIDC_Complete Serve_Complete
         (options.NewOptions logs_NewOptions NewOIDC NewServe)) = Ok c ->
  options.Validate OIDC_Validate c = OIDC_Validate (fst (OIDC_Complete NewOIDC))
  /\ options.TestingAutoSelect (options.c_Extra c) = ""
  /\ options.Verbosity (options.c_Logs c) = 2.
Proof.
  unfold options.Complete, options.NewOptions. cbn [options.OIDC_ options.Serve_].
  destruct (OIDC_Complete NewOIDC) as [oidc' [e1|]]; [discriminate|].
  destruct (Serve_Complete NewServe) as [serve' [e2|]]; [discriminate|].
  cbn. intros H. injection H as <-. unfold options.Validate. cbn.
  destruct (OIDC_Validate oidc'); repeat split.
Qed.


Lemma Validate_nil_iff_witness :
  options.Validate (fun _ : unit => None)
    {| options.c_Logs := {| options.Verbosity := 2; options.logs_Rest := "" |};
       options.c_OIDC := tt; options.c_Serve := tt;
       options.c_Extra := {| options.KubeConfig := ""; options.NamespacePrefix := "";
                             options.PrettyName := ""; options.TestingAutoSelect := "" |} |}
  = Some (errorString "namespace prefix cannot be empty")
  /\ options.Validate (fun _ : unit => None)
       {| options.c_Logs := {| options.Verbosity := 2; options.logs_Rest := "" |};
          options.c_OIDC := tt; options.c_Serve := tt;
          options.c_Extra := {| options.KubeConfig := ""; options.NamespacePrefix := "cluster";
                                options.PrettyName := ""; options.TestingAutoSelect := "" |} |}
     = Some (errorString "pretty name cannot be empty").
Proof.
  split.
  - apply (proj1 (proj2 (Validate_nil_iff unit unit (fun _ => None) _))). reflexivity.
  - apply (proj2 (proj2 (Validate_nil_iff unit unit (fun _ => None) _)));
      [discriminate | reflexivity].
Defined.

Lemma NewOptions_validates_witness :
  options.Validate (fun _ : unit => None)
    {| options.c_Logs := {| options.Verbosity := 2; options.logs_Rest := "" |};
       options.c_OIDC := tt; options.c_Serve := tt;
       options.c_Extra := {| options.KubeConfig := ""; options.NamespacePrefix := "cluster";
                             options.PrettyName := "Example Backend";
                             options.TestingAutoSelect := "" |} |}
  = (fun _ : unit => None) (fst ((fun o : unit => (o, @None error)) tt))
  /\ options.TestingAutoSelect
       (options.c_Extra
          {| options.c_Logs := {| options.Verbosity := 2; options.logs_Rest := "" |};
             options.c_OIDC := tt; options.c_Serve := tt;
             options.c_Extra := {| options.KubeConfig := "";
                                   options.NamespacePrefix := "cluster";
                                   options.PrettyName := "Example Backend";
                                   options.TestingAutoSelect := "" |} |}) = ""
  /\ options.Verbosity
       (options.c_Logs
          {| options.c_Logs := {| options.Verbosity := 2; options.logs_Rest := "" |};
             options.c_OIDC := tt; options.c_Serve := tt;
             options.c_Extra := {| options.KubeConfig := "";
                                   options.NamespacePrefix := "cluster";
                                   options.PrettyName := "Example Backend";
                                   options.TestingAutoSelect := "" |} |}) = 2.
Proof.
  apply (NewOptions_validates unit unit
           {| options.Verbosity := 0; options.logs_Rest := "" |} tt tt
           (fun o => (o, None)) (fun s => (s, None)) (fun _ => None)).
  reflexivity.
Defined.

(** ** The reconciler *)

Section ReconcilerProperties.

Variable ErrorText : error -> string.
Variable IsNotFound : error -> bool.
Variable conditions_Set :
  serviceexport.APIServiceExport -> serviceexport.Condition ->
  serviceexport.APIServiceExport.
Variable ServiceExportResourceToCRD :
  serviceexport.APIServiceExportResource -> result CustomResourceDefinition.
Variable rec : serviceexport.reconciler.

Let step := serviceexport.ensureResource ErrorText IsNotFound conditions_Set
              ServiceExportResourceToCRD rec.
Let hard := hardError IsNotFound (serviceexport.getServiceExportResource rec).
Let bad := unusable IsNotFound ServiceExportResourceToCRD
             (serviceexport.getServiceExportResource rec).

Lemma ensureResource_errs st gr :
  serviceexport.errs (step st gr) = (serviceexport.errs st ++ hard gr)%list.
Proof.
  unfold step, hard, serviceexport.ensureResource, hardError, lookupName.
  repeat branch; cbn [serviceexport.errs negb] in *;
    rewrite ?app_nil_r; first [reflexivity | discriminate].
Qed.

Lemma fold_ensureResource_errs l st :
  serviceexport.errs (fold_left step l st)
  = (serviceexport.errs st ++ flat_map hard l)%list.
Proof.
  revert st. induction l as [|gr l IH]; intros st; cbn [fold_left flat_map].
  - now rewrite app_nil_r.
  - rewrite IH, ensureResource_errs, <- app_assoc. reflexivity.
Qed.

Lemma ensureResourcesExist_errs e :
  snd (fst (serviceexport.ensureResourcesExist ErrorText IsNotFound conditions_Set
              ServiceExportResourceToCRD rec e))
  = flat_map hard (serviceexport.Spec_Resources e).
Proof.
  unfold serviceexport.ensureResourcesExist. cbn [fst snd].
  fold step. now rewrite fold_ensureResource_errs.
Qed.

Lemma ensureResource_usable st gr :
  bad (serviceexport.Spec_Scope (serviceexport.export st)) gr = false ->
  serviceexport.export (step st gr) = serviceexport.export st
  /\ serviceexport.resourceValid (step st gr) = serviceexport.resourceValid st.
Proof.
  unfold step, bad, serviceexport.ensureResource, unusable, lookupName.
  destruct (serviceexport.getServiceExportResource rec _) as [found | err].
  - destruct (negb (String.eqb (serviceexport.res_Scope found) serviceexport.NamespaceScoped)
              && negb (String.eqb (serviceexport.Spec_Scope (serviceexport.export st))
                         serviceexport.ClusterScope));
      [discriminate|].
    destruct (ServiceExportResourceToCRD found); [|discriminate].
    intros _. split; reflexivity.
  - destruct (IsNotFound err); [discriminate|].
    intros _. split; reflexivity.
Qed.

Lemma ensureResource_unusable st gr :
  bad (serviceexport.Spec_Scope (serviceexport.export st)) gr = true ->
  serviceexport.resourceValid (step st gr) = false
  /\ exists reason message,
       serviceexport.export (step st gr)
       = serviceexport.MarkFalse conditions_Set (serviceexport.export st)
           serviceexport.APIServiceExportConditionResourcesValid reason
           serviceexport.ConditionSeverityError message.
Proof.
  unfold step, bad, serviceexport.ensureResource, unusable, lookupName.
  destruct (serviceexport.getServiceExportResource rec _) as [found | err].
  - destruct (negb (String.eqb (serviceexport.res_Scope found) serviceexport.NamespaceScoped)
              && negb (String.eqb (serviceexport.Spec_Scope (serviceexport.export st))
                         serviceexport.ClusterScope)).
    + intros _. split; [reflexivity | eexists _, _; reflexivity].
    + destruct (ServiceExportResourceToCRD found); [discriminate|].
      intros _. split; [reflexivity | eexists _, _; reflexivity].
  - destruct (IsNotFound err); [|discriminate].
    intros _. split; [reflexivity | eexists _, _; reflexivity].
Qed.

Hypothesis Set_keeps_scope :
  forall e c, serviceexport.Spec_Scope (conditions_Set e c) = serviceexport.Spec_Scope e.

Lemma fold_ensureResource_marks l st :
  (existsb (bad (serviceexport.Spec_Scope (serviceexport.export st))) l = false ->
   serviceexport.export (fold_left step l st) = serviceexport.export st
   /\ serviceexport.resourceValid (fold_left step l st) = serviceexport.resourceValid st)
  /\ (existsb (bad (serviceexport.Spec_Scope (serviceexport.export st))) l = true ->
      serviceexport.resourceValid (fold_left step l st) = false
      /\ exists e0 reason message,
           serviceexport.export (fold_left step l st)
           = serviceexport.MarkFalse conditions_Set e0
               serviceexport.APIServiceExportConditionResourcesValid reason
               serviceexport.ConditionSeverityError message).
Proof.
  revert st. induction l as [|gr l IH]; intros st; cbn [fold_left existsb].
  - split; [split; reflexivity | discriminate].
  - destruct (bad (serviceexport.Spec_Scope (serviceexport.export st)) gr) eqn:Hgr;
      cbn [orb].
    + destruct (ensureResource_unusable st gr Hgr) as (Hv & reason & message & He).
      assert (Hscope : serviceexport.Spec_Scope (serviceexport.export (step st gr))
                       = serviceexport.Spec_Scope (serviceexport.export st)).
      { rewrite He. unfold serviceexport.MarkFalse. apply Set_keeps_scope. }
      split; [discriminate|]. intros _.
      destruct (IH (step st gr)) as [IHf IHt]. rewrite Hscope in IHf, IHt.
      destruct (existsb (bad (serviceexport.Spec_Scope (serviceexport.export st))) l).
      * apply IHt. reflexivity.
      * destruct (IHf eq_refl) as [Hex Hval]. rewrite Hex, Hval. split; [exact Hv|].
        eexists _, _, _. exact He.
    + destruct (ensureResource_usable st gr Hgr) as [He Hv].
      destruct (IH (step st gr)) as [IHf IHt]. rewrite He in IHf, IHt.
      rewrite Hv in IHf. split; assumption.
Qed.

End ReconcilerProperties.

(** X25: the errors [ensureResourcesExist] returns are exactly the
    lookup errors that are not "not found", in the order of the resources
    of the export; a missing, wrongly scoped or invalid resource is not an
    error. *)
Theorem ensureResourcesExist_reports_hard_errors
  (ErrorText : error -> string) (IsNotFound : error -> bool)
  (conditions_Set : serviceexport.APIServiceExport -> serviceexport.Condition ->
                    serviceexport.APIServiceExport)
  (ServiceExportResourceToCRD :
     serviceexport.APIServiceExportResource -> result CustomResourceDefinition)
  (rec : serviceexport.reconciler) (e : serviceexport.APIServiceExport) :
  snd (fst (serviceexport.ensureResourcesExist ErrorText IsNotFound conditions_Set
              ServiceExportResourceToCRD rec e))
  = flat_map (hardError IsNotFound (serviceexport.getServiceExportResource rec))
      (serviceexport.Spec_Resources e).
Proof. apply ensureResourcesExist_errs. Qed.

(** X26: when setting a condition leaves the scope of the export alone,
    [ensureResourcesExist] ends with the export marked [ResourcesValid]
    true exactly when no resource is missing, wrongly scoped or invalid
    (lookups that failed otherwise do not count), and nothing else was set
    on it; otherwise the last thing set on the export is a false
    [ResourcesValid] of severity error. *)
Theorem ensureResourcesExist_marks
  (ErrorText : error -> string) (IsNotFound : error -> bool)
  (conditions_Set : serviceexport.APIServiceExport -> serviceexport.Condition ->
                    serviceexport.APIServiceExport)
  (ServiceExportResourceToCRD :
     serviceexport.APIServiceExportResource -> result CustomResourceDefinition)
  (rec : serviceexport.reconciler) (e : serviceexport.APIServiceExport) :
  (forall e c, serviceexport.Spec_Scope (conditions_Set e c) = serviceexport.Spec_Scope e) ->
  if existsb (unusable IsNotFound ServiceExportResourceToCRD
                (serviceexport.getServiceExportResource rec) (serviceexport.Spec_Scope e))
       (serviceexport.Spec_Resources e)
  then exists e0 reason message,
         fst (fst (serviceexport.ensureResourcesExist ErrorText IsNotFound conditions_Set
                     ServiceExportResourceToCRD rec e))
         = serviceexport.MarkFalse conditions_Set e0
             serviceexport.APIServiceExportConditionResourcesValid reason
             serviceexport.ConditionSeverityError message
  else fst (fst (serviceexport.ensureResourcesExist ErrorText IsNotFound conditions_Set
                   ServiceExportResourceToCRD rec e))
       = serviceexport.MarkTrue conditions_Set e
           serviceexport.APIServiceExportConditionResourcesValid.
Proof.
  intros Hset. unfold serviceexport.ensureResourcesExist. cbn [fst].
  pose proof (fold_ensureResource_marks ErrorText IsNotFound conditions_Set
                ServiceExportResourceToCRD rec Hset (serviceexport.Spec_Resources e)
                {| serviceexport.export := e; serviceexport.errs := [];
                   serviceexport.resourceValid := true; serviceexport.lookups := [] |})
    as [Hf Ht].
  cbn [serviceexport.export serviceexport.resourceValid] in Hf, Ht.
  destruct (existsb _ _).
  - destruct (Ht eq_refl) as (Hv & e0 & reason & message & He).
    rewrite Hv. eexists _, _, _. exact He.
  - destruct (Hf eq_refl) as [He Hv]. rewrite Hv, He. reflexivity.
Qed.

Lemma ensureResourcesExist_marks_witness :
  fst (fst (serviceexport.ensureResourcesExist Sample.errorText SampleCluster.isNotFound
              SampleCluster.setCondition SampleCluster.toCRD SampleCluster.rec
              (SampleCluster.exportOf ["widgets"; "flaky"])))
  = serviceexport.MarkTrue SampleCluster.setCondition
      (SampleCluster.exportOf ["widgets"; "flaky"])
      serviceexport.APIServiceExportConditionResourcesValid.
Proof.
  exact (ensureResourcesExist_marks Sample.errorText SampleCluster.isNotFound
           SampleCluster.setCondition SampleCluster.toCRD SampleCluster.rec
           (SampleCluster.exportOf ["widgets"; "flaky"])
           (fun e c => eq_refl)).
Defined.

Section ReconcileProperties.

Variable ErrorText : error -> string.
Variable IsNotFound : error -> bool.
Variable conditions_Set :
  serviceexport.APIServiceExport -> serviceexport.Condition ->
  serviceexport.APIServiceExport.
Variable ServiceExportResourceToCRD :
  serviceexport.APIServiceExportResource -> result CustomResourceDefinition.
Variable SetSummary : serviceexport.APIServiceExport -> serviceexport.APIServiceExport.
Variable APIServiceBinding : Type.
Variable binding_Name : APIServiceBinding -> string.
Variable conditions_Get : APIServiceBinding -> string -> option serviceexport.Condition.
Variable Connected SchemaInSync ServiceBindingReady BindingSchemaInSync ReadyCondition
  : string.
Variable listServiceBinding : string -> result (list APIServiceBinding).
Variable getServiceExportResource : string -> result serviceexport.APIServiceExportResource.

Let copied :=
  reconcile.ensureServiceBindingConditionCopied conditions_Set APIServiceBinding
    binding_Name conditions_Get SchemaInSync ServiceBindingReady BindingSchemaInSync
    ReadyCondition.

Hypothesis Set_keeps_resources :
  forall e c,
    serviceexport.Spec_Resources (conditions_Set e c) = serviceexport.Spec_Resources e.

Lemma copied_keeps_resources e b :
  serviceexport.Spec_Resources (copied e b) = serviceexport.Spec_Resources e.
Proof.
  unfold copied, reconcile.ensureServiceBindingConditionCopied,
    serviceexport.MarkFalse.
  repeat branch; now rewrite !Set_keeps_resources.
Qed.

Lemma reconcile_after_listing e bindings :
  listServiceBinding (serviceexport.Name e) = Ok bindings ->
  snd (fst (reconcile.reconcile ErrorText IsNotFound conditions_Set
              ServiceExportResourceToCRD SetSummary APIServiceBinding binding_Name
              conditions_Get Connected SchemaInSync ServiceBindingReady
              BindingSchemaInSync ReadyCondition listServiceBinding
              getServiceExportResource e))
  = reconcile.Aggregate
      (flat_map (hardError IsNotFound getServiceExportResource)
         (serviceexport.Spec_Resources e))
  /\ snd (reconcile.reconcile ErrorText IsNotFound conditions_Set
            ServiceExportResourceToCRD SetSummary APIServiceBinding binding_Name
            conditions_Get Connected SchemaInSync ServiceBindingReady
            BindingSchemaInSync ReadyCondition listServiceBinding
            getServiceExportResource e)
     = map lookupName (serviceexport.Spec_Resources e).
Proof.
  intros Hl. unfold reconcile.reconcile. rewrite Hl.
  match goal with
  | |- context [serviceexport.ensureResourcesExist ?a ?b ?c ?d ?rr ?ee] =>
      pose proof (ensureResourcesExist_errs a b c d rr ee) as He;
      pose proof (ensureResourcesExist_lookups a b c d rr ee) as Hk;
      destruct (serviceexport.ensureResourcesExist a b c d rr ee) as [[e2 errs] looked];
      assert (Hres : serviceexport.Spec_Resources ee = serviceexport.Spec_Resources e)
  end.
  { destruct bindings as [|b [|b' rest]];
      unfold serviceexport.MarkFalse, serviceexport.MarkTrue;
      rewrite ?(copied_keeps_resources), ?Set_keeps_resources;
      reflexivity. }
  cbn [fst snd] in *. rewrite Hres in He, Hk. rewrite He, Hk. split; reflexivity.
Qed.

End ReconcileProperties.

(** X27: when setting a condition leaves the resources of the export
    alone: if listing the bindings fails, [reconcile] returns that error,
    leaves the export as it is and looks up nothing; otherwise, however
    many bindings there are, it looks up every resource of the export
    under [resource.group], in order, and returns the aggregate of
    exactly the lookup errors that are not "not found". *)
Theorem reconcile_outcome
  (ErrorText : error -> string) (IsNotFound : error -> bool)
  (conditions_Set : serviceexport.APIServiceExport -> serviceexport.Condition ->
                    serviceexport.APIServiceExport)
  (ServiceExportResourceToCRD :
     serviceexport.APIServiceExportResource -> result CustomResourceDefinition)
  (SetSummary : serviceexport.APIServiceExport -> serviceexport.APIServiceExport)
  (APIServiceBinding : Type) (binding_Name : APIServiceBinding -> string)
  (conditions_Get : APIServiceBinding -> string -> option serviceexport.Condition)
  (Connected SchemaInSync ServiceBindingReady BindingSchemaInSync ReadyCondition : string)
  (listServiceBinding : string -> result (list APIServiceBinding))
  (getServiceExportResource : string -> result serviceexport.APIServiceExportResource)
  (e : serviceexport.APIServiceExport) :
  (forall e c,
      serviceexport.Spec_Resources (conditions_Set e c) = serviceexport.Spec_Resources e) ->
  match listServiceBinding (serviceexport.Name e) with
  | Err err =>
      reconcile.reconcile ErrorText IsNotFound conditions_Set
        ServiceExportResourceToCRD SetSummary APIServiceBinding binding_Name
        conditions_Get Connected SchemaInSync ServiceBindingReady
        BindingSchemaInSync ReadyCondition listServiceBinding
        getServiceExportResource e
      = (e, reconcile.ListError err, [])
  | Ok _ =>
      snd (fst (reconcile.reconcile ErrorText IsNotFound conditions_Set
                  ServiceExportResourceToCRD SetSummary APIServiceBinding binding_Name
                  conditions_Get Connected SchemaInSync ServiceBindingReady
                  BindingSchemaInSync ReadyCondition listServiceBinding
                  getServiceExportResource e))
      = reconcile.Aggregate
          (flat_map (hardError IsNotFound getServiceExportResource)
             (serviceexport.Spec_Resources e))
      /\ snd (reconcile.reconcile ErrorText IsNotFound conditions_Set
                ServiceExportResourceToCRD SetSummary APIServiceBinding binding_Name
                conditions_Get Connected SchemaInSync ServiceBindingReady
                BindingSchemaInSync ReadyCondition listServiceBinding
                getServiceExportResource e)
         = map lookupName (serviceexport.Spec_Resources e)
  end.
Proof.
  intros Hset.
  destruct (listServiceBinding (serviceexport.Name e)) as [bindings | err] eqn:Hl.
  - eapply reconcile_after_listing; eassumption.
  - unfold reconcile.reconcile. now rewrite Hl.
Qed.

Lemma reconcile_outcome_witness :
  snd (fst (reconcile.reconcile Sample.errorText SampleCluster.isNotFound
              SampleCluster.setCondition SampleCluster.toCRD (fun e => e)
              SampleCluster.Binding fst SampleCluster.getCondition
              "Connected" "SchemaInSync" "ServiceBindingReady" "SchemaInSync" "Ready"
              (SampleCluster.listBindings (Ok []))
              SampleCluster.getResource
              (SampleCluster.exportOf ["widgets"; "flaky"; "gone"])))
  = reconcile.Aggregate
      (flat_map (hardError SampleCluster.isNotFound SampleCluster.getResource)
         (serviceexport.Spec_Resources
            (SampleCluster.exportOf ["widgets"; "flaky"; "gone"])))
  /\ snd (reconcile.reconcile Sample.errorText SampleCluster.isNotFound
            SampleCluster.setCondition SampleCluster.toCRD (fun e => e)
            SampleCluster.Binding fst SampleCluster.getCondition
            "Connected" "SchemaInSync" "ServiceBindingReady" "SchemaInSync" "Ready"
            (SampleCluster.listBindings (Ok []))
            SampleCluster.getResource
            (SampleCluster.exportOf ["widgets"; "flaky"; "gone"]))
     = map lookupName
         (serviceexport.Spec_Resources
            (SampleCluster.exportOf ["widgets"; "flaky"; "gone"])).
Proof.
  exact (reconcile_outcome Sample.errorText SampleCluster.isNotFound
           SampleCluster.setCondition SampleCluster.toCRD (fun e => e)
           SampleCluster.Binding fst SampleCluster.getCondition
           "Connected" "SchemaInSync" "ServiceBindingReady" "SchemaInSync" "Ready"
           (SampleCluster.listBindings (Ok []))
           SampleCluster.getResource
           (SampleCluster.exportOf ["widgets"; "flaky"; "gone"])
           (fun e c => eq_refl)).
Defined.
